(** * The exam-drop extractor of the "Wie is de Mol" predictor

    A shallow embedding of [moldel/Layers/ExamDrop/ExamDropExtractor.py]:
    the season-data expansion, the greedy bin allocator [get_num_bins], the
    answered-on augmentation, the sample weights and the two entry points
    [get_train_data] and [get_predict_data].

    Conventions.  Python floats are rationals ([Q]): a finite binary64
    number is a rational, and where the allocator subtracts entropies, whose
    differences order its priority queue, the rounding of the result is
    written out ([float_sub]); the other float operations are kept exact.
    Python ints that may be negative are [Z], counts and indices are [nat];
    [Set[Player]] is [gset Player], a [dict] is a [gmap]; raised exceptions
    are the [Raise] results of the [result] monad.  The numerical libraries (scikit-learn,
    scipy) and the repository modules that are not part of this file's
    source (the encoder, the exam data, the player data) enter as section
    variables. *)

From Stdlib Require Import QArith Qminmax Qround Qabs Qpower ZArith Lia Lqa Sorted.
From stdpp Require Import base option list gmap sets.

Set Default Proof Using "Type".

(** ** Exceptions and the error monad *)

Inductive exn : Set :=
  | IndexError
  | KeyError
  | ZeroDivisionError
  | AttributeError
  | NotFittedError
  | ValueError.

Inductive result (A : Type) : Type :=
  | Ok (a : A)
  | Raise (e : exn).
Arguments Ok {A} a.
Arguments Raise {A} e.

#[global] Instance result_ret : MRet result := λ A a, Ok a.
#[global] Instance result_bind : MBind result := λ A B f r,
  match r with
  | Ok a => f a
  | Raise e => Raise e
  end.
#[global] Instance result_fmap : FMap result := λ A B f r,
  match r with
  | Ok a => Ok (f a)
  | Raise e => Raise e
  end.

(** [l[i]] on a Python list or a numpy axis: out of range raises. *)
Definition getitem {A} (l : list A) (i : nat) : result A :=
  match l !! i with
  | Some x => Ok x
  | None => Raise IndexError
  end.

(** [l[i] = x]: out of range raises, it never extends the list. *)
Definition setitem {A} (l : list A) (i : nat) (x : A) : result (list A) :=
  if decide (i < length l) then Ok (<[i := x]> l) else Raise IndexError.

(** [d[k]] on a dict. *)
Definition dict_getitem `{Countable K} {V} (d : gmap K V) (k : K) : result V :=
  match d !! k with
  | Some v => Ok v
  | None => Raise KeyError
  end.

(** [1 / n] for an int [n]: true division, raising on zero. *)
Definition true_div_1 (n : nat) : result Q :=
  match n with
  | O => Raise ZeroDivisionError
  | S _ => Ok (1 # Pos.of_nat n)
  end.

(** [l[::2]] and [l[1::2]]. *)
Fixpoint evens {A} (l : list A) : list A :=
  match l with
  | [] => []
  | x :: l' => x :: odds l'
  end
with odds {A} (l : list A) : list A :=
  match l with
  | [] => []
  | _ :: l' => evens l'
  end.

(** [min] of a non-empty list of ints. *)
Definition py_min (x : Z) (l : list Z) : Z := foldl Z.min x l.

(** [set(column)] for a column of floats, kept as the list of its distinct
    values; only its length is used. *)
Fixpoint py_set (l : list Q) : list Q :=
  match l with
  | [] => []
  | x :: l' => if existsb (Qeq_bool x) l' then py_set l' else x :: py_set l'
  end.

Definition sys_maxsize : Z := 9223372036854775807.

(** ** Floats

    A finite Python float is a binary64 number: zero, or [m * 2 ^ e] with an
    integer [m] of at most 53 bits and [e >= -1074].  The result of an
    arithmetic operation is the exact result rounded to the nearest such
    number, a tie going to the even [m].  Overflow to infinity is not
    modelled (the allocator subtracts entropies, which are bounded by the
    logarithm of the bin count), and the two zeros are one. *)

(** The nearest integer, a tie going to the even one. *)
Definition round_half_even (q : Q) : Z :=
  let f := Qfloor q in
  match (q - inject_Z f ?= 1 # 2)%Q with
  | Lt => f
  | Gt => (f + 1)%Z
  | Eq => if Z.even f then f else (f + 1)%Z
  end.

(** The exponent of the unit in the last place of the binary64 numbers
    around [q]: the [e] with [2 ^ (e + 52) <= |q| < 2 ^ (e + 53)], and
    [-1074] in the subnormal range. *)
Definition ulp_exponent (q : Q) : Z :=
  let e := (Z.log2 (Z.abs (Qnum q)) - Z.log2 (Z.pos (Qden q)))%Z in
  let e := if Qle_bool (2 ^ e) (Qabs q) then e else (e - 1)%Z in
  Z.max (e - 52) (-1074).

(** The binary64 number nearest to [q]. *)
Definition float_round (q : Q) : Q :=
  let e := ulp_exponent q in
  (inject_Z (round_half_even (q / 2 ^ e)) * 2 ^ e)%Q.

(** [x - y] on floats. *)
Definition float_sub (x y : Q) : Q := float_round (x - y).

(** ** The data classes

    The extractor imports its data classes from [Data.Player],
    [Data.ExamData] and [Layers.ExamDrop.ExamDropEncoder]; their declarations
    are not part of the source at hand.  Each is given here with exactly the
    attributes and methods the extractor uses. *)

(** Modelled from the spec: the [Player] enumeration of [Data.Player], a
    participant, identified by a number. *)
Definition Player := nat.

(** Modelled from the spec: the question asked, an opaque identifier. *)
Definition Question := nat.

(** Modelled from the spec: the [DropType] enumeration, of which the
    extractor names one member. *)
Inductive DropType : Set := EXECUTION_DROP.

(** Modelled from the spec: the episode class.  An episode has a number (the
    value [exam_episode <= episode] compares with a removal episode), the
    players taking its exam, and the recorded exam input, one entry per
    answer given: who answered, which question, and the set of players
    answered. *)
Record Episode := {
  number : Z;
  players : list Player;
  input : list (Player * Question * gset Player)
}.

#[global] Instance Episode_eq_dec : EqDecision Episode.
Proof. solve_decision. Defined.

(** Modelled from the spec: the answer tuple [season.get_all_answers]
    yields, with the four attributes the extractor reads. *)
Module Answer.
Record t := {
  player : Player;
  episode : Episode;
  question : Question;
  answer : gset Player
}.
End Answer.

(** Modelled from the spec: [episode.get_all_answers(players, max_episode)],
    all raw observations recorded in this episode by the given participants.
    The extractor only calls it with [sys.maxsize], across all visibility. *)
Definition Episode_get_all_answers (e : Episode) (ps : gset Player)
    (max_episode : Z) : list Answer.t :=
  (λ r, {| Answer.player := r.1.1; Answer.episode := e;
           Answer.question := r.1.2; Answer.answer := r.2 |})
    <$> filter (λ r, r.1.1 ∈ ps) (input e).

(** Modelled from the spec: the season class, by the two methods the
    extractor calls: the mapping from a participant to the episodes of their
    removal, and the ordered answers of a set of participants, both up to a
    cutoff episode. *)
Record Season := {
  get_drop_mapping : DropType → Z → gmap Player (list Z);
  get_all_answers : gset Player → Z → list Answer.t
}.

(** The selected slot of a sample: a player in train mode, a bool in
    predict mode ([isinstance(sample.selected_player, bool)] tells them
    apart). *)
Inductive selected : Set :=
  | SelPlayer (p : Player)
  | SelBool (b : bool).

#[global] Instance selected_eq_dec : EqDecision selected.
Proof. solve_decision. Defined.

(** Modelled from the spec: the [TrainSample] tuple of the encoder, with its
    seven fields in the order the extractor passes them. *)
Module TrainSample.
Record t := {
  player : Player;
  season : Z;
  drop_episode : Z;
  exam_episode : Episode;
  question : Question;
  answer : gset Player;
  selected_player : selected
}.
End TrainSample.

Record PredictSample := {
  in_answer : gset Player;
  out_answer : gset Player;
  in_features : list Q;
  out_features : list Q;
  weight : Q
}.

(** ** The priority queue

    [queue.PriorityQueue] holding [(gain, feature index)] tuples, modelled
    by its contract: the entries are kept in Python's tuple order, [get]
    removes and returns the least one.  Tuples compare on the first
    component, and on the second when the first components are equal. *)

Module PriorityQueue.
Definition entry : Type := Q * nat.
Definition t : Type := list entry.

Definition lt (a b : entry) : Prop :=
  (a.1 < b.1)%Q ∨ ((a.1 == b.1)%Q ∧ a.2 < b.2).

Definition ltb (a b : entry) : bool :=
  match (a.1 ?= b.1)%Q with
  | Lt => true
  | Eq => bool_decide (a.2 < b.2)
  | Gt => false
  end.

(** [a <= b], as not [b < a]: the order is total. *)
Definition le (a b : entry) : Prop := ¬ lt b a.

Definition new : t := [].

Definition empty (q : t) : bool :=
  match q with
  | [] => true
  | _ :: _ => false
  end.

Fixpoint put (x : entry) (q : t) : t :=
  match q with
  | [] => [x]
  | y :: q' => if ltb x y then x :: y :: q' else y :: put x q'
  end.

Definition get (q : t) : option (entry * t) :=
  match q with
  | [] => None
  | x :: q' => Some (x, q')
  end.
End PriorityQueue.

(** Equality of floats is decidable. *)
#[global] Instance Qeq_decision (x y : Q) : Decision (x == y)%Q :=
  Qeq_dec x y.

(** ** The validation plot of the appearance layer

    [Layers/Appearance/Validation/KDEPlot.py] splits the first feature of
    the train rows by label and plots, besides the two densities, the
    posterior of being the mol under a prior of one in ten. *)

(** [[data[0] for data, label in rows if label == value]]: the condition
    is tested first, so only a selected row is indexed. *)
Fixpoint first_feature_with_label (value : Q) (rows : list (list Q * Q))
    : result (list Q) :=
  match rows with
  | [] => Ok []
  | (data, label) :: rest =>
      if Qeq_bool label value then
        x ← getitem data 0;
        xs ← first_feature_with_label value rest;
        Ok (x :: xs)
      else first_feature_with_label value rest
  end.

Definition non_mol (train_input : list (list Q)) (train_output : list Q)
    : result (list Q) :=
  first_feature_with_label 0 (zip train_input train_output).

Definition mol (train_input : list (list Q)) (train_output : list Q)
    : result (list Q) :=
  first_feature_with_label 1 (zip train_input train_output).

(** [[(mY / 10) / (9 * nY / 10 + mY / 10) for nY, mY in zip(...)]]. *)
Definition posterior_Y (non_mol_Y mol_Y : list Q) : list Q :=
  zip_with (λ nY mY, (mY / 10) / (9 * nY / 10 + mY / 10))%Q non_mol_Y mol_Y.

(** ** The extractor *)

(** An estimator attribute of the extractor: a scikit-learn object is created
    unfitted and fitted in place by [fit_transform]. *)
Inductive estimator (P : Type) : Type :=
  | Unfitted
  | Fitted (p : P).
Arguments Unfitted {P}.
Arguments Fitted {P} p.

Section Extractor.

(** The exam data of all seasons, [Data.ExamData.Exams.All.EXAM_DATA]. *)
Variable EXAM_DATA : gmap Z Season.
(** [Data.PlayerData.get_is_mol], applied to a sample's selected slot. *)
Variable get_is_mol : selected → bool.
(** [ExamDropEncoder.extract_features]. *)
Variable extract_features : TrainSample.t → Z → list Q.

(** scikit-learn's [KBinsDiscretizer] with [encode = "onehot-dense"] and the
    k-means strategy: fitting with one bin count per feature, and
    transforming with the fitted bin edges. *)
Variable KBins : Type.
Variable KBins_fit : list nat → list (list Q) → result KBins.
Variable KBins_transform : KBins → list (list Q) → result (list (list Q)).
(** A throw-away discretizer fitted to one column with [bins] bins and
    applied to it, as [__entropy] uses it.  The allocator only asks for bin
    counts from 2 up to the column's number of distinct values, where the
    library returns: this use is taken as a total function. *)
Variable KBins_fit_transform : nat → list (list Q) → list (list Q).
(** [scipy.stats.entropy] of a probability vector. *)
Variable stats_entropy : list Q → Q.
(** [SelectFpr(f_classif, alpha)]: fitting against the labels, transforming
    with the fitted mask. *)
Variable SelectFpr : Type.
Variable SelectFpr_fit : Q → list (list Q) → list Q → result SelectFpr.
Variable SelectFpr_transform : SelectFpr → list (list Q) → result (list (list Q)).
(** [PCA(n_components)]. *)
Variable PCA : Type.
Variable PCA_fit : Q → list (list Q) → result PCA.
Variable PCA_transform : PCA → list (list Q) → result (list (list Q)).

(** *** Season data *)

Definition make_sample (season_num : Z) (drop : Z) (answer : Answer.t)
    (sel : selected) : TrainSample.t :=
  {| TrainSample.player := Answer.player answer;
     TrainSample.season := season_num;
     TrainSample.drop_episode := drop;
     TrainSample.exam_episode := Answer.episode answer;
     TrainSample.question := Answer.question answer;
     TrainSample.answer := Answer.answer answer;
     TrainSample.selected_player := sel |}.

(** The body of [for answer in all_answers], threading [season_data]. *)
Definition season_data_step (drop_players : gmap Player (list Z))
    (season_num : Z) (training_data : bool)
    (season_data : list TrainSample.t) (answer : Answer.t)
    : result (list TrainSample.t) :=
  let exam_episode := Answer.episode answer in
  drop_episodes ← dict_getitem drop_players (Answer.player answer);
  let drop_episodes :=
    filter (λ episode, (number exam_episode ≤ episode)%Z) drop_episodes in
  match drop_episodes with
  | [] => Ok season_data
  | d :: ds =>
      if training_data then
        Ok (foldl (λ season_data player,
               season_data ++
               [make_sample season_num (py_min d ds) answer (SelPlayer player)])
             season_data (players exam_episode))
      else
        Ok (foldl (λ season_data answer_on,
               season_data ++
               [make_sample season_num (py_min d ds) answer (SelBool answer_on)])
             season_data [false; true])
  end.

Fixpoint season_data_loop (drop_players : gmap Player (list Z))
    (season_num : Z) (training_data : bool)
    (all_answers : list Answer.t) (season_data : list TrainSample.t)
    : result (list TrainSample.t) :=
  match all_answers with
  | [] => Ok season_data
  | answer :: rest =>
      season_data ← season_data_step drop_players season_num training_data
                       season_data answer;
      season_data_loop drop_players season_num training_data rest season_data
  end.

Definition __get_season_data (season_num max_episode : Z)
    (training_data : bool) : result (list TrainSample.t) :=
  season ← dict_getitem EXAM_DATA season_num;
  let drop_players := get_drop_mapping season EXECUTION_DROP max_episode in
  let all_answers := get_all_answers season (dom drop_players) max_episode in
  season_data_loop drop_players season_num training_data all_answers [].

(** *** Sample weights *)

Fixpoint train_weights_loop (train_data : list TrainSample.t)
    (train_weights : list Q) : result (list Q) :=
  match train_data with
  | [] => Ok train_weights
  | sample :: rest =>
      let num_answers :=
        Episode_get_all_answers (TrainSample.exam_episode sample)
          {[ TrainSample.player sample ]} sys_maxsize in
      w ← true_div_1 (length num_answers);
      train_weights_loop rest (train_weights ++ [w])
  end.

Definition __get_train_weights (train_data : list TrainSample.t)
    : result (list Q) :=
  train_weights_loop train_data [].

(** *** The answered-on augmentation *)

Definition answered_on (sample : TrainSample.t) : Q :=
  match TrainSample.selected_player sample with
  | SelBool b => if b then 1 else 0
  | SelPlayer p =>
      if decide (p ∈ TrainSample.answer sample) then 1 else 0
  end%Q.

Definition __add_answered_on_feature (samples : list TrainSample.t)
    (all_features : list (list Q)) : list (list Q) :=
  foldl (λ new_features '(sample, features),
      let answered_on := answered_on sample in
      let features := features ++ (Qmult answered_on <$> features) in
      let features := features ++ [answered_on] in
      new_features ++ [features])
    [] (zip samples all_features).


(** *** The bin allocator *)

(** [train_input.T]: the columns of a two-dimensional array given by its
    rows.  An array is rectangular; its width is read off its first row. *)
Definition T (train_input : list (list Q)) : list (list Q) :=
  (λ j, omap (λ row : list Q, row !! j) train_input)
    <$> seq 0 (from_option length 0 (head train_input)).

(** [enumerate]. *)
Definition enumerate {A} (l : list A) : list (nat * A) := imap pair l.

(** [np.expand_dims(column, axis = 1)]. *)
Definition expand_dims (column : list Q) : list (list Q) :=
  (λ x, [x]) <$> column.

(** [np.sum(data, axis = 0)]. *)
Definition sum_axis0 (data : list (list Q)) : list Q :=
  match data with
  | [] => []
  | row :: rest => foldl (zip_with Qplus) row rest
  end.

(** [np.sum] of a vector. *)
Definition np_sum (v : list Q) : Q := foldl Qplus 0%Q v.

Definition __entropy (data : list (list Q)) (bins : nat) : Q :=
  let data := KBins_fit_transform bins data in
  let new_entropy := sum_axis0 data in
  stats_entropy ((λ x, x / np_sum new_entropy)%Q <$> new_entropy).

(** The three locals the allocator mutates. *)
Record alloc_state := {
  num_bins : list nat;
  entropies : list Q;
  options : PriorityQueue.t
}.

(** [for i, data in enumerate(train_input.T)], threading [options]. *)
Fixpoint options_loop (max_bins : list nat) (entropies : list Q)
    (columns : list (nat * list Q)) (options : PriorityQueue.t)
    : result PriorityQueue.t :=
  match columns with
  | [] => Ok options
  | (i, data) :: rest =>
      mb ← getitem max_bins i;
      if decide (2 < mb) then
        let data := expand_dims data in
        let new_entropy := __entropy data 3 in
        e ← getitem entropies i;
        options_loop max_bins entropies rest
          (PriorityQueue.put (- float_sub new_entropy e, i)%Q options)
      else options_loop max_bins entropies rest options
  end.

(** The body of the main loop after [entropy, i = options.get()]. *)
Definition split_step (train_input : list (list Q)) (max_bins : list nat)
    (st : alloc_state) (entropy : Q) (i : nat) (options : PriorityQueue.t)
    : result alloc_state :=
  nb ← getitem (num_bins st) i;
  num_bins ← setitem (num_bins st) i (nb + 1);
  e ← getitem (entropies st) i;
  entropies ← setitem (entropies st) i (float_sub e entropy);
  nb ← getitem num_bins i;
  mb ← getitem max_bins i;
  if decide (nb ≠ mb) then
    column ← getitem (T train_input) i;
    let data := expand_dims column in
    let new_entropy := __entropy data (nb + 1) in
    e ← getitem entropies i;
    Ok {| num_bins := num_bins; entropies := entropies;
          options :=
            PriorityQueue.put (- float_sub new_entropy e, i)%Q options |}
  else
    Ok {| num_bins := num_bins; entropies := entropies; options := options |}.

(** [for _ in range(n)], with the [break] on an empty queue. *)
Fixpoint split_loop (train_input : list (list Q)) (max_bins : list nat)
    (n : nat) (st : alloc_state) : result alloc_state :=
  match n with
  | O => Ok st
  | S n' =>
      match PriorityQueue.get (options st) with
      | None => Ok st
      | Some ((entropy, i), options) =>
          st ← split_step train_input max_bins st entropy i options;
          split_loop train_input max_bins n' st
      end
  end.

Definition max_bins_of (train_input : list (list Q)) : list nat :=
  (λ column, length (py_set column)) <$> T train_input.

(** The allocator up to its [return]: the locals after the main loop. *)
Definition get_num_bins_locals (train_input : list (list Q)) (max_splits : Z)
    : result alloc_state :=
  row0 ← getitem train_input 0;
  let num_bins := (λ _, 2) <$> row0 in
  let max_bins := max_bins_of train_input in
  let entropies :=
    (λ column, __entropy (expand_dims column) 2) <$> T train_input in
  options ← options_loop max_bins entropies (enumerate (T train_input))
               PriorityQueue.new;
  split_loop train_input max_bins (Z.to_nat max_splits)
    {| num_bins := num_bins; entropies := entropies; options := options |}.

Definition get_num_bins (train_input : list (list Q)) (max_splits : Z)
    : result (list nat) :=
  num_bins <$> get_num_bins_locals train_input max_splits.

(** *** The extractor object and its two entry points *)

(** The six configuration attributes and the three estimators.  The set
    [self.__train_seasons] is only ever iterated, by the loop of
    [get_train_data]: [train_seasons] is the list of its members in the
    order of that iteration, an order the set does not determine. *)
Record ExamDropExtractor := {
  predict_season : Z;
  predict_episode : Z;
  train_seasons : list Z;
  anova_f_significance : Q;
  pca_explain : Q;
  max_splits : Z;
  discretizer : option (estimator KBins);
  anova_f_filter : option (estimator SelectFpr);
  pca : option (estimator PCA)
}.

Definition __init__ (predict_season predict_episode : Z)
    (train_seasons : list Z) (anova_f_significance pca_explain : Q)
    (max_splits : Z) : result ExamDropExtractor :=
  Ok {| predict_season := predict_season;
        predict_episode := predict_episode;
        train_seasons := train_seasons;
        anova_f_significance := anova_f_significance;
        pca_explain := pca_explain;
        max_splits := max_splits;
        discretizer := None;
        anova_f_filter := None;
        pca := None |}.

(** A method: it may mutate [self] and it returns or raises. *)
Definition method (A : Type) : Type :=
  ExamDropExtractor → ExamDropExtractor * result A.

Definition ret {A} (a : A) : method A := λ self, (self, Ok a).

Definition bind {A B} (m : method A) (k : A → method B) : method B :=
  λ self,
    match m self with
    | (self, Ok a) => k a self
    | (self, Raise e) => (self, Raise e)
    end.

Definition lift {A} (r : result A) : method A := λ self, (self, r).

(** [self.__attr]: an attribute that was never assigned raises. *)
Definition getattr {A} (attr : ExamDropExtractor → option A) : method A :=
  λ self,
    match attr self with
    | Some a => (self, Ok a)
    | None => (self, Raise AttributeError)
    end.

Definition set_discretizer (v : estimator KBins) : method () :=
  λ self,
    ({| predict_season := predict_season self;
        predict_episode := predict_episode self;
        train_seasons := train_seasons self;
        anova_f_significance := anova_f_significance self;
        pca_explain := pca_explain self;
        max_splits := max_splits self;
        discretizer := Some v;
        anova_f_filter := anova_f_filter self;
        pca := pca self |}, Ok ()).

Definition set_anova_f_filter (v : estimator SelectFpr) : method () :=
  λ self,
    ({| predict_season := predict_season self;
        predict_episode := predict_episode self;
        train_seasons := train_seasons self;
        anova_f_significance := anova_f_significance self;
        pca_explain := pca_explain self;
        max_splits := max_splits self;
        discretizer := discretizer self;
        anova_f_filter := Some v;
        pca := pca self |}, Ok ()).

Definition set_pca (v : estimator PCA) : method () :=
  λ self,
    ({| predict_season := predict_season self;
        predict_episode := predict_episode self;
        train_seasons := train_seasons self;
        anova_f_significance := anova_f_significance self;
        pca_explain := pca_explain self;
        max_splits := max_splits self;
        discretizer := discretizer self;
        anova_f_filter := anova_f_filter self;
        pca := Some v |}, Ok ()).

(** [estimator.transform(x)]: an unfitted estimator raises. *)
Definition transform {P} (tr : P → list (list Q) → result (list (list Q)))
    (e : estimator P) (x : list (list Q)) : result (list (list Q)) :=
  match e with
  | Unfitted => Raise NotFittedError
  | Fitted p => tr p x
  end.

#[local] Instance method_ret : MRet method := @ret.
#[local] Instance method_bind : MBind method := λ A B k m, bind m k.

(** [for season in self.__train_seasons: train_data.extend(...)]. *)
Fixpoint train_data_loop (seasons : list Z) (train_data : list TrainSample.t)
    : result (list TrainSample.t) :=
  match seasons with
  | [] => Ok train_data
  | season :: rest =>
      season_data ← __get_season_data season sys_maxsize true;
      train_data_loop rest (train_data ++ season_data)
  end.

Definition get_train_data : method (list (list Q) * list Q * list Q) :=
  λ self,
  (train_data ← lift (train_data_loop (train_seasons self) []);
   let train_input :=
     (λ sample, extract_features sample sys_maxsize) <$> train_data in
   let train_output :=
     (λ sample, if get_is_mol (TrainSample.selected_player sample)
                then 1%Q else 0%Q) <$> train_data in
   num_bins ← lift (get_num_bins train_input (max_splits self));
   set_discretizer Unfitted;;
   d ← lift (KBins_fit num_bins train_input);
   set_discretizer (Fitted d);;
   train_input ← lift (KBins_transform d train_input);
   let train_input := __add_answered_on_feature train_data train_input in
   set_anova_f_filter Unfitted;;
   f ← lift (SelectFpr_fit (anova_f_significance self) train_input train_output);
   set_anova_f_filter (Fitted f);;
   train_input ← lift (SelectFpr_transform f train_input);
   set_pca Unfitted;;
   p ← lift (PCA_fit (pca_explain self) train_input);
   set_pca (Fitted p);;
   train_input ← lift (PCA_transform p train_input);
   train_weights ← lift (__get_train_weights train_data);
   mret (train_input, train_output, train_weights)) self.

(** [for data, in_features, out_features, weight in zip(...)], threading
    [predict_samples]; [zip] stops at the shortest of its arguments. *)
Fixpoint predict_samples_loop (datas : list TrainSample.t)
    (ins outs : list (list Q)) (weights : list Q)
    (predict_samples : list PredictSample) : list PredictSample :=
  match datas, ins, outs, weights with
  | data :: datas, in_features :: ins, out_features :: outs, weight :: weights =>
      let in_answer := TrainSample.answer data in
      let out_answer :=
        list_to_set (players (TrainSample.exam_episode data))
          ∖ TrainSample.answer data in
      predict_samples_loop datas ins outs weights
        (predict_samples ++
         [{| in_answer := in_answer; out_answer := out_answer;
             in_features := in_features; out_features := out_features;
             weight := weight |}])
  | _, _, _, _ => predict_samples
  end.

Definition get_predict_data : method (list PredictSample) :=
  λ self,
  (predict_data ← lift (__get_season_data (predict_season self)
                          (predict_episode self) false);
   match predict_data with
   | [] => mret []
   | _ :: _ =>
       let predict_input :=
         (λ sample, extract_features sample (predict_episode self))
           <$> predict_data in
       d ← getattr discretizer;
       predict_input ← lift (transform KBins_transform d predict_input);
       let predict_input :=
         __add_answered_on_feature predict_data predict_input in
       f ← getattr anova_f_filter;
       predict_input ← lift (transform SelectFpr_transform f predict_input);
       p ← getattr pca;
       predict_input ← lift (transform PCA_transform p predict_input);
       weights ← lift (__get_train_weights predict_data);
       mret (predict_samples_loop (evens predict_data) (odds predict_input)
               (evens predict_input) weights [])
   end) self.


(** ** Characterisations used by the properties *)

(** The value [min(drop_episodes)] takes for an answer: the earliest recorded
    removal episode of its author that is not before the exam episode, when
    there is one. *)
Definition removal_episode (drop_players : gmap Player (list Z))
    (answer : Answer.t) : option Z :=
  match filter (λ episode, (number (Answer.episode answer) ≤ episode)%Z)
          (default [] (drop_players !! Answer.player answer)) with
  | [] => None
  | d :: ds => Some (py_min d ds)
  end.

(** The selected slots one answer is expanded over. *)
Definition selections (training_data : bool) (answer : Answer.t)
    : list selected :=
  if training_data then SelPlayer <$> players (Answer.episode answer)
  else [SelBool false; SelBool true].

(** The samples one answer contributes to the season data. *)
Definition expansion (drop_players : gmap Player (list Z)) (season_num : Z)
    (training_data : bool) (answer : Answer.t) : list TrainSample.t :=
  match removal_episode drop_players answer with
  | None => []
  | Some d => make_sample season_num d answer <$> selections training_data answer
  end.

(** The sum of a list of floats. *)
Definition Qsum (l : list Q) : Q := foldr Qplus 0%Q l.

(** A count as a float. *)
Definition Qnat (n : nat) : Q := inject_Z (Z.of_nat n).

(** The sample belongs to the participant-episode pair [(p, e)]. *)
Definition same_pair (p : Player) (e : Episode) (s : TrainSample.t) : Prop :=
  TrainSample.player s = p ∧ TrainSample.exam_episode s = e.

#[global] Instance same_pair_dec p e s : Decision (same_pair p e s).
Proof. unfold same_pair. apply _. Defined.

(** The total weight of the samples of one participant-episode pair, for
    weights that correspond pairwise to the samples. *)
Definition pair_weight_sum (p : Player) (e : Episode)
    (data : list TrainSample.t) (weights : list Q) : Q :=
  Qsum (snd <$> filter (λ sw, same_pair p e sw.1) (zip data weights)).

(** The number of answers the sample's participant recorded in the sample's
    episode: the divisor of the sample's weight. *)
Definition num_answers (s : TrainSample.t) : nat :=
  length (Episode_get_all_answers (TrainSample.exam_episode s)
            {[ TrainSample.player s ]} sys_maxsize).

(** The answers of the pair [(p, e)] that the expansion emits samples for. *)
Definition emitted_answers (drop_players : gmap Player (list Z))
    (p : Player) (e : Episode) (all_answers : list Answer.t) : list Answer.t :=
  filter (λ a, (Answer.player a = p ∧ Answer.episode a = e) ∧
               is_Some (removal_episode drop_players a)) all_answers.

(** The number of samples the expansion generates per emitted answer. *)
Definition samples_per_answer (training_data : bool) (e : Episode) : nat :=
  if training_data then length (players e) else 2.

(** A training call has completed on [self]: the three estimators are
    fitted. *)
Definition trained (self : ExamDropExtractor) : Prop :=
  ∃ d f p, discretizer self = Some (Fitted d) ∧
           anova_f_filter self = Some (Fitted f) ∧
           pca self = Some (Fitted p).

(** The entropy [get_num_bins] computes for a column at a bin count. *)
Definition column_entropy (column : list Q) (bins : nat) : Q :=
  __entropy (expand_dims column) bins.

(** The gain of giving a column one more bin than [bins]: the negated
    difference of its entropy at [bins + 1] and at [bins] bins. *)
Definition gain (column : list Q) (bins : nat) : Q :=
  (- (column_entropy column (bins + 1) - column_entropy column bins))%Q.

(** The value [entropies[i]] holds for a column after [splits] splits of it:
    the entropy at 2 bins, from which every split subtracted the key it
    popped, the key being the negated difference of the entropy at the next
    bin count and [entropies[i]] itself. *)
Fixpoint tracked_entropy_after (column : list Q) (splits : nat) : Q :=
  match splits with
  | O => column_entropy column 2
  | S k =>
      let e := tracked_entropy_after column k in
      float_sub e (- float_sub (column_entropy column (k + 3)) e)
  end.

(** The value [entropies[i]] holds for a column that has [bins] bins. *)
Definition tracked_entropy (column : list Q) (bins : nat) : Q :=
  tracked_entropy_after column (bins - 2).

(** The key [get_num_bins] pushes for a column that has [bins] bins: the
    negated float difference of its entropy at [bins + 1] bins and the
    tracked entropy. *)
Definition pushed_gain (column : list Q) (bins : nat) : Q :=
  (- float_sub (column_entropy column (bins + 1))
       (tracked_entropy column bins))%Q.

(** Half a unit in the last place of a binary64 number: [2 ^ -53] relative
    to its magnitude, and [2 ^ -1075] in the subnormal range. *)
Definition float_u : Q := 1 # 9007199254740992.
Definition float_eta : Q := 2 ^ (-1075).

(** A bound on the rounding error of a float operation whose exact result
    has magnitude at most [M]. *)
Definition rounding_unit (M : Q) : Q := (M * float_u + float_eta)%Q.

(** The loop invariant of the allocator. *)
Record alloc_inv (train_input : list (list Q)) (st : alloc_state) : Prop := {
  inv_num_bins : length (num_bins st) = length (T train_input);
  inv_entropies_len : length (entropies st) = length (T train_input);
  inv_sorted : StronglySorted PriorityQueue.le (options st);
  inv_nodup : NoDup (options st).*2;
  inv_bounds : ∀ i nb column,
    num_bins st !! i = Some nb → T train_input !! i = Some column →
    2 ≤ nb ∧ nb ≤ 2 `max` length (py_set column) ∧
    (i ∈ (options st).*2 ↔ nb < length (py_set column));
  inv_entropies : ∀ i nb column e,
    num_bins st !! i = Some nb → T train_input !! i = Some column →
    entropies st !! i = Some e → e = tracked_entropy column nb;
  inv_gains : ∀ g i, (g, i) ∈ options st →
    ∃ nb column e,
      num_bins st !! i = Some nb ∧ T train_input !! i = Some column ∧
      entropies st !! i = Some e ∧
      g = (- float_sub (column_entropy column (nb + 1)) e)%Q
}.

(** The invariant of the allocator's first loop, once the columns before
    index [k] are done: the queue holds, in order, one entry per such column
    with more than two distinct values. *)
Definition init_queue_inv (columns : list (list Q)) (k : nat)
    (q : PriorityQueue.t) : Prop :=
  StronglySorted PriorityQueue.le q ∧ NoDup q.*2 ∧
  (∀ g i, (g, i) ∈ q →
     i < k ∧ ∃ column, columns !! i = Some column ∧
       2 < length (py_set column) ∧
       g = (- float_sub (column_entropy column 3)
                (column_entropy column 2))%Q) ∧
  (∀ i column, i < k → columns !! i = Some column →
     2 < length (py_set column) → i ∈ q.*2).

(** ** Example data

    One season with a single exam episode of three players: player 0 answered
    one question, player 1 answered two, player 2 none; players 0 and 1 have
    a recorded removal episode after the exam.  The numerical libraries are
    replaced by stand-ins that compute: estimators that transform by the
    identity, equal-width binning and the Gini impurity. *)

Definition example_episode : Episode :=
  {| number := 1;
     players := [0; 1; 2];
     input := [(0, 0, {[ 1 ]}); (1, 0, {[ 2 ]}); (1, 1, {[ 0 ]})] |}.

Definition example_season : Season :=
  {| get_drop_mapping := λ _ _, {[ 0 := [3%Z]; 1 := [2%Z] ]};
     get_all_answers := λ ps max_episode,
       if decide (number example_episode ≤ max_episode)%Z
       then Episode_get_all_answers example_episode ps max_episode
       else [] |}.

Definition example_exam_data : gmap Z Season := {[ 22%Z := example_season ]}.

Definition example_features (sample : TrainSample.t) (max_episode : Z)
    : list Q :=
  [Qnat (TrainSample.question sample); Qnat (TrainSample.player sample)].

Definition identity_fit (params : list nat) (x : list (list Q)) : result () :=
  Ok ().

Definition identity_transform (p : ()) (x : list (list Q))
    : result (list (list Q)) :=
  Ok x.

(** Equal-width binning of a single column into [bins] one-hot columns. *)
Definition width_fit_transform (bins : nat) (data : list (list Q))
    : list (list Q) :=
  let column := concat data in
  let lo := foldr Qmin (hd 0%Q column) column in
  let hi := foldr Qmax (hd 0%Q column) column in
  (λ x,
     let b :=
       if Qeq_bool hi lo then 0
       else Z.to_nat (Z.min (Z.of_nat bins - 1)
                        (Qfloor ((x - lo) / (hi - lo) * Qnat bins))) in
     (λ k, if decide (k = b) then 1%Q else 0%Q) <$> seq 0 bins) <$> column.

(** The Gini impurity of a probability vector. *)
Definition gini (p : list Q) : Q :=
  Qred (1 - Qsum ((λ x, x * x)%Q <$> p)).

Definition example_matrix : list (list Q) :=
  [[0; 0]; [1; 0]; [2; 1]; [4; 3]; [4; 3]]%Q.

(** The samples of the example season, in train and in predict mode, and
    their weights. *)
Definition example_train_data : list TrainSample.t :=
  Episode_get_all_answers example_episode {[ 0; 1 ]} sys_maxsize
    ≫= expansion {[ 0 := [3%Z]; 1 := [2%Z] ]} 22 true.

Definition example_predict_data : list TrainSample.t :=
  Episode_get_all_answers example_episode {[ 0; 1 ]} sys_maxsize
    ≫= expansion {[ 0 := [3%Z]; 1 := [2%Z] ]} 22 false.

Definition example_train_weights : list Q :=
  [1; 1; 1; 1 # 2; 1 # 2; 1 # 2; 1 # 2; 1 # 2; 1 # 2]%Q.

(** An extractor for season 22 with the given cutoff and estimators. *)
Definition example_extractor (episode : Z)
    (d : option (estimator KBins)) (f : option (estimator SelectFpr))
    (p : option (estimator PCA)) : ExamDropExtractor :=
  {| predict_season := 22;
     predict_episode := episode;
     train_seasons := [];
     anova_f_significance := 1 # 10;
     pca_explain := 9 # 10;
     max_splits := 3;
     discretizer := d;
     anova_f_filter := f;
     pca := p |}.

(** ** Example data for the tracked entropy

    Twelve samples of two features, binned by equal width.  Feature 0 takes
    three values and splits 6/6 at two bins and 6/0/6 at three; feature 1
    takes six values and splits 11/1 at two bins, 6/5/1 at three, 6/5/0/1 at
    four and 6/3/2/0/1 at five.  An empty bin adds nothing to the entropy, so
    a third bin gains feature 0 nothing, and a fourth bin gains feature 1
    nothing. *)
Definition drift_matrix : list (list Q) :=
  [[0; 0]; [1; 1]; [0; 2]; [1; 0]; [0; 1]; [1; 2];
   [12; 4]; [12; 5]; [12; 4]; [12; 5]; [12; 4]; [12; 12]]%Q.

(** The natural-logarithm entropy of the probability vectors of the drift
    matrix, as the binary64 numbers [scipy.stats.entropy] returns for
    them. *)
Definition table_entropy (p : list Q) : Q :=
  let p := filter (λ x, ¬ (x == 0)%Q) p in
  if decide (Forall2 Qeq p [1 # 2; 1 # 2]%Q)
  then float_round 0.6931471805599453
  else if decide (Forall2 Qeq p [11 # 12; 1 # 12]%Q)
  then float_round 0.2868359830561607
  else if decide (Forall2 Qeq p [1 # 2; 5 # 12; 1 # 12]%Q)
  then float_round 0.9184277849930976
  else if decide (Forall2 Qeq p [1 # 2; 1 # 4; 1 # 6; 1 # 12]%Q)
  then float_round 1.1988493129136213
  else 0%Q.

(** The allocator's locals on the drift matrix after one iteration: feature
    1 has three bins, its tracked entropy is one unit in the last place
    below its entropy at three bins, and its key is negative where its gain
    is zero. *)
Definition drift_locals : alloc_state :=
  let h0 := float_round 0.6931471805599453 in
  let h2 := float_round 0.2868359830561607 in
  let h3 := float_round 0.9184277849930976 in
  let tracked := float_sub h2 (- float_sub h3 h2) in
  {| num_bins := [2; 3];
     entropies := [h0; tracked];
     options := [((- float_sub h3 tracked)%Q, 1);
                 ((- float_sub h0 h0)%Q, 0)] |}.

(** ** Further characterisations *)

(** The bin counts at which the allocator can give a feature nothing more:
    the larger of 2 and its number of distinct values. *)
Definition saturation (train_input : list (list Q)) : list nat :=
  (λ column, 2 `max` length (py_set column)) <$> T train_input.

(** A one-hot row of width [b] with its 1 at position [k]. *)
Definition one_hot (b k : nat) : list Q :=
  (λ j, if decide (j = k) then 1%Q else 0%Q) <$> seq 0 b.

(** The vector [__entropy] hands to [scipy.stats.entropy]: the column sums
    of the one-hot matrix, divided by their total. *)
Definition bin_probabilities (data : list (list Q)) : list Q :=
  (λ x, x / np_sum (sum_axis0 data))%Q <$> sum_axis0 data.

(** The two extractors have the same configuration, the train seasons in
    the same iteration order (which is more than being the same set). *)
Definition same_configuration (self1 self2 : ExamDropExtractor) : Prop :=
  predict_season self1 = predict_season self2 ∧
  predict_episode self1 = predict_episode self2 ∧
  train_seasons self1 = train_seasons self2 ∧
  anova_f_significance self1 = anova_f_significance self2 ∧
  pca_explain self1 = pca_explain self2 ∧
  max_splits self1 = max_splits self2.

(** The inputs and labels [get_train_data] builds from its train data. *)
Definition train_features (train_data : list TrainSample.t) : list (list Q) :=
  (λ sample, extract_features sample sys_maxsize) <$> train_data.

Definition train_labels (train_data : list TrainSample.t) : list Q :=
  (λ sample, if get_is_mol (TrainSample.selected_player sample)
             then 1%Q else 0%Q) <$> train_data.

(** The extractor [self] with the three estimators fitted. *)
Definition with_estimators (self : ExamDropExtractor) (d : KBins)
    (f : SelectFpr) (p : PCA) : ExamDropExtractor :=
  {| predict_season := predict_season self;
     predict_episode := predict_episode self;
     train_seasons := train_seasons self;
     anova_f_significance := anova_f_significance self;
     pca_explain := pca_explain self;
     max_splits := max_splits self;
     discretizer := Some (Fitted d);
     anova_f_filter := Some (Fitted f);
     pca := Some (Fitted p) |}.

(** The prediction sample built from a season-data row, the included and the
    excluded feature row and a weight. *)
Definition make_predict_sample (data : TrainSample.t)
    (in_features out_features : list Q) (weight : Q) : PredictSample :=
  {| in_answer := TrainSample.answer data;
     out_answer :=
       list_to_set (players (TrainSample.exam_episode data))
         ∖ TrainSample.answer data;
     in_features := in_features;
     out_features := out_features;
     weight := weight |}.

(** ** Further example data *)

(** Player 2 is the mol. *)
Definition example_is_mol (sel : selected) : bool :=
  match sel with
  | SelPlayer p => bool_decide (p = 2)
  | SelBool _ => false
  end.

Definition identity_fit_labels (alpha : Q) (x : list (list Q)) (y : list Q)
    : result () :=
  Ok ().

Definition identity_fit_fraction (n_components : Q) (x : list (list Q))
    : result () :=
  Ok ().

(** A fresh extractor with the given train seasons. *)
Definition example_trainer (seasons : list Z) : ExamDropExtractor :=
  {| predict_season := 22;
     predict_episode := 6;
     train_seasons := seasons;
     anova_f_significance := 1 # 10;
     pca_explain := 9 # 10;
     max_splits := 3;
     discretizer := None;
     anova_f_filter := None;
     pca := None |}.

(** Exam data that holds the example season under two numbers. *)
Definition example_two_seasons : gmap Z Season :=
  {[ 21%Z := example_season; 22%Z := example_season ]}.
(** * Properties

    ** The answered-on augmentation *)

Lemma foldl_snoc {A B} (g : B → A) (l : list B) (acc : list A) :
  foldl (λ acc x, acc ++ [g x]) acc l = acc ++ (g <$> l).
Proof.
  revert acc. induction l as [|x l IH]; intros acc; simpl.
  - by rewrite app_nil_r.
  - rewrite IH. by rewrite <- app_assoc.
Qed.

Definition augment_row (sample : TrainSample.t) (features : list Q) : list Q :=
  features ++ (Qmult (answered_on sample) <$> features) ++ [answered_on sample].

Lemma add_answered_on_feature_rows samples all_features :
  __add_answered_on_feature samples all_features
  = (λ sf, augment_row sf.1 sf.2) <$> zip samples all_features.
Proof.
  unfold __add_answered_on_feature.
  enough (∀ l acc,
    foldl (λ new_features '(sample, features),
        let answered_on := answered_on sample in
        let features := features ++ (Qmult answered_on <$> features) in
        let features := features ++ [answered_on] in
        new_features ++ [features]) acc l
    = acc ++ ((λ sf, augment_row sf.1 sf.2) <$> l)) as H by apply H.
  induction l as [|[s f] l IH]; intros acc; simpl.
  - by rewrite app_nil_r.
  - rewrite IH. rewrite <- (app_assoc acc). simpl. unfold augment_row. simpl.
    by rewrite <- app_assoc.
Qed.

Lemma answered_on_cases sample :
  (answered_on sample = 0%Q ∨ answered_on sample = 1%Q) ∧
  (answered_on sample = 1%Q ↔
     TrainSample.selected_player sample = SelBool true ∨
     ∃ p, TrainSample.selected_player sample = SelPlayer p ∧
          p ∈ TrainSample.answer sample).
Proof.
  unfold answered_on.
  destruct (TrainSample.selected_player sample) as [p|[|]].
  - case_decide.
    + split; [by right|]. split; [|done]. intros _. right. by exists p.
    + split; [by left|]. split; [done|]. intros [?|(q & [= ->] & ?)]; done.
  - split; [by right|]. split; [|done]. by left.
  - split; [by left|]. split; [done|]. intros [?|(q & ? & ?)]; done.
Qed.

(** C6.  For rows of width [W] the augmentation returns one row per
    sample-row pair, each of width [2 W + 1]: the row itself, then the row
    multiplied by the answered-on value, then that value once more.  The
    value is 0 or 1, and it is 1 exactly when the selected slot is the
    boolean [True] or a player contained in the sample's answer set. *)
Theorem add_answered_on_feature_width (samples : list TrainSample.t)
    (all_features : list (list Q)) (W : nat) :
  Forall (λ features, length features = W) all_features →
  length (__add_answered_on_feature samples all_features)
    = length samples `min` length all_features ∧
  Forall (λ row, length row = 2 * W + 1)
    (__add_answered_on_feature samples all_features) ∧
  ∀ i sample features,
    samples !! i = Some sample → all_features !! i = Some features →
    ∃ a : Q,
      __add_answered_on_feature samples all_features !! i
        = Some (features ++ (Qmult a <$> features) ++ [a]) ∧
      (a = 0%Q ∨ a = 1%Q) ∧
      (a = 1%Q ↔
         TrainSample.selected_player sample = SelBool true ∨
         ∃ p, TrainSample.selected_player sample = SelPlayer p ∧
              p ∈ TrainSample.answer sample).
Proof.
  intros HW. rewrite add_answered_on_feature_rows.
  split; [by rewrite length_fmap, length_zip|]. split.
  - apply Forall_fmap, Forall_forall. intros [s f] Hin. simpl.
    apply elem_of_zip_r in Hin. simpl in Hin.
    rewrite Forall_forall in HW. specialize (HW _ Hin).
    unfold augment_row. rewrite !length_app, length_fmap. simpl. lia.
  - intros i sample features Hs Hf. exists (answered_on sample).
    split; [|apply answered_on_cases].
    rewrite list_lookup_fmap.
    assert (zip samples all_features !! i = Some (sample, features)) as ->; [|done].
    rewrite lookup_zip_with. rewrite Hs. simpl. by rewrite Hf.
Qed.


(** ** The season-data expansion *)




Lemma removal_episode_None drop_players answer episodes :
  drop_players !! Answer.player answer = Some episodes →
  removal_episode drop_players answer = None ↔
  ∀ e, e ∈ episodes → ¬ (number (Answer.episode answer) ≤ e)%Z.
Proof.
  intros Hl. unfold removal_episode. rewrite Hl. simpl.
  destruct (filter _ episodes) as [|x l] eqn:Hf.
  - split; [|done]. intros _ e He Hle.
    assert (e ∈ filter (λ episode, (number (Answer.episode answer) ≤ episode)%Z)
                  episodes) as Hin by by apply list_elem_of_filter.
    rewrite Hf in Hin. by apply elem_of_nil in Hin.
  - split; [done|]. intros Hno. exfalso.
    assert (x ∈ x :: l) as Hin by (apply elem_of_cons; by left).
    rewrite <- Hf in Hin.
    apply list_elem_of_filter in Hin as [Hle Hin]. by apply (Hno x).
Qed.

Lemma season_data_step_expansion drop_players season_num training_data
    season_data answer :
  Answer.player answer ∈ dom drop_players →
  season_data_step drop_players season_num training_data season_data answer
  = Ok (season_data ++ expansion drop_players season_num training_data answer).
Proof.
  intros [episodes Hl]%elem_of_dom.
  unfold season_data_step, expansion, removal_episode, dict_getitem.
  rewrite Hl. simpl.
  destruct (filter _ episodes) as [|d ds]; [by rewrite app_nil_r|].
  destruct training_data; simpl.
  - rewrite (foldl_snoc (λ player,
      make_sample season_num (py_min d ds) answer (SelPlayer player))).
    by rewrite <- list_fmap_compose.
  - by rewrite <- !app_assoc.
Qed.

Lemma season_data_loop_expansion drop_players season_num training_data
    all_answers season_data :
  (∀ a, a ∈ all_answers → Answer.player a ∈ dom drop_players) →
  season_data_loop drop_players season_num training_data all_answers season_data
  = Ok (season_data ++
        (all_answers ≫= expansion drop_players season_num training_data)).
Proof.
  revert season_data.
  induction all_answers as [|a l IH]; intros season_data Hdom; simpl.
  - by rewrite app_nil_r.
  - rewrite season_data_step_expansion
      by (apply Hdom, elem_of_cons; by left). simpl.
    rewrite IH by (intros; apply Hdom, elem_of_cons; by right).
    by rewrite <- app_assoc.
Qed.

Lemma expansion_predict_pairs drop_players season_num
    (all_answers : list Answer.t) (k : nat) :
  2 * k < length (all_answers ≫= expansion drop_players season_num false) →
  ∃ a d, a ∈ all_answers ∧ removal_episode drop_players a = Some d ∧
    (all_answers ≫= expansion drop_players season_num false) !! (2 * k)
      = Some (make_sample season_num d a (SelBool false)) ∧
    (all_answers ≫= expansion drop_players season_num false) !! (2 * k + 1)
      = Some (make_sample season_num d a (SelBool true)).
Proof.
  revert k. induction all_answers as [|a l IH]; intros k; [simpl; lia|].
  change ((a :: l) ≫= expansion drop_players season_num false)
    with (expansion drop_players season_num false a
          ++ (l ≫= expansion drop_players season_num false)).
  unfold expansion at 1 3 5.
  destruct (removal_episode drop_players a) as [d|] eqn:Hd.
  - change (make_sample season_num d a <$> selections false a)
      with [make_sample season_num d a (SelBool false);
            make_sample season_num d a (SelBool true)].
    destruct k as [|k].
    + intros _. exists a, d. split; [apply elem_of_cons; by left|]. done.
    + rewrite length_app. cbn [length]. intros Hk.
      destruct (IH k) as (a' & d' & Hin & Hd' & H0 & H1); [lia|].
      exists a', d'. split; [apply elem_of_cons; by right|]. split; [done|].
      replace (2 * S k) with (S (S (2 * k))) by lia.
      done.
  - rewrite app_nil_l. intros Hk.
    destruct (IH k) as (a' & d' & Hin & Hd' & H0 & H1); [done|].
    exists a', d'. split; [apply elem_of_cons; by right|]. done.
Qed.

Lemma expansion_predict_even drop_players season_num
    (all_answers : list Answer.t) :
  Nat.Even (length (all_answers ≫= expansion drop_players season_num false)).
Proof.
  induction all_answers as [|a l [n IH]]; [by exists 0|].
  change ((a :: l) ≫= expansion drop_players season_num false)
    with (expansion drop_players season_num false a
          ++ (l ≫= expansion drop_players season_num false)).
  rewrite length_app, IH. unfold expansion.
  destruct (removal_episode drop_players a).
  - exists (S n). cbn [length selections fmap list_fmap]. lia.
  - by exists n.
Qed.


(** ** The sample weights *)

Lemma season_data_step_Ok drop_players season_num training_data season_data
    answer x :
  season_data_step drop_players season_num training_data season_data answer
    = Ok x →
  x = season_data ++ expansion drop_players season_num training_data answer.
Proof.
  destruct (drop_players !! Answer.player answer) as [episodes|] eqn:Hl.
  - rewrite season_data_step_expansion by (apply elem_of_dom; eauto).
    by intros [= <-].
  - unfold season_data_step, dict_getitem. by rewrite Hl.
Qed.

Lemma season_data_loop_Ok drop_players season_num training_data all_answers
    season_data x :
  season_data_loop drop_players season_num training_data all_answers season_data
    = Ok x →
  x = season_data ++
      (all_answers ≫= expansion drop_players season_num training_data).
Proof.
  revert season_data.
  induction all_answers as [|a l IH]; intros season_data; simpl.
  - intros [= <-]. by rewrite app_nil_r.
  - destruct (season_data_step _ _ _ _ a) as [y|] eqn:Hstep; simpl; [|done].
    apply season_data_step_Ok in Hstep as ->. intros ->%IH.
    by rewrite <- app_assoc.
Qed.

Lemma train_weights_loop_Ok train_data train_weights ws :
  train_weights_loop train_data train_weights = Ok ws →
  ws = train_weights ++ ((λ s, 1 # Pos.of_nat (num_answers s)) <$> train_data) ∧
  Forall (λ s, 0 < num_answers s) train_data.
Proof.
  revert train_weights.
  induction train_data as [|s l IH]; intros acc; simpl.
  - intros [= <-]. by rewrite app_nil_r.
  - fold (num_answers s). destruct (num_answers s) as [|n] eqn:Hn; simpl; [done|].
    intros [-> HF]%IH. split.
    + by rewrite <- app_assoc.
    + constructor; [lia | done].
Qed.

Lemma train_weights_loop_positive train_data train_weights :
  Forall (λ s, 0 < num_answers s) train_data →
  train_weights_loop train_data train_weights
  = Ok (train_weights ++ ((λ s, 1 # Pos.of_nat (num_answers s)) <$> train_data)).
Proof.
  revert train_weights.
  induction train_data as [|s l IH]; intros acc HF; simpl.
  - by rewrite app_nil_r.
  - apply Forall_cons in HF as [Hs HF]. fold (num_answers s).
    destruct (num_answers s) as [|n] eqn:Hn; [lia|]. simpl.
    rewrite IH by done. by rewrite <- app_assoc.
Qed.

Lemma Qsum_app (l1 l2 : list Q) : (Qsum (l1 ++ l2) == Qsum l1 + Qsum l2)%Q.
Proof.
  induction l1 as [|x l1 IH]; simpl; [ring|]. rewrite IH. ring.
Qed.

Lemma Qsum_const (c : Q) (l : list Q) :
  Forall (λ x, x = c) l → (Qsum l == Qnat (length l) * c)%Q.
Proof.
  induction 1 as [|x l -> _ IH]; simpl.
  - unfold Qnat. simpl. ring.
  - rewrite IH. unfold Qnat. rewrite Nat2Z.inj_succ, <- Z.add_1_r, inject_Z_plus.
    ring.
Qed.

Lemma pair_weight_sum_fmap p e (w : TrainSample.t → Q) data :
  pair_weight_sum p e data (w <$> data) = Qsum (w <$> filter (same_pair p e) data).
Proof.
  unfold pair_weight_sum. f_equal.
  induction data as [|s l IH]; [done|].
  cbn [fmap list_fmap zip zip_with]. rewrite !filter_cons. cbn [fst].
  destruct (decide (same_pair p e s)).
  - cbn [fmap list_fmap snd]. f_equal. apply IH.
  - apply IH.
Qed.

Lemma filter_all {A} (P : A → Prop) `{∀ x, Decision (P x)} (l : list A) :
  (∀ x, x ∈ l → P x) → filter P l = l.
Proof.
  induction l as [|x l IH]; intros HP; [done|].
  rewrite filter_cons_True by (apply HP, elem_of_cons; by left).
  f_equal. apply IH. intros y Hy. apply HP, elem_of_cons. by right.
Qed.

Lemma filter_none {A} (P : A → Prop) `{∀ x, Decision (P x)} (l : list A) :
  (∀ x, x ∈ l → ¬ P x) → filter P l = [].
Proof.
  induction l as [|x l IH]; intros HP; [done|].
  rewrite filter_cons_False by (apply HP, elem_of_cons; by left).
  apply IH. intros y Hy. apply HP, elem_of_cons. by right.
Qed.

Lemma filter_expansion p e drop_players season_num training_data
    (all_answers : list Answer.t) :
  filter (same_pair p e)
    (all_answers ≫= expansion drop_players season_num training_data)
  = emitted_answers drop_players p e all_answers
      ≫= expansion drop_players season_num training_data.
Proof.
  unfold emitted_answers.
  induction all_answers as [|a l IH]; [done|].
  change ((a :: l) ≫= expansion drop_players season_num training_data)
    with (expansion drop_players season_num training_data a
          ++ (l ≫= expansion drop_players season_num training_data)).
  rewrite filter_app, IH, filter_cons.
  assert (∀ s, s ∈ expansion drop_players season_num training_data a →
            same_pair p e s ↔ Answer.player a = p ∧ Answer.episode a = e) as Hs.
  { intros s. unfold expansion.
    destruct (removal_episode drop_players a); [|by intros ?%elem_of_nil].
    by intros (sel & -> & _)%list_elem_of_fmap. }
  destruct (decide ((Answer.player a = p ∧ Answer.episode a = e) ∧
                    is_Some (removal_episode drop_players a))) as [[Ha Hr]|Hno].
  - change ((a :: ?l') ≫= ?f) with (f a ++ (l' ≫= f)). f_equal.
    apply filter_all. intros s Hin. by apply Hs.
  - rewrite <- (app_nil_l (_ ≫= _)). f_equal.
    destruct (removal_episode drop_players a) as [d|] eqn:Hd.
    + apply filter_none. intros s Hin Hsame. apply Hno.
      split; [by apply (Hs s)|]. by exists d.
    + unfold expansion. by rewrite Hd.
Qed.

Lemma length_emitted_expansion p e drop_players season_num training_data
    (all_answers : list Answer.t) :
  length (emitted_answers drop_players p e all_answers
            ≫= expansion drop_players season_num training_data)
  = length (emitted_answers drop_players p e all_answers)
    * samples_per_answer training_data e.
Proof.
  unfold emitted_answers.
  induction all_answers as [|a l IH]; [done|].
  rewrite filter_cons. case_decide as Ha; [|done].
  destruct Ha as [[_ <-] [d Hd]].
  change ((a :: ?l') ≫= ?f) with (f a ++ (l' ≫= f)).
  rewrite length_app, IH. cbn [length]. unfold expansion at 1. rewrite Hd.
  rewrite length_fmap. unfold selections, samples_per_answer.
  destruct training_data; [rewrite length_fmap|]; simpl; lia.
Qed.

(** C1 (as amended).  For the samples of a season and their weights, the
    weights of the samples sharing a participant-episode pair sum, once
    multiplied by the number [n] of answers the participant recorded in the
    episode, to the number of samples generated for the pair: the number of
    the pair's answers the expansion emits samples for, times the number of
    samples generated per answer.  So when all [n >= 1] recorded answers are
    emitted the sum is the number of samples per answer: the number of players
    of the exam episode in train mode, 2 in predict mode. *)
Theorem pair_weight_sum_samples_per_answer (season_num max_episode : Z)
    (training_data : bool) (season : Season) (data : list TrainSample.t)
    (weights : list Q) (p : Player) (e : Episode) :
  EXAM_DATA !! season_num = Some season →
  __get_season_data season_num max_episode training_data = Ok data →
  __get_train_weights data = Ok weights →
  length weights = length data ∧
  (∀ i s w, data !! i = Some s → weights !! i = Some w →
     w = 1 # Pos.of_nat (num_answers s)) ∧
  (pair_weight_sum p e data weights
     * Qnat (length (Episode_get_all_answers e {[ p ]} sys_maxsize))
   == Qnat (length (emitted_answers
                      (get_drop_mapping season EXECUTION_DROP max_episode) p e
                      (get_all_answers season
                         (dom (get_drop_mapping season EXECUTION_DROP max_episode))
                         max_episode))
            * samples_per_answer training_data e))%Q ∧
  (length (emitted_answers
             (get_drop_mapping season EXECUTION_DROP max_episode) p e
             (get_all_answers season
                (dom (get_drop_mapping season EXECUTION_DROP max_episode))
                max_episode))
   = length (Episode_get_all_answers e {[ p ]} sys_maxsize) →
   0 < length (Episode_get_all_answers e {[ p ]} sys_maxsize) →
   (pair_weight_sum p e data weights
    == Qnat (samples_per_answer training_data e))%Q).
Proof.
  intros Hseason Hdata Hw.
  unfold __get_season_data, dict_getitem in Hdata. rewrite Hseason in Hdata.
  simpl in Hdata. apply season_data_loop_Ok in Hdata. simpl in Hdata.
  set (dp := get_drop_mapping season EXECUTION_DROP max_episode) in *.
  set (answers := get_all_answers season (dom dp) max_episode) in *.
  apply train_weights_loop_Ok in Hw as [Hw Hpos]. simpl in Hw.
  set (n := length (Episode_get_all_answers e {[ p ]} sys_maxsize)).
  set (m := length (emitted_answers dp p e answers)).
  assert (length weights = length data) as Hlen by by rewrite Hw, length_fmap.
  assert (pair_weight_sum p e data weights * Qnat n
          == Qnat (m * samples_per_answer training_data e))%Q as Hsum.
  { rewrite Hw, pair_weight_sum_fmap.
    rewrite (Qsum_const (1 # Pos.of_nat n)).
    - rewrite length_fmap. rewrite Hdata at 1.
      rewrite filter_expansion, length_emitted_expansion. fold m.
      destruct (decide (m * samples_per_answer training_data e = 0)) as [->|Hne].
      { unfold Qnat. simpl. ring. }
      assert (0 < n) as Hn.
      { assert (filter (same_pair p e) data ≠ []) as Hnil.
        { intros Hnil. apply Hne. unfold m.
          rewrite <- (length_emitted_expansion p e dp season_num).
          rewrite <- filter_expansion, <- Hdata, Hnil. done. }
        destruct (filter (same_pair p e) data) as [|s l] eqn:Hf; [done|].
        assert (s ∈ filter (same_pair p e) data) as Hin
          by (rewrite Hf; apply elem_of_cons; by left).
        apply list_elem_of_filter in Hin as [[Hp He] Hin].
        rewrite Forall_forall in Hpos. specialize (Hpos s Hin).
        unfold num_answers in Hpos. rewrite Hp, He in Hpos. done. }
      rewrite <- Qmult_assoc.
      assert ((1 # Pos.of_nat n) * Qnat n == 1)%Q as ->; [|ring].
      unfold Qnat, Qmult, Qeq. simpl. lia.
    - apply Forall_fmap, Forall_forall. intros s [[Hp He] _]%list_elem_of_filter.
      simpl. unfold num_answers. by rewrite Hp, He. }
  split; [done|]. split; [|split; [done|]].
  - intros i s w Hs Hwi. rewrite Hw, list_lookup_fmap, Hs in Hwi. simpl in Hwi.
    by injection Hwi as <-.
  - fold m n. intros Hm Hn. rewrite Hm in Hsum.
    unfold Qnat in *. rewrite Nat2Z.inj_mul, inject_Z_mult in Hsum.
    apply (Qmult_inj_r _ _ (inject_Z (Z.of_nat n))).
    + intros H0. unfold Qeq in H0. simpl in H0. lia.
    + rewrite Hsum. ring.
Qed.

(** ** The entry points *)

Lemma get_predict_data_no_data (self : ExamDropExtractor) :
  __get_season_data (predict_season self) (predict_episode self) false = Ok [] →
  get_predict_data self = (self, Ok []).
Proof. intros H. unfold get_predict_data, mbind, method_bind, bind, lift. by rewrite H. Qed.

Lemma get_predict_data_unchanged (self : ExamDropExtractor) :
  (get_predict_data self).1 = self.
Proof.
  unfold get_predict_data, mbind, method_bind, bind, lift, getattr, mret,
    method_ret, ret.
  destruct (__get_season_data _ _ _) as [[|s l]|]; [done| |done].
  destruct (discretizer self) as [d|]; [|done].
  destruct (transform KBins_transform d _); [|done].
  destruct (anova_f_filter self) as [f|]; [|done].
  destruct (transform SelectFpr_transform f _); [|done].
  destruct (pca self) as [p|]; [|done].
  destruct (transform PCA_transform p _); [|done].
  by destruct (__get_train_weights _).
Qed.

Lemma get_season_data_no_answers (season_num max_episode : Z)
    (training_data : bool) (season : Season) :
  EXAM_DATA !! season_num = Some season →
  get_all_answers season
    (dom (get_drop_mapping season EXECUTION_DROP max_episode)) max_episode
    = [] →
  __get_season_data season_num max_episode training_data = Ok [].
Proof.
  intros Hs Ha. unfold __get_season_data, dict_getitem.
  rewrite Hs. simpl. by rewrite Ha.
Qed.

(** C9.  When no raw observation exists for the predict season and cutoff
    (the season has no answer up to the cutoff or, more generally, the
    season-data expansion yields no sample), [get_predict_data] returns the
    empty list and raises nothing, whatever the fitted state of the
    extractor, which it leaves as it was. *)
Theorem get_predict_data_empty (self : ExamDropExtractor) :
  (__get_season_data (predict_season self) (predict_episode self) false = Ok []
   ∨ ∃ season,
       EXAM_DATA !! predict_season self = Some season ∧
       get_all_answers season
         (dom (get_drop_mapping season EXECUTION_DROP (predict_episode self)))
         (predict_episode self) = []) →
  get_predict_data self = (self, Ok []).
Proof.
  intros [Hdata|(season & Hseason & Hnone)].
  - by apply get_predict_data_no_data.
  - apply get_predict_data_no_data.
    by apply (get_season_data_no_answers _ _ _ season).
Qed.

(** C7 (as amended).  On an extractor on which no training call has completed
    (one of the three estimators is absent or unfitted), [get_predict_data]
    raises whenever the predict season has at least one sample; with no
    sample it returns the empty list without looking at the fitted state.  On
    an extractor whose discretizer was never assigned the exception is the
    [AttributeError] of the missing attribute.  In every case the extractor is
    left as it was. *)
Theorem get_predict_data_untrained (self : ExamDropExtractor)
    (predict_data : list TrainSample.t) :
  ¬ trained self →
  __get_season_data (predict_season self) (predict_episode self) false
    = Ok predict_data →
  (predict_data = [] → get_predict_data self = (self, Ok [])) ∧
  (predict_data ≠ [] → ∃ e, get_predict_data self = (self, Raise e)) ∧
  (predict_data ≠ [] → discretizer self = None →
   get_predict_data self = (self, Raise AttributeError)).
Proof.
  intros Hun Hdata. split; [|split].
  - intros ->. by apply get_predict_data_no_data.
  - intros Hne. destruct predict_data as [|s l]; [done|].
    pose proof (get_predict_data_unchanged self) as Hself.
    destruct (get_predict_data self) as [self' [samples|e]] eqn:Hres;
      simpl in Hself; subst self'; [|by exists e].
    exfalso. apply Hun. revert Hres.
    unfold get_predict_data, mbind, method_bind, bind, lift, getattr, mret,
      method_ret, ret, transform.
    rewrite Hdata.
    destruct (discretizer self) as [[|d]|] eqn:Hd; simpl; try done.
    destruct (KBins_transform d _); simpl; try done.
    destruct (anova_f_filter self) as [[|f]|] eqn:Hf; simpl; try done.
    destruct (SelectFpr_transform f _); simpl; try done.
    destruct (pca self) as [[|p]|] eqn:Hp; simpl; try done.
    intros _. by exists d, f, p.
  - intros Hne Hd. destruct predict_data as [|s l]; [done|].
    unfold get_predict_data, mbind, method_bind, bind, lift, getattr.
    by rewrite Hdata, Hd.
Qed.

Lemma init_untrained ps pe ts a pc ms self :
  __init__ ps pe ts a pc ms = Ok self → ¬ trained self.
Proof. intros [= <-] (d & f & p & Hd & _). done. Qed.

Lemma get_train_data_trained (self self' : ExamDropExtractor) out :
  get_train_data self = (self', Ok out) → trained self'.
Proof.
  unfold get_train_data, mbind, method_bind, bind, lift, mret, method_ret, ret,
    set_discretizer, set_anova_f_filter, set_pca.
  repeat (match goal with
          | |- context [match ?x with _ => _ end] => destruct x; simpl; try done
          end).
  intros [= <- _]. by eexists _, _, _.
Qed.

(** C8 (as amended).  The constructor validates nothing and never raises:
    whatever the six configuration values are, it returns an extractor that
    stores them unchanged and has no estimator yet. *)
Theorem init_stores_configuration (season episode : Z) (seasons : list Z)
    (significance explain : Q) (splits : Z) :
  ∃ self,
    __init__ season episode seasons significance explain splits = Ok self ∧
    predict_season self = season ∧
    predict_episode self = episode ∧
    train_seasons self = seasons ∧
    anova_f_significance self = significance ∧
    pca_explain self = explain ∧
    max_splits self = splits ∧
    discretizer self = None ∧ anova_f_filter self = None ∧ pca self = None ∧
    ¬ trained self.
Proof.
  eexists. split; [done|]. repeat (split; [done|]).
  by intros (d & f & p & Hd & _).
Qed.

Lemma predict_samples_loop_weights (datas : list TrainSample.t)
    (ins outs : list (list Q)) (weights : list Q)
    (predict_samples : list PredictSample) :
  weight <$> predict_samples_loop datas ins outs weights predict_samples
  = (weight <$> predict_samples)
    ++ take ((length datas `min` length ins) `min` length outs) weights.
Proof.
  revert ins outs weights predict_samples.
  induction datas as [|data datas IH];
    intros [|i ins] [|o outs] [|w weights] acc; simpl;
    try by rewrite app_nil_r.
  rewrite IH, fmap_app. simpl. by rewrite <- app_assoc.
Qed.

(** The weights of the returned prediction samples are the leading weights
    of the rows: sample [k], built from rows [2k] and [2k+1], carries the
    weight of row [k]. *)
Lemma get_predict_data_weights (self self' : ExamDropExtractor)
    (samples : list PredictSample) :
  get_predict_data self = (self', Ok samples) →
  ∃ predict_data weights,
    __get_season_data (predict_season self) (predict_episode self) false
      = Ok predict_data ∧
    __get_train_weights predict_data = Ok weights ∧
    weight <$> samples = take (length samples) weights.
Proof.
  unfold get_predict_data, mbind, method_bind, bind, lift, getattr, mret,
    method_ret, ret.
  destruct (__get_season_data _ _ _) as [[|s l]|] eqn:Hdata; simpl; [| |done].
  - intros [= _ <-]. by exists [], [].
  - destruct (discretizer self) as [d|]; simpl; [|done].
    destruct (transform KBins_transform d _); simpl; [|done].
    destruct (anova_f_filter self) as [f|]; simpl; [|done].
    destruct (transform SelectFpr_transform f _); simpl; [|done].
    destruct (pca self) as [p|]; simpl; [|done].
    destruct (transform PCA_transform p _) as [x|]; simpl; [|done].
    destruct (__get_train_weights (s :: l)) as [ws|] eqn:Hw; simpl; [|done].
    intros [= _ <-]. exists (s :: l), ws. split; [done|]. split; [done|].
    pose proof (predict_samples_loop_weights (evens (s :: l)) (odds x)
                  (evens x) ws []) as Hws.
    simpl in Hws. rewrite <- (length_fmap weight), Hws, length_take.
    match goal with |- take ?n _ = _ => generalize n end. intros n.
    destruct (decide (n ≤ length ws)) as [Hle|Hgt].
    + by rewrite Nat.min_l.
    + rewrite Nat.min_r by lia. by rewrite !take_ge by lia.
Qed.
(** ** Float rounding *)

Lemma round_half_even_error (q : Q) :
  (Qabs (inject_Z (round_half_even q) - q) <= 1 # 2)%Q.
Proof.
  unfold round_half_even.
  pose proof (Qfloor_le q) as Hlo. pose proof (Qlt_floor q) as Hhi.
  rewrite inject_Z_plus in Hhi. change (inject_Z 1) with 1%Q in Hhi.
  apply Qabs_Qle_condition.
  destruct (q - inject_Z (Qfloor q) ?= 1 # 2)%Q eqn:Hc.
  - apply Qeq_alt in Hc.
    destruct (Z.even (Qfloor q)); [|rewrite inject_Z_plus;
      change (inject_Z 1) with 1%Q]; split; lra.
  - apply Qlt_alt in Hc. split; lra.
  - apply Qgt_alt in Hc. rewrite inject_Z_plus.
    change (inject_Z 1) with 1%Q. split; lra.
Qed.

Lemma round_half_even_zero (q : Q) : (q == 0)%Q → round_half_even q = 0%Z.
Proof.
  intros Hz. unfold round_half_even. rewrite (Qfloor_comp _ _ Hz).
  change (Qfloor 0) with 0%Z. change (inject_Z 0) with 0%Q.
  destruct (q - 0 ?= 1 # 2)%Q eqn:Hc; [apply Qeq_alt in Hc; lra | done |].
  apply Qgt_alt in Hc. lra.
Qed.

Lemma two_power_pos (e : Z) : (0 < 2 ^ e)%Q.
Proof. by apply Qpower_0_lt. Qed.

Lemma two_power_succ (e : Z) : (2 ^ (e + 1) == 2 * 2 ^ e)%Q.
Proof. rewrite Qpower_plus by done. change (2 ^ 1)%Q with 2%Q. ring. Qed.

(** Outside the subnormal range the unit in the last place is at most
    [2 ^ -52] times the magnitude. *)
Lemma ulp_exponent_spec (q : Q) :
  ¬ (q == 0)%Q →
  ulp_exponent q = (-1074)%Z ∨ (2 ^ (ulp_exponent q + 52) <= Qabs q)%Q.
Proof.
  intros Hq. unfold ulp_exponent.
  set (a := Z.log2 (Z.abs (Qnum q))). set (b := Z.log2 (Z.pos (Qden q))).
  assert (2 ^ (a - b - 1) <= Qabs q)%Q as Hlow.
  { assert (0 < Z.abs (Qnum q))%Z as Hn.
    { destruct q as [n d]. unfold Qeq in Hq. simpl in *. lia. }
    destruct (Z.log2_spec _ Hn) as [Ha _]. fold a in Ha.
    destruct (Z.log2_spec (Z.pos (Qden q))) as [_ Hb]; [lia|]. fold b in Hb.
    assert (0 ≤ a)%Z as Ha0 by apply Z.log2_nonneg.
    assert (0 ≤ b)%Z as Hb0 by apply Z.log2_nonneg.
    replace (a - b - 1)%Z with (a - (b + 1))%Z by lia.
    rewrite Qpower_minus by done.
    rewrite <- (Zpower_Qpower 2 a) by done.
    rewrite <- (Zpower_Qpower 2 (b + 1)) by lia.
    replace (b + 1)%Z with (Z.succ b) by lia.
    destruct q as [n d]. simpl in *. unfold Qabs.
    assert (0 < 2 ^ Z.succ b)%Z as Hpos by lia.
    apply Qle_shift_div_r;
      [change 0%Q with (inject_Z 0); by rewrite <- Zlt_Qlt|].
    unfold Qle, Qmult. simpl. nia. }
  destruct (Qle_bool (2 ^ (a - b)) (Qabs q)) eqn:Htest.
  - apply Qle_bool_iff in Htest.
    destruct (Z.max_spec (a - b - 52) (-1074)) as [[_ ->]|[_ ->]]; [by left|].
    right. by replace (a - b - 52 + 52)%Z with (a - b)%Z by lia.
  - destruct (Z.max_spec (a - b - 1 - 52) (-1074)) as [[_ ->]|[_ ->]];
      [by left|].
    right. by replace (a - b - 1 - 52 + 52)%Z with (a - b - 1)%Z by lia.
Qed.

(** Rounding moves a number by at most half a unit in the last place. *)
Lemma float_round_error (q : Q) :
  (Qabs (float_round q - q) <= Qabs q * float_u + float_eta)%Q.
Proof.
  assert (0 <= float_eta)%Q as Heta by (apply Qlt_le_weak, two_power_pos).
  assert (0 <= Qabs q)%Q as Habs by apply Qabs_nonneg.
  unfold float_round. set (e := ulp_exponent q).
  pose proof (two_power_pos e) as He.
  pose proof (round_half_even_error (q / 2 ^ e)) as Hr.
  assert (Qabs (inject_Z (round_half_even (q / 2 ^ e)) * 2 ^ e - q)
          <= (1 # 2) * 2 ^ e)%Q as Herr.
  { setoid_replace (inject_Z (round_half_even (q / 2 ^ e)) * 2 ^ e - q)%Q
      with ((inject_Z (round_half_even (q / 2 ^ e)) - q / 2 ^ e) * 2 ^ e)%Q
      using relation Qeq by (field; lra).
    rewrite Qabs_Qmult, (Qabs_pos (2 ^ e)) by lra.
    apply Qmult_le_compat_r; [done | lra]. }
  destruct (Qeq_dec q 0) as [Hz|Hnz].
  - assert (q / 2 ^ e == 0)%Q as Hz' by (rewrite Hz; field; lra).
    rewrite (round_half_even_zero _ Hz'). rewrite Hz.
    setoid_replace (inject_Z 0 * 2 ^ e - 0)%Q with 0%Q
      using relation Qeq by ring.
    change (Qabs 0) with 0%Q. unfold float_u. lra.
  - destruct (ulp_exponent_spec q Hnz) as [Hsub|Hnorm].
    + assert ((1 # 2) * 2 ^ e == float_eta)%Q as Heq.
      { unfold e. rewrite Hsub. unfold float_eta.
        replace (-1074)%Z with (-1075 + 1)%Z by lia.
        rewrite two_power_succ. field. }
      unfold float_u. lra.
    + fold e in Hnorm.
      assert (2 ^ (e + 52) == 2 ^ e * 2 ^ 52)%Q as Hsplit
        by by rewrite Qpower_plus.
      assert (2 ^ 52 == 4503599627370496)%Q as H52 by reflexivity.
      rewrite Hsplit, H52 in Hnorm. unfold float_u. lra.
Qed.

Lemma float_sub_error (x y : Q) :
  (Qabs (float_sub x y - (x - y)) <= Qabs (x - y) * float_u + float_eta)%Q.
Proof. apply float_round_error. Qed.

Lemma rounding_unit_nonneg (M : Q) : (0 <= M)%Q → (0 <= rounding_unit M)%Q.
Proof.
  intros HM. unfold rounding_unit, float_u.
  pose proof (two_power_pos (-1075)) as Heta. fold float_eta in Heta. lra.
Qed.

(** ** The tracked entropy *)

Lemma tracked_entropy_succ (column : list Q) (nb : nat) :
  2 ≤ nb →
  tracked_entropy column (nb + 1)
  = float_sub (tracked_entropy column nb) (pushed_gain column nb).
Proof.
  intros Hnb. unfold pushed_gain, tracked_entropy.
  replace (nb + 1 - 2) with (S (nb - 2)) by lia.
  cbn [tracked_entropy_after]. by replace (nb - 2 + 3) with (nb + 1) by lia.
Qed.

(** The tracked entropy stays within three rounding errors of the entropy
    at the current bin count: the errors of the splits do not add up. *)
Lemma tracked_entropy_after_error (column : list Q) (M : Q) (k : nat) :
  (∀ b, 2 ≤ b ≤ k + 2 → (0 <= column_entropy column b <= M)%Q) →
  (Qabs (tracked_entropy_after column k - column_entropy column (k + 2))
   <= 3 * rounding_unit M)%Q.
Proof.
  assert (0 < float_eta)%Q as Heta by apply two_power_pos.
  induction k as [|k IH]; intros Hb.
  - cbn [tracked_entropy_after Nat.add].
    destruct (Hb 2) as [? ?]; [lia|].
    apply Qabs_Qle_condition. unfold rounding_unit, float_u. split; lra.
  - cbn [tracked_entropy_after].
    set (t := tracked_entropy_after column k) in *.
    replace (S k + 2) with (k + 3) by lia.
    set (n := column_entropy column (k + 3)).
    destruct (Hb (k + 2)) as [Hh0 Hh1]; [lia|].
    destruct (Hb (k + 3)) as [Hn0 Hn1]; [lia|]. fold n in Hn0, Hn1.
    assert (Qabs (t - column_entropy column (k + 2)) <= 3 * rounding_unit M)%Q
      as IHk by (apply IH; intros; apply Hb; lia).
    apply Qabs_Qle_condition in IHk.
    pose proof (float_sub_error n t) as H1.
    set (r := float_sub n t) in *.
    pose proof (float_sub_error t (- r)) as H2.
    set (t' := float_sub t (- r)) in *.
    unfold rounding_unit, float_u in *.
    assert (Qabs (n - t)
            <= M + 3 * (M * (1 # 9007199254740992) + float_eta))%Q as HA1
      by (apply Qabs_Qle_condition; split; lra).
    apply Qabs_Qle_condition in H1.
    assert (Qabs (t - - r)
            <= M + Qabs (n - t) * (1 # 9007199254740992) + float_eta)%Q as HA2
      by (apply Qabs_Qle_condition; split; lra).
    apply Qabs_Qle_condition in H2.
    apply Qabs_Qle_condition. split; lra.
Qed.

Lemma tracked_entropy_error (column : list Q) (M : Q) (nb : nat) :
  2 ≤ nb →
  (∀ b, 2 ≤ b ≤ nb → (0 <= column_entropy column b <= M)%Q) →
  (Qabs (tracked_entropy column nb - column_entropy column nb)
   <= 3 * rounding_unit M)%Q.
Proof.
  intros Hnb Hb. unfold tracked_entropy.
  replace nb with (nb - 2 + 2) at 2 by lia.
  apply tracked_entropy_after_error. intros b ?. apply Hb. lia.
Qed.

(** The pushed key is within five rounding errors of the gain. *)
Lemma pushed_gain_error (column : list Q) (M : Q) (nb : nat) :
  2 ≤ nb →
  (∀ b, 2 ≤ b ≤ nb + 1 → (0 <= column_entropy column b <= M)%Q) →
  (Qabs (pushed_gain column nb - gain column nb) <= 5 * rounding_unit M)%Q.
Proof.
  intros Hnb Hb.
  assert (0 < float_eta)%Q as Heta by apply two_power_pos.
  pose proof (tracked_entropy_error column M nb Hnb) as Ht.
  apply Qabs_Qle_condition in Ht; [|intros; apply Hb; lia].
  destruct (Hb nb) as [Hh0 Hh1]; [lia|].
  destruct (Hb (nb + 1)) as [Hn0 Hn1]; [lia|].
  unfold pushed_gain, gain.
  pose proof (float_sub_error (column_entropy column (nb + 1))
                (tracked_entropy column nb)) as H1.
  unfold rounding_unit, float_u in *.
  assert (Qabs (column_entropy column (nb + 1) - tracked_entropy column nb)
          <= M + 3 * (M * (1 # 9007199254740992) + float_eta))%Q as HA1
    by (apply Qabs_Qle_condition; split; lra).
  apply Qabs_Qle_condition in H1.
  apply Qabs_Qle_condition. split; lra.
Qed.


(** ** The priority queue *)

Lemma pq_ltb_lt (a b : PriorityQueue.entry) :
  PriorityQueue.ltb a b = true ↔ PriorityQueue.lt a b.
Proof.
  unfold PriorityQueue.ltb, PriorityQueue.lt.
  destruct (a.1 ?= b.1)%Q eqn:Hc.
  - apply Qeq_alt in Hc. rewrite bool_decide_eq_true. split.
    + intros. by right.
    + intros [Hlt|[_ ?]]; [lra | done].
  - apply Qlt_alt in Hc. split; [by left | done].
  - apply Qgt_alt in Hc. split; [done|]. intros [?|[? _]]; lra.
Qed.

Lemma pq_lt_le (a b : PriorityQueue.entry) :
  PriorityQueue.lt a b → PriorityQueue.le a b.
Proof.
  unfold PriorityQueue.le, PriorityQueue.lt.
  intros [?|[? ?]] [?|[? ?]]; try lra; lia.
Qed.

Lemma pq_lt_le_trans (a b c : PriorityQueue.entry) :
  PriorityQueue.lt a b → PriorityQueue.le b c → PriorityQueue.le a c.
Proof.
  unfold PriorityQueue.le, PriorityQueue.lt.
  intros Hab Hbc Hca. apply Hbc.
  destruct Hab as [?|[? ?]], Hca as [?|[? ?]].
  - left. lra.
  - left. lra.
  - left. lra.
  - right. split; [lra | lia].
Qed.

Lemma pq_put_elem (x y : PriorityQueue.entry) (q : PriorityQueue.t) :
  y ∈ PriorityQueue.put x q ↔ y = x ∨ y ∈ q.
Proof.
  induction q as [|z q IH]; simpl.
  - rewrite list_elem_of_singleton, elem_of_nil. tauto.
  - destruct (PriorityQueue.ltb x z).
    + by rewrite elem_of_cons.
    + rewrite !elem_of_cons, IH. tauto.
Qed.

Lemma pq_put_indices (x : PriorityQueue.entry) (q : PriorityQueue.t) :
  (PriorityQueue.put x q).*2 ≡ₚ x.2 :: q.*2.
Proof.
  induction q as [|z q IH]; simpl; [done|].
  destruct (PriorityQueue.ltb x z); [done|].
  cbn [fmap list_fmap]. rewrite IH. apply Permutation_swap.
Qed.

Lemma pq_put_sorted (x : PriorityQueue.entry) (q : PriorityQueue.t) :
  StronglySorted PriorityQueue.le q →
  StronglySorted PriorityQueue.le (PriorityQueue.put x q).
Proof.
  induction 1 as [|z q Hq IH Hz]; simpl.
  - repeat constructor.
  - destruct (PriorityQueue.ltb x z) eqn:Hlt.
    + apply pq_ltb_lt in Hlt. constructor; [by constructor|].
      constructor; [by apply pq_lt_le|].
      eapply Forall_impl; [exact Hz|]. intros c Hc.
      by eapply pq_lt_le_trans.
    + constructor; [done|]. apply Forall_forall.
      intros c [->|Hc]%pq_put_elem.
      * unfold PriorityQueue.le. rewrite <- pq_ltb_lt. by rewrite Hlt.
      * rewrite Forall_forall in Hz. by apply Hz.
Qed.

(** ** The bin allocator *)

Lemma T_length (row0 : list Q) (rest : list (list Q)) :
  length (T (row0 :: rest)) = length row0.
Proof. unfold T. by rewrite length_fmap, length_seq. Qed.

Lemma getitem_Some {A} (l : list A) (i : nat) (x : A) :
  l !! i = Some x → getitem l i = Ok x.
Proof. unfold getitem. by intros ->. Qed.

Lemma setitem_lt {A} (l : list A) (i : nat) (x : A) :
  i < length l → setitem l i x = Ok (<[i := x]> l).
Proof. unfold setitem. intros. by rewrite decide_True. Qed.

Lemma options_loop_inv (columns l : list (list Q)) (k : nat)
    (q : PriorityQueue.t) :
  (∀ j column, l !! j = Some column → columns !! (k + j) = Some column) →
  init_queue_inv columns k q →
  ∃ q',
    options_loop ((λ column, length (py_set column)) <$> columns)
      ((λ column, __entropy (expand_dims column) 2) <$> columns)
      (imap (λ j, pair (k + j)) l) q = Ok q' ∧
    init_queue_inv columns (k + length l) q'.
Proof.
  revert k q. induction l as [|x l IH]; intros k q Hl Hq.
  - exists q. split; [done|]. by rewrite Nat.add_0_r.
  - assert (columns !! k = Some x) as Hx.
    { rewrite <- (Nat.add_0_r k). by apply Hl. }
    cbn [imap options_loop]. rewrite Nat.add_0_r.
    rewrite (getitem_Some _ k (length (py_set x)))
      by by rewrite list_lookup_fmap, Hx.
    cbn [mbind result_bind].
    rewrite (imap_ext _ (λ j, pair (S k + j)))
      by (intros; simpl; f_equal; lia).
    replace (k + length (x :: l)) with (S k + length l) by (simpl; lia).
    assert (∀ j column, l !! j = Some column →
              columns !! (S k + j) = Some column) as Hl'.
    { intros j c Hj. replace (S k + j) with (k + S j) by lia. by apply Hl. }
    destruct Hq as (Hsorted & Hnodup & Hin & Hall).
    case_decide as Hmb.
    + rewrite (getitem_Some _ k (__entropy (expand_dims x) 2))
        by by rewrite list_lookup_fmap, Hx.
      cbn [mbind result_bind]. apply IH; [done|].
      split; [by apply pq_put_sorted|]. split; [|split].
      * rewrite pq_put_indices. cbn [snd]. constructor; [|done].
        intros ((g & i) & Hi & Hgi)%list_elem_of_fmap. simpl in Hi. subst i.
        apply Hin in Hgi as [? _]. lia.
      * intros g i [[= -> ->]|Hgi]%pq_put_elem.
        -- split; [lia|]. by exists x.
        -- apply Hin in Hgi as [? ?]. split; [lia | done].
      * intros i c Hi Hc Hlen. rewrite pq_put_indices. cbn [snd].
        apply elem_of_cons. destruct (decide (i = k)) as [->|Hne]; [by left|].
        right. apply (Hall i c); [lia | done | done].
    + apply IH; [done|].
      split; [done|]. split; [done|]. split.
      * intros g i Hgi. apply Hin in Hgi as [? ?]. split; [lia | done].
      * intros i c Hi Hc Hlen. destruct (decide (i = k)) as [->|Hne].
        -- rewrite Hx in Hc. injection Hc as ->. lia.
        -- apply (Hall i c); [lia | done | done].
Qed.

Lemma max_bins_of_lookup (train_input : list (list Q)) (i : nat)
    (column : list Q) :
  T train_input !! i = Some column →
  max_bins_of train_input !! i = Some (length (py_set column)).
Proof. intros H. unfold max_bins_of. by rewrite list_lookup_fmap, H. Qed.

Lemma get_num_bins_init (row0 : list Q) (rest : list (list Q)) :
  ∃ q,
    options_loop (max_bins_of (row0 :: rest))
      ((λ column, __entropy (expand_dims column) 2) <$> T (row0 :: rest))
      (enumerate (T (row0 :: rest))) PriorityQueue.new = Ok q ∧
    alloc_inv (row0 :: rest)
      {| num_bins := (λ _, 2) <$> row0;
         entropies :=
           (λ column, __entropy (expand_dims column) 2) <$> T (row0 :: rest);
         options := q |}.
Proof.
  destruct (options_loop_inv (T (row0 :: rest)) (T (row0 :: rest)) 0
              PriorityQueue.new) as (q & Hq & Hsorted & Hnodup & Hin & Hall).
  { done. }
  { split; [constructor|]. split; [constructor|]. split.
    - by intros g i ?%elem_of_nil.
    - intros; lia. }
  exists q. split; [exact Hq|]. simpl in Hin, Hall.
  constructor; simpl.
  - by rewrite length_fmap, T_length.
  - by rewrite length_fmap.
  - done.
  - done.
  - intros i nb column Hnb Hc.
    apply list_lookup_fmap_Some in Hnb as (x & -> & Hx).
    split; [done|]. split; [lia|]. split.
    + intros ((g & j) & Hj & Hgj)%list_elem_of_fmap. simpl in Hj. subst j.
      apply Hin in Hgj as (_ & c & Hc' & Hlen & _).
      rewrite Hc in Hc'. by injection Hc' as <-.
    + intros Hlen. apply (Hall i column); [|done|done].
      by apply lookup_lt_Some in Hc.
  - intros i nb column e Hnb Hc He.
    apply list_lookup_fmap_Some in Hnb as (x & -> & Hx).
    rewrite list_lookup_fmap, Hc in He. simpl in He. injection He as <-.
    done.
  - intros g i Hgi. apply Hin in Hgi as (Hi & c & Hc & Hlen & ->).
    exists 2, c, (__entropy (expand_dims c) 2).
    split; [|split; [done|split; [|done]]].
    + apply lookup_lt_Some in Hc. rewrite T_length in Hc.
      destruct (lookup_lt_is_Some_2 row0 i Hc) as [x Hx].
      by rewrite list_lookup_fmap, Hx.
    + by rewrite list_lookup_fmap, Hc.
Qed.

Lemma split_step_inv (train_input : list (list Q)) (st : alloc_state)
    (g : Q) (i : nat) (rest : PriorityQueue.t) :
  alloc_inv train_input st →
  options st = (g, i) :: rest →
  ∃ nb column,
    num_bins st !! i = Some nb ∧ T train_input !! i = Some column ∧
    nb < length (py_set column) ∧
    entropies st !! i = Some (tracked_entropy column nb) ∧
    g = pushed_gain column nb ∧
    ∃ st',
      split_step train_input (max_bins_of train_input) st g i rest = Ok st' ∧
      alloc_inv train_input st' ∧
      num_bins st' = <[i := nb + 1]> (num_bins st) ∧
      entropies st'
      = <[i := tracked_entropy column (nb + 1)]> (entropies st) ∧
      ((nb + 1 < length (py_set column) ∧
        options st' = PriorityQueue.put (pushed_gain column (nb + 1), i) rest) ∨
       (nb + 1 = length (py_set column) ∧ options st' = rest)).
Proof.
  intros [Hlen Hlen' Hsorted Hnodup Hbounds Hent Hgains] Hopt.
  rewrite Hopt in Hsorted, Hnodup, Hbounds, Hgains.
  destruct (Hgains g i) as (nb & column & e & Hnb & Hc & He & Hg).
  { apply elem_of_cons. by left. }
  destruct (Hbounds i nb column Hnb Hc) as (Hnb2 & _ & Hmem).
  assert (nb < length (py_set column)) as Hlt.
  { apply Hmem. cbn [fmap list_fmap snd]. apply elem_of_cons. by left. }
  pose proof (Hent i nb column e Hnb Hc He) as Hee. subst e.
  change (- float_sub (column_entropy column (nb + 1))
              (tracked_entropy column nb))%Q
    with (pushed_gain column nb) in Hg. subst g.
  set (e := tracked_entropy column nb) in *.
  set (g := pushed_gain column nb) in *.
  assert (float_sub e g = tracked_entropy column (nb + 1)) as Hnew
    by (symmetry; by apply tracked_entropy_succ).
  cbn [fmap list_fmap snd] in Hnodup. apply NoDup_cons in Hnodup as [Hi Hnodup].
  apply StronglySorted_inv in Hsorted as [Hsorted _].
  exists nb, column. split; [done|]. split; [done|]. split; [done|].
  split; [done|]. split; [done|].
  assert (i < length (num_bins st)) as Hil by by eapply lookup_lt_Some.
  assert (i < length (entropies st)) as Hil' by by eapply lookup_lt_Some.
  unfold split_step.
  rewrite (getitem_Some _ _ _ Hnb). cbn [mbind result_bind].
  rewrite setitem_lt by done. cbn [mbind result_bind].
  rewrite (getitem_Some _ _ _ He). cbn [mbind result_bind].
  rewrite setitem_lt by done. cbn [mbind result_bind].
  rewrite (getitem_Some (<[i := nb + 1]> (num_bins st)) i (nb + 1))
    by by apply list_lookup_insert_eq.
  cbn [mbind result_bind].
  rewrite (getitem_Some _ _ _ (max_bins_of_lookup _ _ _ Hc)).
  cbn [mbind result_bind].
  assert (∀ j nbj, j ≠ i → <[i := nb + 1]> (num_bins st) !! j = Some nbj →
            num_bins st !! j = Some nbj) as Hother.
  { intros j nbj Hne. by rewrite list_lookup_insert_ne. }
  assert (∀ j ej, j ≠ i → <[i := float_sub e g]> (entropies st) !! j = Some ej →
            entropies st !! j = Some ej) as Hother'.
  { intros j ej Hne. by rewrite list_lookup_insert_ne. }
  assert (∀ j nbj cj ej,
            <[i := nb + 1]> (num_bins st) !! j = Some nbj →
            T train_input !! j = Some cj →
            <[i := float_sub e g]> (entropies st) !! j = Some ej →
            ej = tracked_entropy cj nbj) as Hent'.
  { intros j nbj cj ej Hj Hcj Hej. destruct (decide (j = i)) as [->|Hne].
    - rewrite list_lookup_insert_eq in Hj by done.
      rewrite list_lookup_insert_eq in Hej by done.
      rewrite Hc in Hcj. injection Hj as <-. injection Hej as <-.
      injection Hcj as <-. done.
    - eapply Hent; eauto. }
  assert (∀ g' j, (g', j) ∈ rest →
            ∃ nbj cj ej,
              <[i := nb + 1]> (num_bins st) !! j = Some nbj ∧
              T train_input !! j = Some cj ∧
              <[i := float_sub e g]> (entropies st) !! j = Some ej ∧
              g' = (- float_sub (column_entropy cj (nbj + 1)) ej)%Q)
    as Hgains'.
  { intros g' j Hin. assert (j ≠ i) as Hne.
    { intros ->. apply Hi, list_elem_of_fmap. by exists (g', i). }
    destruct (Hgains g' j) as (nbj & cj & ej & ? & ? & ? & ?).
    { apply elem_of_cons. by right. }
    exists nbj, cj, ej. by rewrite !list_lookup_insert_ne. }
  case_decide as Hcap.
  - rewrite (getitem_Some _ _ _ Hc). cbn [mbind result_bind].
    rewrite (getitem_Some (<[i := float_sub e g]> (entropies st)) i
               (float_sub e g))
      by by apply list_lookup_insert_eq.
    cbn [mbind result_bind].
    eexists. split; [done|].
    split; [|split; [done|split; [cbn [entropies]; by rewrite Hnew|]]].
    + constructor; cbn [num_bins entropies options].
      * by rewrite length_insert.
      * by rewrite length_insert.
      * by apply pq_put_sorted.
      * rewrite pq_put_indices. by constructor.
      * intros j nbj cj Hj Hcj. rewrite pq_put_indices. cbn [snd].
        destruct (decide (j = i)) as [->|Hne].
        -- rewrite list_lookup_insert_eq in Hj by done. injection Hj as <-.
           rewrite Hc in Hcj. injection Hcj as <-.
           split; [lia|]. split; [lia|]. split; [lia|].
           intros _. apply elem_of_cons. by left.
        -- destruct (Hbounds j nbj cj) as (? & ? & Hm); [by apply Hother|done|].
           split; [done|]. split; [done|].
           exact Hm.
      * done.
      * intros g' j [[= -> ->]|Hin]%pq_put_elem.
        -- exists (nb + 1), column, (float_sub e g).
           by rewrite !list_lookup_insert_eq.
        -- by apply Hgains'.
    + left. split; [lia|]. cbn [options]. unfold pushed_gain.
      by rewrite <- Hnew.
  - eexists. split; [done|].
    split; [|split; [done|split; [cbn [entropies]; by rewrite Hnew|]]].
    + constructor; cbn [num_bins entropies options].
      * by rewrite length_insert.
      * by rewrite length_insert.
      * done.
      * done.
      * intros j nbj cj Hj Hcj.
        destruct (decide (j = i)) as [->|Hne].
        -- rewrite list_lookup_insert_eq in Hj by done. injection Hj as <-.
           rewrite Hc in Hcj. injection Hcj as <-.
           split; [lia|]. split; [lia|]. split; [done | lia].
        -- destruct (Hbounds j nbj cj) as (? & ? & Hm); [by apply Hother|done|].
           split; [done|]. split; [done|].
           cbn [fmap list_fmap snd] in Hm. rewrite <- Hm, elem_of_cons.
           split; [by right|]. by intros [?|?].
      * done.
      * done.
    + right. split; [lia | done].
Qed.

Lemma split_loop_empty (train_input : list (list Q)) (max_bins : list nat)
    (n : nat) (st : alloc_state) :
  PriorityQueue.get (options st) = None →
  split_loop train_input max_bins n st = Ok st.
Proof. intros H. destruct n; simpl; [done|]. by rewrite H. Qed.

Lemma split_loop_add (train_input : list (list Q)) (max_bins : list nat)
    (a b : nat) (st : alloc_state) :
  split_loop train_input max_bins (a + b) st
  = split_loop train_input max_bins a st ≫= split_loop train_input max_bins b.
Proof.
  revert st. induction a as [|a IH]; intros st; [done|].
  cbn [Nat.add split_loop].
  destruct (PriorityQueue.get (options st)) as [[[g i] rest]|] eqn:Hget.
  - destruct (split_step train_input max_bins st g i rest) as [st'|e];
      [|done].
    cbn [mbind result_bind]. apply IH.
  - cbn [mbind result_bind]. symmetry. by apply split_loop_empty.
Qed.

Lemma Forall2_le_insert (l : list nat) (i x y : nat) :
  l !! i = Some x → x ≤ y → Forall2 le l (<[i := y]> l).
Proof.
  intros Hi Hxy. apply Forall2_same_length_lookup.
  split; [by rewrite length_insert|].
  intros j a b Ha Hb. destruct (decide (i = j)) as [->|Hne].
  - rewrite list_lookup_insert_eq in Hb by by eapply lookup_lt_Some.
    rewrite Hi in Ha. injection Ha as <-. injection Hb as <-. done.
  - rewrite list_lookup_insert_ne in Hb by done.
    rewrite Ha in Hb. injection Hb as <-. done.
Qed.

Lemma Forall2_le_trans (l1 l2 l3 : list nat) :
  Forall2 le l1 l2 → Forall2 le l2 l3 → Forall2 le l1 l3.
Proof.
  intros H12. revert l3.
  induction H12 as [|x y l1 l2 Hxy _ IH]; intros l3 H23.
  - by apply Forall2_nil_inv_l in H23 as ->.
  - apply Forall2_cons_inv_l in H23 as (z & l3' & Hyz & H23 & ->).
    constructor; [lia | by apply IH].
Qed.

Lemma Forall2_le_refl (l : list nat) : Forall2 le l l.
Proof. induction l; by constructor. Qed.

Lemma split_loop_inv (train_input : list (list Q)) (n : nat)
    (st : alloc_state) :
  alloc_inv train_input st →
  ∃ st',
    split_loop train_input (max_bins_of train_input) n st = Ok st' ∧
    alloc_inv train_input st' ∧
    Forall2 le (num_bins st) (num_bins st').
Proof.
  revert st. induction n as [|n IH]; intros st Hinv.
  - exists st. split; [done|]. split; [done|]. apply Forall2_le_refl.
  - cbn [split_loop].
    destruct (options st) as [|[g i] rest] eqn:Hopt; cbn [PriorityQueue.get].
    + exists st. split; [done|]. split; [done|]. apply Forall2_le_refl.
    + destruct (split_step_inv train_input st g i rest Hinv Hopt)
        as (nb & column & Hnb & _ & _ & _ & _ & st1 & Hstep & Hinv1 & Hnum
            & _).
      rewrite Hstep. cbn [mbind result_bind].
      destruct (IH st1 Hinv1) as (st' & Hloop & Hinv' & Hle).
      exists st'. split; [done|]. split; [done|].
      eapply Forall2_le_trans; [|exact Hle].
      rewrite Hnum. eapply Forall2_le_insert; [done | lia].
Qed.

Lemma get_num_bins_locals_inv (row0 : list Q) (rest : list (list Q))
    (max_splits : Z) :
  ∃ st,
    get_num_bins_locals (row0 :: rest) max_splits = Ok st ∧
    alloc_inv (row0 :: rest) st.
Proof.
  unfold get_num_bins_locals.
  cbn [getitem lookup list_lookup mbind result_bind].
  destruct (get_num_bins_init row0 rest) as (q & -> & Hinv).
  cbn [mbind result_bind].
  destruct (split_loop_inv (row0 :: rest) (Z.to_nat max_splits) _ Hinv)
    as (st & Hloop & Hinv' & _).
  by exists st.
Qed.

Lemma get_num_bins_locals_nil (max_splits : Z) :
  get_num_bins_locals [] max_splits = Raise IndexError.
Proof. done. Qed.

Lemma get_num_bins_locals_add (train_input : list (list Q)) (a b : nat) :
  get_num_bins_locals train_input (Z.of_nat (a + b))
  = get_num_bins_locals train_input (Z.of_nat a)
      ≫= split_loop train_input (max_bins_of train_input) b.
Proof.
  unfold get_num_bins_locals. rewrite !Nat2Z.id.
  destruct (getitem train_input 0) as [row0|]; [|done].
  cbn [mbind result_bind].
  destruct (options_loop _ _ _ _) as [q|]; [|done].
  cbn [mbind result_bind]. apply split_loop_add.
Qed.

Lemma sum_list_at_least_2 (l : list nat) :
  Forall (λ x, 2 ≤ x) l → 2 * length l ≤ sum_list l.
Proof. induction 1; simpl; lia. Qed.

Lemma alloc_inv_at_least_2 (train_input : list (list Q)) (st : alloc_state) :
  alloc_inv train_input st → Forall (λ x, 2 ≤ x) (num_bins st).
Proof.
  intros Hinv. apply Forall_lookup. intros i nb Hnb.
  assert (i < length (T train_input)) as Hi.
  { rewrite <- (inv_num_bins _ _ Hinv). by eapply lookup_lt_Some. }
  destruct (lookup_lt_is_Some_2 _ _ Hi) as [column Hc].
  by destruct (inv_bounds _ _ Hinv i nb column Hnb Hc).
Qed.

Lemma pq_le_lt (a b : PriorityQueue.entry) :
  PriorityQueue.le a b → a.2 ≠ b.2 → PriorityQueue.lt a b.
Proof.
  unfold PriorityQueue.le, PriorityQueue.lt. intros Hle Hne.
  destruct (Q_dec a.1 b.1) as [[Hlt|Hgt]|Heq].
  - by left.
  - exfalso. apply Hle. by left.
  - right. split; [done|].
    destruct (decide (a.2 < b.2)) as [|Hge]; [done|].
    exfalso. apply Hle. right. split; [by symmetry | lia].
Qed.

Lemma fmap_const_2 {A} (l : list A) :
  (λ _, 2) <$> l = replicate (length l) 2.
Proof. induction l; simpl; by f_equal. Qed.

Lemma alloc_inv_gain (train_input : list (list Q)) (st : alloc_state)
    (g : Q) (i nb : nat) (column : list Q) :
  alloc_inv train_input st → (g, i) ∈ options st →
  num_bins st !! i = Some nb → T train_input !! i = Some column →
  g = pushed_gain column nb.
Proof.
  intros Hinv Hin Hnb Hc.
  destruct (inv_gains _ _ Hinv g i Hin) as (nb' & c' & e & Hnb' & Hc' & He & ->).
  rewrite Hnb in Hnb'. injection Hnb' as <-.
  rewrite Hc in Hc'. injection Hc' as <-.
  unfold pushed_gain. by rewrite (inv_entropies _ _ Hinv i nb column e).
Qed.

(** C4 (as amended).  On an input with at least one row, and for every
    budget, the allocator returns one bin count per feature, each at least 2
    and at most the larger of 2 and the feature's number of distinct values;
    so a feature with at most two distinct values gets exactly 2 bins, and a
    budget of zero (or less) returns 2 for every feature. *)
Theorem get_num_bins_bounds (row0 : list Q) (rest : list (list Q))
    (max_splits : Z) :
  ∃ bins,
    get_num_bins (row0 :: rest) max_splits = Ok bins ∧
    length bins = length row0 ∧
    length (T (row0 :: rest)) = length row0 ∧
    (∀ i nb column,
       bins !! i = Some nb → T (row0 :: rest) !! i = Some column →
       2 ≤ nb ∧ nb ≤ 2 `max` length (py_set column) ∧
       (length (py_set column) ≤ 2 → nb = 2)) ∧
    ((max_splits ≤ 0)%Z → bins = replicate (length row0) 2).
Proof.
  destruct (get_num_bins_locals_inv row0 rest max_splits) as (st & Hst & Hinv).
  exists (num_bins st). unfold get_num_bins. rewrite Hst.
  split; [done|]. split; [|split; [apply T_length|split]].
  - by rewrite (inv_num_bins _ _ Hinv), T_length.
  - intros i nb column Hnb Hc.
    destruct (inv_bounds _ _ Hinv i nb column Hnb Hc) as (? & ? & _).
    split; [done|]. split; [done|]. lia.
  - intros Hk. revert Hst. unfold get_num_bins_locals.
    cbn [getitem lookup list_lookup mbind result_bind].
    destruct (get_num_bins_init row0 rest) as (q & -> & _).
    cbn [mbind result_bind].
    replace (Z.to_nat max_splits) with 0 by lia.
    intros [= <-]. apply fmap_const_2.
Qed.

(** C5.  The allocator is monotone in its budget: with [k <= k'], either both
    calls return (the input has a row) and every feature's bin count under
    [k'] is at least its count under [k], with both totals at least twice
    the number of features; or the input has no row and both calls raise, so
    there is no allocation to compare. *)
Theorem get_num_bins_monotone (train_input : list (list Q)) (k k' : Z) :
  (k ≤ k')%Z →
  (∃ bins bins',
     get_num_bins train_input k = Ok bins ∧
     get_num_bins train_input k' = Ok bins' ∧
     length bins = length (T train_input) ∧
     length bins' = length (T train_input) ∧
     Forall2 le bins bins' ∧
     2 * length (T train_input) ≤ sum_list bins ∧
     2 * length (T train_input) ≤ sum_list bins') ∨
  (train_input = [] ∧
   get_num_bins train_input k = Raise IndexError ∧
   get_num_bins train_input k' = Raise IndexError).
Proof.
  intros Hk. destruct train_input as [|row0 rest]; [by right|]. left.
  destruct (get_num_bins_locals_inv row0 rest k) as (st & Hst & Hinv).
  assert (k' = Z.of_nat (Z.to_nat k + Z.to_nat (k' - Z.max 0 k))
          ∨ (k' < 0)%Z) as [Hk'|Hneg] by lia.
  - assert (get_num_bins_locals (row0 :: rest) (Z.of_nat (Z.to_nat k)) = Ok st)
      as Hst'.
    { revert Hst. unfold get_num_bins_locals. by rewrite Nat2Z.id. }
    destruct (split_loop_inv (row0 :: rest) (Z.to_nat (k' - Z.max 0 k)) st Hinv)
      as (st' & Hloop & Hinv' & Hle).
    exists (num_bins st), (num_bins st'). unfold get_num_bins.
    rewrite Hst, Hk', get_num_bins_locals_add, Hst'.
    cbn [mbind result_bind]. rewrite Hloop.
    split; [done|]. split; [done|].
    split; [apply (inv_num_bins _ _ Hinv)|].
    split; [apply (inv_num_bins _ _ Hinv')|]. split; [done|].
    rewrite <- (inv_num_bins _ _ Hinv) at 1.
    rewrite <- (inv_num_bins _ _ Hinv').
    split; apply sum_list_at_least_2; by eapply alloc_inv_at_least_2.
  - exists (num_bins st), (num_bins st). unfold get_num_bins.
    assert (get_num_bins_locals (row0 :: rest) k' = Ok st) as ->.
    { revert Hst. unfold get_num_bins_locals.
      by replace (Z.to_nat k') with (Z.to_nat k) by lia. }
    rewrite Hst.
    split; [done|]. split; [done|].
    split; [apply (inv_num_bins _ _ Hinv)|].
    split; [apply (inv_num_bins _ _ Hinv)|].
    split; [apply Forall2_le_refl|].
    rewrite <- (inv_num_bins _ _ Hinv).
    split; apply sum_list_at_least_2; by eapply alloc_inv_at_least_2.
Qed.

(** C2 (as amended).  The locals at the start of an iteration of the main
    loop (after [j] iterations) determine the iteration.  If the queue is
    empty every feature has reached its number of distinct values and the
    loop stops: any larger budget returns the same locals.  Otherwise the
    entry the queue hands out belongs to a feature [i] still below its number
    of distinct values.  Its key is the pushed gain: the negated float
    difference of the entropy of [i] at one bin more and the tracked value
    [entropies[i]], which starts as the entropy at two bins and from which
    every split of [i] subtracts, in floats, the key it popped.  Among all
    features still below their number of distinct values [i] has the least
    pushed gain, the lower index winning a tie of pushed gains.  Where [M]
    bounds the entropies, the pushed gain is within five rounding errors of
    the gain (the exact negated difference of the entropy at one bin more and
    at the current bin count), so the gain of [i] is within ten rounding
    errors of the best.  The iteration increments the bin count of [i] by
    one and of no other feature, replaces [entropies[i]] by the tracked
    entropy of the new bin count, and pushes the next gain of [i] exactly
    when the new bin count is still below the number of distinct values of
    [i]. *)
Theorem split_iteration (train_input : list (list Q)) (j : nat)
    (st : alloc_state) :
  get_num_bins_locals train_input (Z.of_nat j) = Ok st →
  match PriorityQueue.get (options st) with
  | None =>
      (∀ i nb column,
         num_bins st !! i = Some nb → T train_input !! i = Some column →
         ¬ nb < length (py_set column)) ∧
      ∀ n, get_num_bins_locals train_input (Z.of_nat (j + n)) = Ok st
  | Some ((entropy, i), rest) =>
      ∃ nb column,
        num_bins st !! i = Some nb ∧ T train_input !! i = Some column ∧
        nb < length (py_set column) ∧
        entropies st !! i = Some (tracked_entropy column nb) ∧
        entropy = pushed_gain column nb ∧
        (∀ i' nb' column',
           i' ≠ i → num_bins st !! i' = Some nb' →
           T train_input !! i' = Some column' →
           nb' < length (py_set column') →
           (pushed_gain column nb < pushed_gain column' nb')%Q ∨
           ((pushed_gain column nb == pushed_gain column' nb')%Q ∧ i < i')) ∧
        (∀ M,
           (∀ i' nb' column' b,
              num_bins st !! i' = Some nb' →
              T train_input !! i' = Some column' →
              2 ≤ b ≤ nb' + 1 → (0 <= column_entropy column' b <= M)%Q) →
           (Qabs (entropy - gain column nb) <= 5 * rounding_unit M)%Q ∧
           ∀ i' nb' column',
             num_bins st !! i' = Some nb' →
             T train_input !! i' = Some column' →
             nb' < length (py_set column') →
             (gain column nb <= gain column' nb' + 10 * rounding_unit M)%Q) ∧
        ∃ st',
          get_num_bins_locals train_input (Z.of_nat (S j)) = Ok st' ∧
          num_bins st' = <[i := nb + 1]> (num_bins st) ∧
          entropies st'
          = <[i := tracked_entropy column (nb + 1)]> (entropies st) ∧
          ((nb + 1 < length (py_set column) ∧
            options st'
            = PriorityQueue.put (pushed_gain column (nb + 1), i) rest) ∨
           (nb + 1 = length (py_set column) ∧ options st' = rest))
  end.
Proof.
  intros Hst.
  assert (alloc_inv train_input st) as Hinv.
  { destruct train_input as [|row0 rest]; [done|].
    destruct (get_num_bins_locals_inv row0 rest (Z.of_nat j)) as (st' & Hst' & ?).
    rewrite Hst in Hst'. by injection Hst' as <-. }
  destruct (options st) as [|[g i] rest] eqn:Hopt; cbn [PriorityQueue.get].
  - split.
    + intros i nb column Hnb Hc Hlt.
      apply (inv_bounds _ _ Hinv i nb column Hnb Hc) in Hlt.
      rewrite Hopt in Hlt. by apply elem_of_nil in Hlt.
    + intros n. rewrite get_num_bins_locals_add, Hst. cbn [mbind result_bind].
      apply split_loop_empty. by rewrite Hopt.
  - destruct (split_step_inv train_input st g i rest Hinv Hopt)
      as (nb & column & Hnb & Hc & Hlt & He & Hg & st' & Hstep & _ & Hnum
          & Hent & Hq).
    assert (∀ i' nb' column',
              i' ≠ i → num_bins st !! i' = Some nb' →
              T train_input !! i' = Some column' →
              nb' < length (py_set column') →
              PriorityQueue.lt (g, i) (pushed_gain column' nb', i')) as Hbest.
    { intros i' nb' column' Hne Hnb' Hc' Hlt'.
      apply (inv_bounds _ _ Hinv i' nb' column' Hnb' Hc') in Hlt'.
      apply list_elem_of_fmap in Hlt' as ([g' i''] & Hi' & Hin).
      simpl in Hi'. subst i''.
      pose proof (alloc_inv_gain _ _ _ _ _ _ Hinv Hin Hnb' Hc') as Hg'.
      subst g'.
      pose proof (inv_sorted _ _ Hinv) as Hsorted.
      rewrite Hopt in Hin, Hsorted.
      apply elem_of_cons in Hin as [[= _ ?]|Hin]; [done|].
      apply StronglySorted_inv in Hsorted as [_ Hall].
      rewrite Forall_forall in Hall.
      apply pq_le_lt; [by apply Hall | simpl; congruence]. }
    exists nb, column. split; [done|]. split; [done|]. split; [done|].
    split; [done|]. split; [done|]. split; [|split].
    + intros i' nb' column' Hne Hnb' Hc' Hlt'. rewrite <- Hg.
      exact (Hbest i' nb' column' Hne Hnb' Hc' Hlt').
    + intros M HM.
      assert (∀ i' nb' column',
                num_bins st !! i' = Some nb' →
                T train_input !! i' = Some column' →
                (Qabs (pushed_gain column' nb' - gain column' nb')
                 <= 5 * rounding_unit M)%Q) as Herr.
      { intros i' nb' column' Hnb' Hc'. apply pushed_gain_error.
        - by destruct (inv_bounds _ _ Hinv i' nb' column' Hnb' Hc').
        - intros b Hb. by apply (HM i' nb' column'). }
      pose proof (Herr i nb column Hnb Hc) as Hi. rewrite <- Hg in Hi.
      split; [done|]. intros i' nb' column' Hnb' Hc' Hlt'.
      assert (0 <= rounding_unit M)%Q as Hunit.
      { apply rounding_unit_nonneg.
        destruct (HM i nb column 2 Hnb Hc) as [? ?]; [|lra].
        destruct (inv_bounds _ _ Hinv i nb column Hnb Hc). lia. }
      destruct (decide (i' = i)) as [->|Hne].
      * rewrite Hnb in Hnb'. injection Hnb' as <-.
        rewrite Hc in Hc'. injection Hc' as <-. lra.
      * pose proof (Herr i' nb' column' Hnb' Hc') as Hi'.
        apply Qabs_Qle_condition in Hi, Hi'.
        destruct (Hbest i' nb' column' Hne Hnb' Hc' Hlt') as [Hl|[Hl _]];
          simpl in Hl; lra.
    + exists st'. split; [|done].
      replace (S j) with (j + 1) by lia.
      rewrite get_num_bins_locals_add, Hst. cbn [mbind result_bind split_loop].
      rewrite Hopt. cbn [PriorityQueue.get]. rewrite Hstep. done.
Qed.

(** * Further properties

    ** The bin allocator: how the budget is spent *)

Lemma alloc_inv_le_saturation (train_input : list (list Q))
    (st : alloc_state) :
  alloc_inv train_input st →
  Forall2 le (num_bins st) (saturation train_input).
Proof.
  intros Hinv. apply Forall2_same_length_lookup. split.
  - unfold saturation. by rewrite length_fmap, (inv_num_bins _ _ Hinv).
  - intros i nb cap Hnb Hcap. unfold saturation in Hcap.
    apply list_lookup_fmap_Some in Hcap as (column & -> & Hc).
    by destruct (inv_bounds _ _ Hinv i nb column Hnb Hc) as (_ & ? & _).
Qed.

Lemma alloc_inv_empty_iff (train_input : list (list Q)) (st : alloc_state) :
  alloc_inv train_input st →
  options st = [] ↔ num_bins st = saturation train_input.
Proof.
  intros Hinv. split.
  - intros Hopt. apply list_eq_same_length with (length (T train_input)).
    + unfold saturation. by rewrite length_fmap.
    + apply (inv_num_bins _ _ Hinv).
    + intros i nb cap _ Hnb Hcap. unfold saturation in Hcap.
      apply list_lookup_fmap_Some in Hcap as (column & -> & Hc).
      destruct (inv_bounds _ _ Hinv i nb column Hnb Hc) as (? & ? & Hmem).
      rewrite Hopt in Hmem.
      assert (¬ nb < length (py_set column)) as Hge.
      { intros Hlt. apply Hmem in Hlt. by apply elem_of_nil in Hlt. }
      lia.
  - intros Heq. destruct (options st) as [|[g i] rest] eqn:Hopt; [done|].
    exfalso.
    destruct (inv_gains _ _ Hinv g i) as (nb & column & e & Hnb & Hc & _).
    { rewrite Hopt. apply elem_of_cons. by left. }
    destruct (inv_bounds _ _ Hinv i nb column Hnb Hc) as (_ & _ & Hmem).
    assert (nb < length (py_set column)) as Hlt.
    { apply Hmem. rewrite Hopt. cbn [fmap list_fmap snd].
      apply elem_of_cons. by left. }
    rewrite Heq in Hnb. unfold saturation in Hnb.
    rewrite list_lookup_fmap, Hc in Hnb. simpl in Hnb.
    injection Hnb as <-. lia.
Qed.

Lemma Forall2_le_sum_list (l k : list nat) :
  Forall2 le l k →
  sum_list l ≤ sum_list k ∧ (sum_list l = sum_list k → l = k).
Proof.
  induction 1 as [|x y l k Hxy _ [IH1 IH2]]; simpl; [done|].
  split; [lia|]. intros Hsum.
  assert (x = y) as -> by lia. f_equal. apply IH2. lia.
Qed.

Lemma sum_list_insert (l : list nat) (i x y : nat) :
  l !! i = Some x → sum_list (<[i := y]> l) + x = sum_list l + y.
Proof.
  revert i. induction l as [|z l IH]; intros [|i] Hi; simpl in *; [done..| |].
  - injection Hi as ->. lia.
  - specialize (IH i Hi). lia.
Qed.

Lemma split_loop_sum (train_input : list (list Q)) (n : nat)
    (st st' : alloc_state) :
  alloc_inv train_input st →
  split_loop train_input (max_bins_of train_input) n st = Ok st' →
  sum_list (num_bins st')
  = (sum_list (num_bins st) + n) `min` sum_list (saturation train_input).
Proof.
  revert st. induction n as [|n IH]; intros st Hinv.
  - intros [= <-].
    pose proof (Forall2_le_sum_list _ _ (alloc_inv_le_saturation _ _ Hinv)).
    lia.
  - cbn [split_loop].
    destruct (options st) as [|[g i] rest] eqn:Hopt; cbn [PriorityQueue.get].
    + intros [= <-].
      apply (alloc_inv_empty_iff _ _ Hinv) in Hopt. rewrite Hopt. lia.
    + destruct (split_step_inv train_input st g i rest Hinv Hopt)
        as (nb & column & Hnb & _ & _ & _ & _ & st1 & Hstep & Hinv1 & Hnum
            & _).
      rewrite Hstep. cbn [mbind result_bind]. intros Hloop.
      rewrite (IH st1 Hinv1 Hloop), Hnum.
      pose proof (sum_list_insert (num_bins st) i nb (nb + 1) Hnb). lia.
Qed.

Lemma get_num_bins_locals_init_sum (row0 : list Q) (rest : list (list Q))
    (max_splits : Z) :
  ∃ st,
    get_num_bins_locals (row0 :: rest) max_splits = Ok st ∧
    alloc_inv (row0 :: rest) st ∧
    sum_list (num_bins st)
    = (2 * length row0 + Z.to_nat max_splits)
        `min` sum_list (saturation (row0 :: rest)).
Proof.
  unfold get_num_bins_locals.
  cbn [getitem lookup list_lookup mbind result_bind].
  destruct (get_num_bins_init row0 rest) as (q & -> & Hinv).
  cbn [mbind result_bind].
  destruct (split_loop_inv (row0 :: rest) (Z.to_nat max_splits) _ Hinv)
    as (st & Hloop & Hinv' & _).
  exists st. split; [done|]. split; [done|].
  rewrite (split_loop_sum _ _ _ _ Hinv Hloop). cbn [num_bins].
  rewrite fmap_const_2.
  assert (sum_list (replicate (length row0) 2) = 2 * length row0) as ->; [|done].
  induction (length row0); simpl; lia.
Qed.

(** X1.  On an input with at least one row the allocator spends its whole
    budget unless the features run out first: the bin counts it returns add
    up to two per feature plus the budget, capped at the sum over the
    features of the larger of 2 and the number of distinct values. *)
Theorem get_num_bins_total (row0 : list Q) (rest : list (list Q))
    (max_splits : Z) :
  ∃ bins,
    get_num_bins (row0 :: rest) max_splits = Ok bins ∧
    sum_list bins
    = (2 * length row0 + Z.to_nat max_splits)
        `min` sum_list (saturation (row0 :: rest)).
Proof.
  destruct (get_num_bins_locals_init_sum row0 rest max_splits)
    as (st & Hst & _ & Hsum).
  exists (num_bins st). unfold get_num_bins. by rewrite Hst.
Qed.

(** X2.  The allocator returns the saturated bin counts (for every feature
    the larger of 2 and its number of distinct values) exactly when the
    budget covers them; from there on a larger budget changes nothing. *)
Theorem get_num_bins_saturation (row0 : list Q) (rest : list (list Q))
    (max_splits : Z) :
  get_num_bins (row0 :: rest) max_splits = Ok (saturation (row0 :: rest)) ↔
  sum_list (saturation (row0 :: rest)) ≤ 2 * length row0 + Z.to_nat max_splits.
Proof.
  destruct (get_num_bins_locals_init_sum row0 rest max_splits)
    as (st & Hst & Hinv & Hsum).
  unfold get_num_bins. rewrite Hst. cbn [fmap result_fmap]. split.
  - intros [= Heq]. rewrite Heq in Hsum. lia.
  - intros Hle. f_equal.
    apply (Forall2_le_sum_list _ _ (alloc_inv_le_saturation _ _ Hinv)). lia.
Qed.

Lemma py_set_length (l : list Q) : length (py_set l) ≤ length l.
Proof.
  induction l as [|x l IH]; simpl; [done|].
  destruct (existsb (Qeq_bool x) l); simpl; lia.
Qed.

Lemma length_omap_le {A B} (f : A → option B) (l : list A) :
  length (omap f l) ≤ length l.
Proof.
  induction l as [|x l IH]; [done|].
  cbn [omap list_omap length]. destruct (f x); cbn [length]; lia.
Qed.

Lemma T_column_length (train_input : list (list Q)) (i : nat)
    (column : list Q) :
  T train_input !! i = Some column → length column ≤ length train_input.
Proof.
  unfold T. intros (j & -> & _)%list_lookup_fmap_Some.
  apply length_omap_le.
Qed.

(** X3.  No feature gets more bins than the larger of 2 and the number of
    rows: the bin count handed to the discretizer never exceeds the number
    of samples it is fitted on (beyond the minimum of 2). *)
Theorem get_num_bins_at_most_rows (row0 : list Q) (rest : list (list Q))
    (max_splits : Z) :
  ∃ bins,
    get_num_bins (row0 :: rest) max_splits = Ok bins ∧
    Forall (λ nb, nb ≤ 2 `max` length (row0 :: rest)) bins.
Proof.
  destruct (get_num_bins_locals_inv row0 rest max_splits) as (st & Hst & Hinv).
  exists (num_bins st). unfold get_num_bins. rewrite Hst. split; [done|].
  apply Forall_lookup. intros i nb Hnb.
  assert (i < length (T (row0 :: rest))) as Hi.
  { rewrite <- (inv_num_bins _ _ Hinv). by eapply lookup_lt_Some. }
  destruct (lookup_lt_is_Some_2 _ _ Hi) as [column Hc].
  destruct (inv_bounds _ _ Hinv i nb column Hnb Hc) as (_ & Hle & _).
  pose proof (py_set_length column).
  pose proof (T_column_length _ _ _ Hc). lia.
Qed.

(** X4.  The bookkeeping of the allocator, after any budget.  The queue
    holds exactly one entry for each feature still below its number of
    distinct values and none for the others.  The value [entropies[i]] of a
    feature is its tracked entropy, the value the float subtractions of its
    splits produce, and the key of its queue entry is its pushed gain.
    Where [M] bounds the entropies of the feature, the tracked entropy is
    within three rounding errors of the entropy at the current bin count,
    however many splits the feature went through, and the key is within
    five rounding errors of the gain of the feature's next bin. *)
Theorem get_num_bins_bookkeeping (train_input : list (list Q))
    (max_splits : Z) (st : alloc_state) :
  get_num_bins_locals train_input max_splits = Ok st →
  length (num_bins st) = length (T train_input) ∧
  length (entropies st) = length (T train_input) ∧
  NoDup (options st).*2 ∧
  ∀ i nb column,
    num_bins st !! i = Some nb → T train_input !! i = Some column →
    entropies st !! i = Some (tracked_entropy column nb) ∧
    (nb < length (py_set column) ↔ i ∈ (options st).*2) ∧
    (∀ g, (g, i) ∈ options st → g = pushed_gain column nb) ∧
    ∀ M,
      (∀ b, 2 ≤ b ≤ nb + 1 → (0 <= column_entropy column b <= M)%Q) →
      (Qabs (tracked_entropy column nb - column_entropy column nb)
       <= 3 * rounding_unit M)%Q ∧
      (Qabs (pushed_gain column nb - gain column nb)
       <= 5 * rounding_unit M)%Q.
Proof.
  intros Hst.
  assert (alloc_inv train_input st) as Hinv.
  { destruct train_input as [|row0 rest]; [done|].
    destruct (get_num_bins_locals_inv row0 rest max_splits) as (st' & Hst' & ?).
    rewrite Hst in Hst'. by injection Hst' as <-. }
  split; [apply (inv_num_bins _ _ Hinv)|].
  split; [apply (inv_entropies_len _ _ Hinv)|].
  split; [apply (inv_nodup _ _ Hinv)|].
  intros i nb column Hnb Hc.
  destruct (inv_bounds _ _ Hinv i nb column Hnb Hc) as (Hnb2 & _ & Hmem).
  split; [|split; [|split]].
  - assert (i < length (entropies st)) as Hi.
    { rewrite (inv_entropies_len _ _ Hinv). by eapply lookup_lt_Some. }
    destruct (lookup_lt_is_Some_2 _ _ Hi) as [e He].
    by rewrite He, (inv_entropies _ _ Hinv i nb column e).
  - by rewrite Hmem.
  - intros g Hin. by eapply alloc_inv_gain.
  - intros M HM. split.
    + apply tracked_entropy_error; [done|]. intros b Hb. apply HM. lia.
    + by apply pushed_gain_error.
Qed.

(** ** The entropy: the vector handed to scipy *)

Lemma foldl_Qplus_acc (a : Q) (l : list Q) :
  (foldl Qplus a l == a + np_sum l)%Q.
Proof.
  unfold np_sum. revert a. induction l as [|x l IH]; intros a; simpl.
  - ring.
  - rewrite (IH (a + x)%Q), (IH (0 + x)%Q). ring.
Qed.

Lemma np_sum_cons (x : Q) (l : list Q) : (np_sum (x :: l) == x + np_sum l)%Q.
Proof.
  unfold np_sum at 1. cbn [foldl]. rewrite foldl_Qplus_acc. ring.
Qed.

Lemma np_sum_zip_with (u v : list Q) :
  length u = length v →
  (np_sum (zip_with Qplus u v) == np_sum u + np_sum v)%Q.
Proof.
  revert v. induction u as [|x u IH]; intros [|y v] Hlen; try done.
  - cbn [zip_with]. injection Hlen as Hlen.
    rewrite !np_sum_cons, IH by done. ring.
Qed.

Lemma np_sum_one_hot_seq (k s b : nat) :
  (np_sum ((λ j, if decide (j = k) then 1 else 0) <$> seq s b)
   == if decide (s ≤ k < s + b) then 1 else 0)%Q.
Proof.
  revert s. induction b as [|b IH]; intros s.
  - simpl. rewrite decide_False by lia. reflexivity.
  - cbn [seq fmap list_fmap]. rewrite np_sum_cons, IH.
    destruct (decide (s = k)) as [->|Hne].
    + rewrite decide_False by lia. rewrite decide_True by lia. ring.
    + destruct (decide (S s ≤ k < S s + b)).
      * rewrite decide_True by lia. ring.
      * rewrite decide_False by lia. ring.
Qed.

Lemma np_sum_one_hot (b k : nat) : k < b → (np_sum (one_hot b k) == 1)%Q.
Proof.
  intros Hk. unfold one_hot. rewrite np_sum_one_hot_seq.
  by rewrite decide_True by lia.
Qed.

Lemma one_hot_nonneg (b k : nat) : Forall (λ x, 0 <= x)%Q (one_hot b k).
Proof.
  unfold one_hot. apply Forall_fmap, Forall_forall. intros j _. simpl.
  destruct (decide (j = k)); done.
Qed.

Lemma zip_with_Qplus_nonneg (u v : list Q) :
  Forall (λ x, 0 <= x)%Q u → Forall (λ x, 0 <= x)%Q v →
  Forall (λ x, 0 <= x)%Q (zip_with Qplus u v).
Proof.
  intros Hu. revert v. induction Hu as [|x u Hx _ IH]; intros v Hv; [done|].
  destruct Hv as [|y v Hy Hv]; [done|]. simpl.
  constructor; [|by apply IH].
  replace 0%Q with (0 + 0)%Q by done. by apply Qplus_le_compat.
Qed.

Lemma sum_rows_one_hot (b : nat) (acc : list Q) (rows : list (list Q)) :
  length acc = b → Forall (λ x, 0 <= x)%Q acc →
  Forall (λ row, ∃ k, k < b ∧ row = one_hot b k) rows →
  length (foldl (zip_with Qplus) acc rows) = b ∧
  Forall (λ x, 0 <= x)%Q (foldl (zip_with Qplus) acc rows) ∧
  (np_sum (foldl (zip_with Qplus) acc rows)
   == np_sum acc + Qnat (length rows))%Q.
Proof.
  intros Hlen Hacc Hrows. revert acc Hlen Hacc.
  induction Hrows as [|row rows (k & Hk & ->) _ IH]; intros acc Hlen Hacc.
  - simpl. split; [done|]. split; [done|]. unfold Qnat. simpl. ring.
  - cbn [foldl].
    assert (length (one_hot b k) = b) as Hlen'
      by (unfold one_hot; by rewrite length_fmap, length_seq).
    destruct (IH (zip_with Qplus acc (one_hot b k))) as (H1 & H2 & H3).
    + rewrite length_zip_with. lia.
    + apply zip_with_Qplus_nonneg; [done | apply one_hot_nonneg].
    + split; [done|]. split; [done|].
      rewrite H3, np_sum_zip_with, np_sum_one_hot by (done || lia).
      unfold Qnat. cbn [length].
      rewrite Nat2Z.inj_succ, <- Z.add_1_r, inject_Z_plus. ring.
Qed.

Lemma nonneg_le_np_sum (l : list Q) (x : Q) :
  Forall (λ y, 0 <= y)%Q l → x ∈ l → (x <= np_sum l)%Q.
Proof.
  induction 1 as [|y l Hy Hl IH]; [by intros ?%elem_of_nil|].
  assert (0 <= np_sum l)%Q as Hsum.
  { clear IH. induction Hl as [|z l Hz _ IH]; [done|].
    rewrite np_sum_cons. replace 0%Q with (0 + 0)%Q by done.
    by apply Qplus_le_compat. }
  rewrite np_sum_cons. intros [->|Hin]%elem_of_cons.
  - rewrite <- (Qplus_0_r y) at 1. by apply Qplus_le_compat; [apply Qle_refl|].
  - rewrite <- (Qplus_0_l x). apply Qplus_le_compat; [done | by apply IH].
Qed.

(** X5.  When the discretizer returns one one-hot row of width [b] per
    sample and there is at least one sample, the entropy is taken of a
    probability vector: [b] entries between 0 and 1 that sum to 1. *)
Theorem entropy_of_probabilities (data : list (list Q)) (bins b : nat) :
  KBins_fit_transform bins data ≠ [] →
  Forall (λ row, ∃ k, k < b ∧ row = one_hot b k)
    (KBins_fit_transform bins data) →
  __entropy data bins
    = stats_entropy (bin_probabilities (KBins_fit_transform bins data)) ∧
  length (bin_probabilities (KBins_fit_transform bins data)) = b ∧
  Forall (λ p, 0 <= p ∧ p <= 1)%Q
    (bin_probabilities (KBins_fit_transform bins data)) ∧
  (np_sum (bin_probabilities (KBins_fit_transform bins data)) == 1)%Q.
Proof.
  intros Hne Hrows. split; [done|].
  destruct (KBins_fit_transform bins data) as [|row rows]; [done|]. clear Hne.
  apply Forall_cons in Hrows as [(k & Hk & ->) Hrows].
  unfold bin_probabilities. cbn [sum_axis0].
  destruct (sum_rows_one_hot b (one_hot b k) rows) as (Hlen & Hpos & Hsum);
    [unfold one_hot; by rewrite length_fmap, length_seq
    | apply one_hot_nonneg | done |].
  rewrite np_sum_one_hot in Hsum by done.
  set (v := foldl (zip_with Qplus) (one_hot b k) rows) in *.
  assert (0 < np_sum v)%Q as Htotal.
  { rewrite Hsum. unfold Qnat.
    assert (0 <= inject_Z (Z.of_nat (length rows)))%Q
      by (rewrite <- (Zle_Qle 0); lia).
    replace 0%Q with (0 + 0)%Q by done.
    apply Qplus_lt_le_compat; done. }
  split; [by rewrite length_fmap|]. split.
  - apply Forall_fmap, Forall_forall. intros x Hx. simpl.
    rewrite Forall_forall in Hpos. split.
    + apply Qle_shift_div_l; [done|]. rewrite Qmult_0_l. by apply Hpos.
    + apply Qle_shift_div_r; [done|]. rewrite Qmult_1_l.
      by apply nonneg_le_np_sum; [apply Forall_forall|].
  - assert (¬ np_sum v == 0)%Q as Hnz.
    { intros H0. rewrite H0 in Htotal. by apply Qlt_irrefl in Htotal. }
    assert (∀ l, np_sum ((λ x, x / np_sum v) <$> l) == np_sum l / np_sum v)%Q
      as Hdiv.
    { induction l as [|x l IH].
      - unfold np_sum. cbn [fmap list_fmap foldl]. by field.
      - cbn [fmap list_fmap]. rewrite !np_sum_cons, IH. by field. }
    rewrite Hdiv. by field.
Qed.

(** ** Season data and weights: errors and pairs *)

Lemma season_data_loop_KeyError drop_players season_num training_data
    (all_answers : list Answer.t) (season_data : list TrainSample.t) :
  ¬ Forall (λ a, Answer.player a ∈ dom drop_players) all_answers →
  season_data_loop drop_players season_num training_data all_answers
    season_data = Raise KeyError.
Proof.
  revert season_data.
  induction all_answers as [|a l IH]; intros season_data Hno.
  - exfalso. apply Hno. constructor.
  - cbn [season_data_loop].
    destruct (decide (Answer.player a ∈ dom drop_players)) as [Hin|Hout].
    + rewrite season_data_step_expansion by done. cbn [mbind result_bind].
      apply IH. intros Hl. apply Hno. by constructor.
    + apply not_elem_of_dom in Hout.
      unfold season_data_step, dict_getitem. by rewrite Hout.
Qed.

(** X6.  The season-data expansion raises [KeyError] for a season the exam
    data does not hold and for a season one of whose answers is by a player
    missing from the drop mapping; in every other case it returns. *)
Theorem get_season_data_KeyError (season_num max_episode : Z)
    (training_data : bool) :
  match EXAM_DATA !! season_num with
  | None =>
      __get_season_data season_num max_episode training_data = Raise KeyError
  | Some season =>
      (Forall (λ a, Answer.player a
                      ∈ dom (get_drop_mapping season EXECUTION_DROP max_episode))
         (get_all_answers season
            (dom (get_drop_mapping season EXECUTION_DROP max_episode))
            max_episode) →
       ∃ season_data,
         __get_season_data season_num max_episode training_data
           = Ok season_data) ∧
      (¬ Forall (λ a, Answer.player a
                        ∈ dom (get_drop_mapping season EXECUTION_DROP max_episode))
           (get_all_answers season
              (dom (get_drop_mapping season EXECUTION_DROP max_episode))
              max_episode) →
       __get_season_data season_num max_episode training_data
         = Raise KeyError)
  end.
Proof.
  unfold __get_season_data, dict_getitem.
  destruct (EXAM_DATA !! season_num) as [season|]; [|done].
  cbn [mbind result_bind]. split.
  - intros Hall. rewrite season_data_loop_expansion; [by eexists|].
    by apply Forall_forall.
  - apply season_data_loop_KeyError.
Qed.

Lemma train_weights_loop_ZeroDivisionError (train_data : list TrainSample.t)
    (train_weights : list Q) :
  ¬ Forall (λ s, 0 < num_answers s) train_data →
  train_weights_loop train_data train_weights = Raise ZeroDivisionError.
Proof.
  revert train_weights.
  induction train_data as [|s l IH]; intros acc Hno.
  - exfalso. apply Hno. constructor.
  - cbn [train_weights_loop]. fold (num_answers s).
    destruct (num_answers s) as [|n] eqn:Hn; [done|].
    cbn [true_div_1 mbind result_bind]. apply IH.
    intros Hl. apply Hno. constructor; [lia | done].
Qed.

(** X7.  The weights are defined exactly when every sample's participant
    has at least one recorded answer in the sample's episode: then there is
    one weight per sample, the reciprocal of that number of answers, which
    lies in (0, 1]; otherwise the division raises [ZeroDivisionError] and no
    weight is returned. *)
Theorem get_train_weights_cases (train_data : list TrainSample.t) :
  (Forall (λ s, 0 < num_answers s) train_data →
   __get_train_weights train_data
     = Ok ((λ s, 1 # Pos.of_nat (num_answers s)) <$> train_data)) ∧
  (¬ Forall (λ s, 0 < num_answers s) train_data →
   __get_train_weights train_data = Raise ZeroDivisionError) ∧
  (∀ weights, __get_train_weights train_data = Ok weights →
     length weights = length train_data ∧
     Forall (λ w, 0 < w ∧ w <= 1)%Q weights).
Proof.
  unfold __get_train_weights. split; [|split].
  - intros Hall. by rewrite train_weights_loop_positive.
  - apply train_weights_loop_ZeroDivisionError.
  - intros weights [Hw _]%train_weights_loop_Ok. simpl in Hw. subst weights.
    split; [by rewrite length_fmap|].
    apply Forall_fmap, Forall_forall. intros s _. simpl.
    unfold Qlt, Qle. simpl. lia.
Qed.

(** X8.  On the samples of a season whose every answer is among the
    recorded input of its own episode, the weights never raise: each sample
    counts at least the answer it stems from. *)
Theorem get_train_weights_season_data (season_num max_episode : Z)
    (training_data : bool) (season : Season)
    (season_data : list TrainSample.t) :
  EXAM_DATA !! season_num = Some season →
  (∀ a, a ∈ get_all_answers season
              (dom (get_drop_mapping season EXECUTION_DROP max_episode))
              max_episode →
        ∃ q answered,
          (Answer.player a, q, answered) ∈ input (Answer.episode a)) →
  __get_season_data season_num max_episode training_data = Ok season_data →
  ∃ weights,
    __get_train_weights season_data = Ok weights ∧
    length weights = length season_data.
Proof.
  intros Hseason Hrec Hdata.
  unfold __get_season_data, dict_getitem in Hdata. rewrite Hseason in Hdata.
  cbn [mbind result_bind] in Hdata. apply season_data_loop_Ok in Hdata.
  simpl in Hdata.
  unfold __get_train_weights. rewrite train_weights_loop_positive.
  - eexists. split; [done|]. cbn [app]. by rewrite length_fmap.
  - apply Forall_forall. intros s Hs. subst season_data.
    apply list_elem_of_bind in Hs as (a & Hs & Ha).
    unfold expansion in Hs.
    destruct (removal_episode _ a); [|by apply elem_of_nil in Hs].
    apply list_elem_of_fmap in Hs as (sel & -> & _).
    destruct (Hrec a Ha) as (q & answered & Hin).
    unfold num_answers, Episode_get_all_answers. cbn [make_sample
      TrainSample.exam_episode TrainSample.player].
    rewrite length_fmap.
    assert ((Answer.player a, q, answered)
              ∈ filter (λ r : Player * Question * gset Player,
                          r.1.1 ∈ ({[Answer.player a]} : gset Player))
                  (input (Answer.episode a))) as Hf.
    { apply list_elem_of_filter. split; [|done]. simpl.
      by apply elem_of_singleton. }
    destruct (filter _ (input (Answer.episode a))); [|simpl; lia].
    by apply elem_of_nil in Hf.
Qed.

(** X9.  In predict mode the two rows of a pair carry the same weight. *)
Theorem predict_pair_weights_equal (season_num max_episode : Z)
    (season_data : list TrainSample.t) (weights : list Q) (k : nat)
    (w w' : Q) :
  __get_season_data season_num max_episode false = Ok season_data →
  __get_train_weights season_data = Ok weights →
  weights !! (2 * k) = Some w → weights !! (2 * k + 1) = Some w' →
  w = w'.
Proof.
  intros Hdata Hw H0 H1.
  unfold __get_season_data, dict_getitem in Hdata.
  destruct (EXAM_DATA !! season_num) as [season|]; [|done].
  cbn [mbind result_bind] in Hdata. apply season_data_loop_Ok in Hdata.
  simpl in Hdata.
  apply train_weights_loop_Ok in Hw as [-> _]. cbn [app] in H0, H1.
  assert (2 * k < length season_data) as Hk.
  { apply lookup_lt_Some in H0. by rewrite length_fmap in H0. }
  rewrite Hdata in Hk.
  destruct (expansion_predict_pairs _ _ _ _ Hk) as (a & d & _ & _ & Ha0 & Ha1).
  rewrite <- Hdata in Ha0, Ha1.
  rewrite list_lookup_fmap, Ha0 in H0. rewrite list_lookup_fmap, Ha1 in H1.
  cbn [fmap option_fmap option_map] in H0, H1.
  injection H0 as <-. injection H1 as <-. done.
Qed.

(** X10.  In predict mode the augmented rows alternate: row [2k] is the
    excluded marker, its answered-on value is 0 and its interaction block is
    zero; row [2k+1] is the included marker, its answered-on value is 1 and
    its interaction block repeats the features. *)
Theorem predict_rows_alternate (season_num max_episode : Z)
    (season_data : list TrainSample.t) (all_features : list (list Q))
    (k : nat) (excluded included : list Q) :
  __get_season_data season_num max_episode false = Ok season_data →
  2 * k + 1 < length season_data →
  all_features !! (2 * k) = Some excluded →
  all_features !! (2 * k + 1) = Some included →
  __add_answered_on_feature season_data all_features !! (2 * k)
    = Some (excluded ++ (Qmult 0 <$> excluded) ++ [0%Q]) ∧
  __add_answered_on_feature season_data all_features !! (2 * k + 1)
    = Some (included ++ (Qmult 1 <$> included) ++ [1%Q]) ∧
  Forall (λ v, v == 0)%Q (Qmult 0 <$> excluded) ∧
  Forall2 Qeq (Qmult 1 <$> included) included.
Proof.
  intros Hdata Hk Hex Hin.
  unfold __get_season_data, dict_getitem in Hdata.
  destruct (EXAM_DATA !! season_num) as [season|]; [|done].
  cbn [mbind result_bind] in Hdata. apply season_data_loop_Ok in Hdata.
  simpl in Hdata.
  assert (2 * k < length season_data) as Hk' by lia.
  rewrite Hdata in Hk'.
  destruct (expansion_predict_pairs _ _ _ _ Hk') as (a & d & _ & _ & Ha0 & Ha1).
  rewrite <- Hdata in Ha0, Ha1.
  rewrite add_answered_on_feature_rows. split; [|split; [|split]].
  - rewrite list_lookup_fmap, lookup_zip_with, Ha0.
    cbn [mbind option_bind]. rewrite Hex. reflexivity.
  - rewrite list_lookup_fmap, lookup_zip_with, Ha1.
    cbn [mbind option_bind]. rewrite Hin. reflexivity.
  - apply Forall_fmap, Forall_forall. intros v _. simpl. ring.
  - apply Forall2_fmap_l, Forall_Forall2_diag, Forall_forall.
    intros v _. unfold compose. ring.
Qed.

(** ** The entry points: training *)

Lemma bind_lift {A B} (r : result A) (k : A → method B)
    (self : ExamDropExtractor) :
  bind (lift r) k self
  = match r with
    | Ok a => k a self
    | Raise e => (self, Raise e)
    end.
Proof. by destruct r. Qed.

Lemma bind_set_discretizer {B} (v : estimator KBins) (k : () → method B)
    (self : ExamDropExtractor) :
  bind (set_discretizer v) k self = k () (set_discretizer v self).1.
Proof. done. Qed.

Lemma bind_set_anova_f_filter {B} (v : estimator SelectFpr)
    (k : () → method B) (self : ExamDropExtractor) :
  bind (set_anova_f_filter v) k self = k () (set_anova_f_filter v self).1.
Proof. done. Qed.

Lemma bind_set_pca {B} (v : estimator PCA) (k : () → method B)
    (self : ExamDropExtractor) :
  bind (set_pca v) k self = k () (set_pca v self).1.
Proof. done. Qed.

Lemma bind_getattr {A B} (attr : ExamDropExtractor → option A)
    (k : A → method B) (self : ExamDropExtractor) :
  bind (getattr attr) k self
  = match attr self with
    | Some a => k a self
    | None => (self, Raise AttributeError)
    end.
Proof. unfold bind, getattr. by destruct (attr self). Qed.

Ltac method_step :=
  repeat (cbn beta;
          first [rewrite bind_lift | rewrite bind_set_discretizer
                | rewrite bind_set_anova_f_filter | rewrite bind_set_pca
                | rewrite bind_getattr]);
  cbn [set_discretizer set_anova_f_filter set_pca fst
       predict_season predict_episode train_seasons anova_f_significance
       pca_explain max_splits discretizer anova_f_filter pca].

Ltac case_result :=
  match goal with
  | |- context [match ?x with Ok _ => _ | Raise _ => _ end] =>
      destruct x eqn:?; method_step;
      [|try (let H := fresh in intros H; discriminate H)]
  end.

Lemma get_train_data_Ok (self self' : ExamDropExtractor)
    (x : list (list Q)) (y w : list Q) :
  get_train_data self = (self', Ok (x, y, w)) →
  ∃ train_data bins d x1 f x2 p,
    train_data_loop (train_seasons self) [] = Ok train_data ∧
    get_num_bins (train_features train_data) (max_splits self) = Ok bins ∧
    KBins_fit bins (train_features train_data) = Ok d ∧
    KBins_transform d (train_features train_data) = Ok x1 ∧
    SelectFpr_fit (anova_f_significance self)
      (__add_answered_on_feature train_data x1) (train_labels train_data)
      = Ok f ∧
    SelectFpr_transform f (__add_answered_on_feature train_data x1) = Ok x2 ∧
    PCA_fit (pca_explain self) x2 = Ok p ∧
    PCA_transform p x2 = Ok x ∧
    __get_train_weights train_data = Ok w ∧
    y = train_labels train_data ∧
    self' = with_estimators self d f p.
Proof.
  unfold get_train_data, mbind, method_bind. method_step.
  repeat case_result.
  unfold mret, method_ret, ret. intros [= <- <- <- <-].
  eexists _, _, _, _, _, _, _.
  repeat (split; [first [reflexivity | eassumption]|]). reflexivity.
Qed.

(** X11.  When [get_train_data] returns, the extractor is trained and its
    configuration is unchanged; the train data was not empty; and there is
    one label and one weight per train sample: the label is 1 or 0 as the
    selected player is the mol or not, the weight is the reciprocal of the
    number of answers the sample's participant gave in its episode. *)
Theorem get_train_data_returns (self self' : ExamDropExtractor)
    (x : list (list Q)) (y w : list Q) :
  get_train_data self = (self', Ok (x, y, w)) →
  trained self' ∧ same_configuration self self' ∧
  ∃ train_data,
    train_data_loop (train_seasons self) [] = Ok train_data ∧
    train_data ≠ [] ∧
    length y = length train_data ∧ length w = length train_data ∧
    ∀ i sample, train_data !! i = Some sample →
      y !! i = Some (if get_is_mol (TrainSample.selected_player sample)
                     then 1%Q else 0%Q) ∧
      w !! i = Some (1 # Pos.of_nat (num_answers sample)).
Proof.
  intros (train_data & bins & d & x1 & f & x2 & p & Hdata & Hbins & _ & _ & _
          & _ & _ & _ & Hw & -> & ->)%get_train_data_Ok.
  split; [by exists d, f, p|]. split; [repeat split|].
  exists train_data. split; [exact Hdata|].
  apply train_weights_loop_Ok in Hw as [-> _]. cbn [app].
  split; [|split; [|split]].
  - intros ->. change (train_features []) with (@nil (list Q)) in Hbins.
    unfold get_num_bins in Hbins.
    rewrite get_num_bins_locals_nil in Hbins. discriminate Hbins.
  - unfold train_labels. apply length_fmap.
  - apply length_fmap.
  - intros i sample Hi. unfold train_labels.
    rewrite !list_lookup_fmap, Hi. split; reflexivity.
Qed.

(** X12.  When the train seasons yield no sample at all, [get_train_data]
    raises the [IndexError] of the allocator reading the first row, before
    any estimator is created: the extractor is left as it was. *)
Theorem get_train_data_no_samples (self : ExamDropExtractor) :
  train_data_loop (train_seasons self) [] = Ok [] →
  get_train_data self = (self, Raise IndexError).
Proof.
  intros Hdata.
  unfold get_train_data, mbind, method_bind. method_step.
  rewrite Hdata. method_step. reflexivity.
Qed.

Lemma get_season_data_Raise (season_num max_episode : Z)
    (training_data : bool) (e : exn) :
  __get_season_data season_num max_episode training_data = Raise e →
  e = KeyError.
Proof.
  unfold __get_season_data, dict_getitem.
  destruct (EXAM_DATA !! season_num) as [season|]; [|by intros [= <-]].
  cbn [mbind result_bind].
  destruct (decide (Forall (λ a, Answer.player a
              ∈ dom (get_drop_mapping season EXECUTION_DROP max_episode))
              (get_all_answers season
                 (dom (get_drop_mapping season EXECUTION_DROP max_episode))
                 max_episode))) as [Hall|Hno].
  - rewrite season_data_loop_expansion by by apply Forall_forall. done.
  - rewrite season_data_loop_KeyError by done. by intros [= <-].
Qed.

Lemma train_data_loop_unknown_season (seasons : list Z)
    (train_data : list TrainSample.t) (season : Z) :
  season ∈ seasons → EXAM_DATA !! season = None →
  train_data_loop seasons train_data = Raise KeyError.
Proof.
  intros Hin Hnone. revert train_data.
  induction seasons as [|s l IH]; intros train_data;
    [by apply elem_of_nil in Hin|].
  cbn [train_data_loop].
  destruct (__get_season_data s sys_maxsize true) as [d|e] eqn:Hs.
  - cbn [mbind result_bind]. apply IH.
    apply elem_of_cons in Hin as [->|Hin]; [|done].
    unfold __get_season_data, dict_getitem in Hs. by rewrite Hnone in Hs.
  - cbn [mbind result_bind]. by apply get_season_data_Raise in Hs as ->.
Qed.

(** X14.  When one of the train seasons is missing from the exam data,
    [get_train_data] raises [KeyError] and leaves the extractor as it
    was. *)
Theorem get_train_data_unknown_season (self : ExamDropExtractor)
    (season : Z) :
  season ∈ train_seasons self → EXAM_DATA !! season = None →
  get_train_data self = (self, Raise KeyError).
Proof.
  intros Hin Hnone.
  unfold get_train_data, mbind, method_bind. method_step.
  by rewrite (train_data_loop_unknown_season _ _ season).
Qed.

(** X19.  The train data is the concatenation, in iteration order, of the
    data of the train seasons, each taken in train mode without a cutoff;
    it is defined exactly when every season's data is. *)
Theorem train_data_loop_concat (seasons : list Z)
    (train_data result : list TrainSample.t) :
  train_data_loop seasons train_data = Ok result ↔
  ∃ per_season,
    Forall2 (λ season data,
               __get_season_data season sys_maxsize true = Ok data)
      seasons per_season ∧
    result = train_data ++ concat per_season.
Proof.
  revert train_data. induction seasons as [|s l IH]; intros train_data.
  - cbn [train_data_loop]. split.
    + intros [= <-]. exists []. split; [constructor|]. by rewrite app_nil_r.
    + intros (ds & ->%Forall2_nil_inv_l & ->). by rewrite app_nil_r.
  - cbn [train_data_loop]. split.
    + destruct (__get_season_data s sys_maxsize true) as [d|] eqn:Hs;
        [|intros H; discriminate H].
      cbn [mbind result_bind]. intros (ds & Hds & ->)%IH.
      exists (d :: ds). split; [by constructor|].
      cbn [concat]. by rewrite app_assoc.
    + intros (ds & Hds & ->).
      apply Forall2_cons_inv_l in Hds as (d & ds' & Hs & Hds & ->).
      rewrite Hs. cbn [mbind result_bind]. apply IH.
      exists ds'. split; [done|]. cbn [concat]. by rewrite app_assoc.
Qed.

Lemma train_data_loop_acc (seasons : list Z)
    (train_data : list TrainSample.t) :
  train_data_loop seasons train_data
  = (train_data ++.) <$> train_data_loop seasons [].
Proof.
  revert train_data. induction seasons as [|s l IH]; intros train_data.
  - cbn [train_data_loop fmap result_fmap]. by rewrite app_nil_r.
  - cbn [train_data_loop].
    destruct (__get_season_data s sys_maxsize true) as [d|e]; [|done].
    cbn [mbind result_bind app]. rewrite (IH (train_data ++ d)), (IH d).
    destruct (train_data_loop l []) as [ds|e]; [|done].
    cbn [fmap result_fmap]. by rewrite app_assoc.
Qed.

Lemma train_data_loop_Raise (seasons : list Z)
    (train_data : list TrainSample.t) (e : exn) :
  train_data_loop seasons train_data = Raise e → e = KeyError.
Proof.
  revert train_data. induction seasons as [|s l IH]; intros train_data;
    [done|].
  cbn [train_data_loop].
  destruct (__get_season_data s sys_maxsize true) as [d|e'] eqn:Hs.
  - cbn [mbind result_bind]. apply IH.
  - cbn [mbind result_bind]. intros [= <-]. by eapply get_season_data_Raise.
Qed.

Lemma train_data_loop_Permutation (seasons seasons' : list Z) :
  seasons ≡ₚ seasons' →
  match train_data_loop seasons [], train_data_loop seasons' [] with
  | Ok train_data, Ok train_data' => train_data ≡ₚ train_data'
  | Raise e, Raise e' => e = KeyError ∧ e' = KeyError
  | _, _ => False
  end.
Proof.
  induction 1 as [|x l l' _ IH|x y l|l1 l2 l3 _ IH1 _ IH2].
  - cbn [train_data_loop]. done.
  - cbn [train_data_loop].
    destruct (__get_season_data x sys_maxsize true) as [d|e] eqn:Hx;
      cbn [mbind result_bind app].
    + rewrite (train_data_loop_acc l d), (train_data_loop_acc l' d).
      destruct (train_data_loop l []), (train_data_loop l' []);
        cbn [fmap result_fmap]; [|done..]. by f_equiv.
    + by apply get_season_data_Raise in Hx as ->.
  - cbn [train_data_loop].
    destruct (__get_season_data x sys_maxsize true) as [dx|ex] eqn:Hx,
             (__get_season_data y sys_maxsize true) as [dy|ey] eqn:Hy;
      cbn [mbind result_bind app];
      try apply get_season_data_Raise in Hx as ->;
      try apply get_season_data_Raise in Hy as ->; [|done..].
    rewrite (train_data_loop_acc l (dy ++ dx)),
      (train_data_loop_acc l (dx ++ dy)).
    destruct (train_data_loop l []) as [ds|e] eqn:Hl; cbn [fmap result_fmap].
    + f_equiv. apply Permutation_app_comm.
    + by apply train_data_loop_Raise in Hl as ->.
  - destruct (train_data_loop l1 []), (train_data_loop l2 []),
      (train_data_loop l3 []); try done.
    + by etrans.
    + by destruct IH1, IH2.
Qed.

Lemma zip_labels_weights (l : list TrainSample.t) :
  zip l (zip (train_labels l) ((λ s, 1 # Pos.of_nat (num_answers s)) <$> l))
  = (λ s, (s, (if get_is_mol (TrainSample.selected_player s)
               then 1%Q else 0%Q, 1 # Pos.of_nat (num_answers s)))) <$> l.
Proof. induction l as [|s l IH]; [done|]. cbn. by f_equal. Qed.

(** X13.  The order in which the set of train seasons is iterated only
    permutes the rows.  For two iteration orders of the same seasons the
    loop collecting the train data raises [KeyError] under both or returns
    under both; when it returns, the two lists of train data are
    permutations of one another, the weights raise [ZeroDivisionError]
    under both or are defined under both, and then the rows of a sample
    with its label and its weight are permutations of one another. *)
Theorem train_seasons_iteration_order (seasons seasons' : list Z) :
  seasons ≡ₚ seasons' →
  match train_data_loop seasons [], train_data_loop seasons' [] with
  | Ok train_data, Ok train_data' =>
      train_data ≡ₚ train_data' ∧
      match __get_train_weights train_data,
            __get_train_weights train_data' with
      | Ok weights, Ok weights' =>
          zip train_data (zip (train_labels train_data) weights)
          ≡ₚ zip train_data' (zip (train_labels train_data') weights')
      | Raise e, Raise e' => e = ZeroDivisionError ∧ e' = ZeroDivisionError
      | _, _ => False
      end
  | Raise e, Raise e' => e = KeyError ∧ e' = KeyError
  | _, _ => False
  end.
Proof.
  intros Hperm%train_data_loop_Permutation.
  destruct (train_data_loop seasons []) as [l|e],
           (train_data_loop seasons' []) as [l'|e']; [|done..].
  split; [done|]. unfold __get_train_weights.
  destruct (decide (Forall (λ s, 0 < num_answers s) l)) as [Hall|Hno].
  - assert (Forall (λ s, 0 < num_answers s) l') as Hall'
      by by rewrite <- Hperm.
    rewrite !train_weights_loop_positive by done. cbn [app].
    rewrite !zip_labels_weights. by f_equiv.
  - assert (¬ Forall (λ s, 0 < num_answers s) l') as Hno'
      by by rewrite <- Hperm.
    by rewrite !train_weights_loop_ZeroDivisionError.
Qed.

(** ** The entry points: prediction *)

Lemma evens_odds_lookup {A} (l : list A) (k : nat) :
  evens l !! k = l !! (2 * k) ∧ odds l !! k = l !! (2 * k + 1).
Proof.
  revert k. induction l as [|x l IH]; intros k.
  - by rewrite !lookup_nil.
  - cbn [evens odds]. split.
    + destruct k as [|k]; [done|].
      replace (2 * S k) with (S (2 * k + 1)) by lia.
      cbn [lookup list_lookup]. apply IH.
    + replace (2 * k + 1) with (S (2 * k)) by lia.
      cbn [lookup list_lookup]. apply IH.
Qed.

Lemma evens_odds_length {A} (l : list A) :
  length (evens l) = Nat.div2 (S (length l)) ∧
  length (odds l) = Nat.div2 (length l).
Proof.
  induction l as [|x l [IH1 IH2]]; [done|].
  cbn [evens odds length]. split; [|done].
  rewrite IH2. by destruct (length l).
Qed.

Lemma predict_samples_loop_zip (datas : list TrainSample.t)
    (ins outs : list (list Q)) (weights : list Q)
    (predict_samples : list PredictSample) :
  predict_samples_loop datas ins outs weights predict_samples
  = predict_samples
    ++ zip_with (λ di ow, make_predict_sample di.1 di.2 ow.1 ow.2)
         (zip datas ins) (zip outs weights).
Proof.
  revert ins outs weights predict_samples.
  induction datas as [|data datas IH];
    intros [|i ins] [|o outs] [|w weights] acc; cbn [predict_samples_loop];
    try by rewrite app_nil_r.
  rewrite IH, <- app_assoc. done.
Qed.

Lemma get_predict_data_Ok (self self' : ExamDropExtractor)
    (samples : list PredictSample) :
  get_predict_data self = (self', Ok samples) →
  ∃ predict_data,
    __get_season_data (predict_season self) (predict_episode self) false
      = Ok predict_data ∧
    ((predict_data = [] ∧ samples = []) ∨
     ∃ d f p x1 x2 x weights,
       discretizer self = Some (Fitted d) ∧
       anova_f_filter self = Some (Fitted f) ∧
       pca self = Some (Fitted p) ∧
       KBins_transform d
         ((λ sample, extract_features sample (predict_episode self))
            <$> predict_data) = Ok x1 ∧
       SelectFpr_transform f (__add_answered_on_feature predict_data x1)
         = Ok x2 ∧
       PCA_transform p x2 = Ok x ∧
       __get_train_weights predict_data = Ok weights ∧
       samples = predict_samples_loop (evens predict_data) (odds x) (evens x)
                   weights []).
Proof.
  unfold get_predict_data, mbind, method_bind. method_step.
  destruct (__get_season_data _ _ _) as [predict_data|] eqn:Hdata;
    [|intros H; discriminate H].
  intros H. exists predict_data. split; [reflexivity|].
  destruct predict_data as [|s l].
  { left. unfold mret, method_ret, ret in H. by injection H as _ <-. }
  right. revert H. method_step.
  destruct (discretizer self) as [[|d]|] eqn:Hd; method_step;
    try (intros H; discriminate H).
  unfold transform at 1.
  destruct (KBins_transform d _) as [x1|] eqn:H1; method_step;
    [|intros H; discriminate H].
  destruct (anova_f_filter self) as [[|f]|] eqn:Hf; method_step;
    try (intros H; discriminate H).
  unfold transform at 1.
  destruct (SelectFpr_transform f _) as [x2|] eqn:H2; method_step;
    [|intros H; discriminate H].
  destruct (pca self) as [[|p]|] eqn:Hp; method_step;
    try (intros H; discriminate H).
  unfold transform at 1.
  destruct (PCA_transform p _) as [x|] eqn:H3; method_step;
    [|intros H; discriminate H].
  destruct (__get_train_weights (s :: l)) as [weights|] eqn:Hw; method_step;
    [|intros H; discriminate H].
  unfold mret, method_ret, ret. intros [= _ <-].
  by exists d, f, p, x1, x2, x, weights.
Qed.

(** X15.  Each prediction sample is built from one pair of rows: sample
    [k] takes its included set from the answer of row [2k] of the season
    data, its excluded set is the rest of the players of that row's exam
    episode, disjoint from the included set; its included features are row
    [2k+1] of the transformed matrix, its excluded features row [2k]; and its
    weight is entry [k] of the row weights. *)
Theorem get_predict_data_samples (self self' : ExamDropExtractor)
    (samples : list PredictSample) (k : nat) (ps : PredictSample) :
  get_predict_data self = (self', Ok samples) →
  samples !! k = Some ps →
  ∃ predict_data d f p x1 x2 x weights data,
    __get_season_data (predict_season self) (predict_episode self) false
      = Ok predict_data ∧
    discretizer self = Some (Fitted d) ∧
    anova_f_filter self = Some (Fitted f) ∧
    pca self = Some (Fitted p) ∧
    KBins_transform d
      ((λ sample, extract_features sample (predict_episode self))
         <$> predict_data) = Ok x1 ∧
    SelectFpr_transform f (__add_answered_on_feature predict_data x1)
      = Ok x2 ∧
    PCA_transform p x2 = Ok x ∧
    __get_train_weights predict_data = Ok weights ∧
    predict_data !! (2 * k) = Some data ∧
    in_answer ps = TrainSample.answer data ∧
    out_answer ps
      = list_to_set (players (TrainSample.exam_episode data))
          ∖ TrainSample.answer data ∧
    in_answer ps ## out_answer ps ∧
    x !! (2 * k + 1) = Some (in_features ps) ∧
    x !! (2 * k) = Some (out_features ps) ∧
    weights !! k = Some (weight ps).
Proof.
  intros (predict_data & Hdata & [[_ ->]|Hrest])%get_predict_data_Ok Hk;
    [by rewrite lookup_nil in Hk|].
  destruct Hrest as (d & f & p & x1 & x2 & x & weights & Hd & Hf & Hp & H1
                     & H2 & H3 & Hw & ->).
  rewrite predict_samples_loop_zip in Hk. cbn [app] in Hk.
  apply lookup_zip_with_Some in Hk as ([data fin] & [fout w] & -> & Hdi & How).
  apply lookup_zip_with_Some in Hdi as (? & ? & [= <- <-] & Hdata' & Hin).
  apply lookup_zip_with_Some in How as (? & ? & [= <- <-] & Hout & Hw').
  rewrite (proj1 (evens_odds_lookup _ _)) in Hdata'.
  rewrite (proj1 (evens_odds_lookup _ _)) in Hout.
  rewrite (proj2 (evens_odds_lookup _ _)) in Hin.
  exists predict_data, d, f, p, x1, x2, x, weights, data.
  repeat (split; [done|]). cbn [make_predict_sample in_answer out_answer
    in_features out_features weight fst snd].
  repeat (split; [done|]). split; [|done].
  apply elem_of_disjoint. intros y Hy [_ Hy']%elem_of_difference. done.
Qed.

(** X16.  When the fitted transforms keep the number of rows, as the
    library's do, [get_predict_data] returns exactly one prediction sample
    per pair of rows of the season data. *)
Theorem get_predict_data_length (self self' : ExamDropExtractor)
    (samples : list PredictSample) :
  (∀ d m m', KBins_transform d m = Ok m' → length m' = length m) →
  (∀ f m m', SelectFpr_transform f m = Ok m' → length m' = length m) →
  (∀ p m m', PCA_transform p m = Ok m' → length m' = length m) →
  get_predict_data self = (self', Ok samples) →
  ∃ predict_data,
    __get_season_data (predict_season self) (predict_episode self) false
      = Ok predict_data ∧
    length predict_data = 2 * length samples.
Proof.
  intros HK HS HP (predict_data & Hdata & Hcases)%get_predict_data_Ok.
  exists predict_data. split; [done|].
  destruct Hcases as [[-> ->]|Hrest]; [done|].
  destruct Hrest as (d & f & p & x1 & x2 & x & weights & _ & _ & _ & H1
                     & H2 & H3 & Hw & ->).
  apply HK in H1. apply HS in H2. apply HP in H3.
  rewrite length_fmap in H1.
  rewrite add_answered_on_feature_rows, length_fmap, length_zip, H1 in H2.
  apply train_weights_loop_Ok in Hw as [-> _]. cbn [app].
  assert (Nat.Even (length predict_data)) as [n Hn].
  { unfold __get_season_data, dict_getitem in Hdata.
    destruct (EXAM_DATA !! predict_season self) as [season|]; [|done].
    cbn [mbind result_bind] in Hdata. apply season_data_loop_Ok in Hdata.
    rewrite Hdata. apply expansion_predict_even. }
  rewrite predict_samples_loop_zip. cbn [app].
  rewrite length_zip_with, !length_zip, length_fmap.
  rewrite (proj1 (evens_odds_length predict_data)).
  rewrite (proj1 (evens_odds_length x)), (proj2 (evens_odds_length x)).
  rewrite H3, H2, Nat.min_id, Hn.
  replace (S (2 * n)) with (1 + 2 * n) by lia.
  rewrite Nat.div2_succ_double, Nat.div2_double. lia.
Qed.

End Extractor.

Arguments __init__ {KBins SelectFpr PCA} _ _ _ _ _ _.
Arguments trained {KBins SelectFpr PCA} self.
Arguments get_predict_data EXAM_DATA extract_features
  {KBins} KBins_transform {SelectFpr} SelectFpr_transform
  {PCA} PCA_transform self.
Arguments get_train_data EXAM_DATA get_is_mol extract_features
  {KBins} KBins_fit KBins_transform KBins_fit_transform stats_entropy
  {SelectFpr} SelectFpr_fit SelectFpr_transform
  {PCA} PCA_fit PCA_transform self.
Arguments example_extractor {KBins SelectFpr PCA} episode d f p.
Arguments example_trainer {KBins SelectFpr PCA} seasons.
Arguments same_configuration {KBins SelectFpr PCA} self1 self2.
Arguments with_estimators {KBins SelectFpr PCA} self d f p.

(** ** The validation plot *)

Lemma first_feature_with_label_length (value : Q) (rows : list (list Q * Q)) :
  Forall (λ row : list Q * Q, row.1 ≠ []) rows →
  ∃ xs,
    first_feature_with_label value rows = Ok xs ∧
    length xs = length (filter (λ row : list Q * Q, (row.2 == value)%Q) rows).
Proof.
  induction 1 as [|[data label] rows Hne _ (xs & IH & Hlen)].
  - by exists [].
  - cbn [first_feature_with_label]. rewrite filter_cons. cbn [snd].
    destruct (Qeq_bool label value) eqn:Hl.
    + apply Qeq_bool_iff in Hl. rewrite decide_True by done.
      destruct data as [|x data]; [done|].
      cbn [getitem lookup list_lookup mbind result_bind]. rewrite IH.
      cbn [mbind result_bind]. exists (x :: xs). split; [done|].
      cbn [length]. by rewrite Hlen.
    + rewrite decide_False.
      * exists xs. by split.
      * intros Heq%Qeq_bool_iff. by rewrite Heq in Hl.
Qed.

Lemma filter_labels_length (rows : list (list Q * Q)) :
  Forall (λ row : list Q * Q, row.2 == 0 ∨ row.2 == 1)%Q rows →
  length (filter (λ row : list Q * Q, (row.2 == 0)%Q) rows)
  + length (filter (λ row : list Q * Q, (row.2 == 1)%Q) rows)
  = length rows.
Proof.
  induction 1 as [|[data label] rows Hrow _ IH]; [done|].
  rewrite !filter_cons. cbn [snd length] in *.
  destruct Hrow as [H0|H1].
  - rewrite decide_True by done. rewrite decide_False.
    + cbn [length]. lia.
    + rewrite H0. intros H. vm_compute in H. discriminate H.
  - rewrite decide_False.
    + rewrite decide_True by done. cbn [length]. lia.
    + rewrite H1. intros H. vm_compute in H. discriminate H.
Qed.

(** X17.  When no row is empty and every label is 0.0 or 1.0, the two
    lists of first features are defined and split the labelled rows between
    them: their lengths add up to the number of row-label pairs. *)
Theorem non_mol_mol_partition (train_input : list (list Q))
    (train_output : list Q) :
  Forall (λ row, row ≠ []) train_input →
  Forall (λ label, label == 0 ∨ label == 1)%Q train_output →
  ∃ xs ys,
    non_mol train_input train_output = Ok xs ∧
    mol train_input train_output = Ok ys ∧
    length xs + length ys = length train_input `min` length train_output.
Proof.
  intros Hrows Hlabels. unfold non_mol, mol.
  assert (Forall (λ row : list Q * Q, row.1 ≠ [])
            (zip train_input train_output)) as Hz.
  { apply Forall_forall. intros [data label] Hin%elem_of_zip_l.
    rewrite Forall_forall in Hrows. by apply Hrows. }
  destruct (first_feature_with_label_length 0 _ Hz) as (xs & -> & Hxs).
  destruct (first_feature_with_label_length 1 _ Hz) as (ys & -> & Hys).
  exists xs, ys. split; [done|]. split; [done|].
  rewrite Hxs, Hys, <- length_zip. apply filter_labels_length.
  apply Forall_forall. intros [data label] Hin%elem_of_zip_r.
  rewrite Forall_forall in Hlabels. by apply Hlabels.
Qed.

(** X18.  Where the two densities are non-negative and not both zero, the
    plotted posterior is Bayes' rule with a prior of one in ten: it equals
    [mY / (9 nY + mY)], lies between 0 and 1, and is the prior itself where
    the two densities agree. *)
Theorem posterior_Y_bayes (non_mol_Y mol_Y : list Q) (i : nat) (nY mY : Q) :
  non_mol_Y !! i = Some nY → mol_Y !! i = Some mY →
  (0 <= nY)%Q → (0 <= mY)%Q → (0 < nY + mY)%Q →
  ∃ p,
    posterior_Y non_mol_Y mol_Y !! i = Some p ∧
    (p == mY / (9 * nY + mY))%Q ∧
    (0 <= p)%Q ∧ (p <= 1)%Q ∧
    ((nY == mY)%Q → (p == 1 # 10)%Q).
Proof.
  intros Hn Hm Hn0 Hm0 Hpos. eexists. split.
  { unfold posterior_Y. rewrite lookup_zip_with, Hn. cbn [mbind option_bind].
    rewrite Hm. reflexivity. }
  assert (0 < 9 * nY + mY)%Q as Hden by lra.
  assert (mY / 10 / (9 * nY / 10 + mY / 10) == mY / (9 * nY + mY))%Q as Heq
    by (field; lra).
  split; [exact Heq|]. rewrite Heq. split; [|split].
  - apply Qle_shift_div_l; [done | lra].
  - apply Qle_shift_div_r; [done | lra].
  - intros Hnm. rewrite Hnm. field. lra.
Qed.

(** * The properties at the example data *)

(** ** Sample weights *)

(** C1, counterexample.  In the example season player 0 gave one answer in
    the episode; in train mode it is expanded into one sample per player of
    the episode, each of weight 1, so the weights of the pair sum to 3. *)
Lemma pair_weight_sum_not_one :
  __get_season_data example_exam_data 22 sys_maxsize true
    = Ok example_train_data ∧
  __get_train_weights example_train_data = Ok example_train_weights ∧
  (pair_weight_sum 0%nat example_episode example_train_data example_train_weights
   == 3)%Q ∧
  ¬ (pair_weight_sum 0%nat example_episode example_train_data example_train_weights
     == 1)%Q.
Proof.
  split; [vm_compute; reflexivity|]. split; [vm_compute; reflexivity|].
  split; [vm_compute; reflexivity|]. vm_compute. discriminate.
Qed.

(** The weights of player 1, who gave two answers that are both expanded
    over the three players of the episode, sum to 3. *)
Lemma pair_weight_sum_samples_per_answer_witness :
  example_exam_data !! 22%Z = Some example_season ∧
  __get_season_data example_exam_data 22 sys_maxsize true
    = Ok example_train_data ∧
  __get_train_weights example_train_data = Ok example_train_weights ∧
  (pair_weight_sum 1%nat example_episode example_train_data example_train_weights
   == Qnat (samples_per_answer true example_episode))%Q.
Proof.
  assert (example_exam_data !! 22%Z = Some example_season) as H0
    by (vm_compute; reflexivity).
  assert (__get_season_data example_exam_data 22 sys_maxsize true
          = Ok example_train_data) as H1 by (vm_compute; reflexivity).
  assert (__get_train_weights example_train_data = Ok example_train_weights)
    as H2 by (vm_compute; reflexivity).
  split; [exact H0|]. split; [exact H1|]. split; [exact H2|].
  apply (pair_weight_sum_samples_per_answer example_exam_data 22 sys_maxsize
           true example_season example_train_data example_train_weights 1
           example_episode H0 H1 H2).
  - vm_compute; reflexivity.
  - vm_compute; lia.
Defined.

(** ** The season-data expansion *)


(** ** The answered-on augmentation *)

(** Three rows of width 2 become rows of width 5. *)
Lemma add_answered_on_feature_width_witness :
  Forall (λ features : list Q, length features = 2)
    [[1; 2]; [3; 4]; [5; 6]]%Q ∧
  Forall (λ row : list Q, length row = 2 * 2 + 1)
    (__add_answered_on_feature example_train_data
       [[1; 2]; [3; 4]; [5; 6]]%Q).
Proof.
  assert (Forall (λ features : list Q, length features = 2)
            [[1; 2]; [3; 4]; [5; 6]]%Q) as HW by (repeat constructor).
  split; [exact HW|].
  exact (proj1 (proj2 (add_answered_on_feature_width example_train_data
                         [[1; 2]; [3; 4]; [5; 6]]%Q 2 HW))).
Defined.

(** ** The bin allocator *)

(** C4, counterexample.  An input without rows has no first row to read the
    features from: the allocator raises instead of returning bin counts. *)
Lemma get_num_bins_no_rows :
  get_num_bins width_fit_transform gini [] 0 = Raise IndexError.
Proof. reflexivity. Qed.

(** The example matrix under the budgets 1 and 5. *)
Lemma get_num_bins_monotone_witness :
  (1 ≤ 5)%Z ∧
  get_num_bins width_fit_transform gini example_matrix 1 = Ok [3; 2] ∧
  get_num_bins width_fit_transform gini example_matrix 5 = Ok [4; 3] ∧
  ((∃ bins bins',
      get_num_bins width_fit_transform gini example_matrix 1 = Ok bins ∧
      get_num_bins width_fit_transform gini example_matrix 5 = Ok bins' ∧
      length bins = length (T example_matrix) ∧
      length bins' = length (T example_matrix) ∧
      Forall2 le bins bins' ∧
      2 * length (T example_matrix) ≤ sum_list bins ∧
      2 * length (T example_matrix) ≤ sum_list bins') ∨
   (example_matrix = [] ∧
    get_num_bins width_fit_transform gini example_matrix 1 = Raise IndexError ∧
    get_num_bins width_fit_transform gini example_matrix 5 = Raise IndexError)).
Proof.
  assert (1 ≤ 5)%Z as Hk by lia.
  split; [exact Hk|].
  split; [vm_compute; reflexivity|]. split; [vm_compute; reflexivity|].
  exact (get_num_bins_monotone width_fit_transform gini example_matrix 1 5 Hk).
Defined.

(** C2, counterexample.  On the drift matrix, after one iteration, both
    features are below their numbers of distinct values and both have a gain
    of zero: feature 0 at two bins, feature 1 at three.  The tie is not
    broken by feature order: the queue hands out feature 1.  Its key is
    [-2 ^ -53], not the negated difference of its entropies at four and at
    three bins, which is zero.  With a budget of two the allocator returns
    three more bins for feature 1 and none for feature 0. *)
Lemma split_iteration_not_best_gain :
  let column0 := [0; 1; 0; 1; 0; 1; 12; 12; 12; 12; 12; 12]%Q in
  let column1 := [0; 1; 2; 0; 1; 2; 4; 5; 4; 5; 4; 12]%Q in
  get_num_bins_locals width_fit_transform table_entropy drift_matrix 1
    = Ok drift_locals ∧
  T drift_matrix = [column0; column1] ∧
  num_bins drift_locals = [2; 3] ∧
  2 < length (py_set column0) ∧ 3 < length (py_set column1) ∧
  (gain width_fit_transform table_entropy column0 2 == 0)%Q ∧
  (gain width_fit_transform table_entropy column1 3 == 0)%Q ∧
  (∃ entropy rest,
     PriorityQueue.get (options drift_locals) = Some ((entropy, 1), rest) ∧
     (entropy == - (1 # 9007199254740992))%Q ∧
     ¬ (entropy == gain width_fit_transform table_entropy column1 3)%Q) ∧
  get_num_bins width_fit_transform table_entropy drift_matrix 2 = Ok [2; 4].
Proof.
  intros column0 column1.
  split; [vm_compute; reflexivity|]. split; [reflexivity|].
  split; [reflexivity|]. split; [vm_compute; lia|]. split; [vm_compute; lia|].
  split; [vm_compute; reflexivity|]. split; [vm_compute; reflexivity|].
  split; [|vm_compute; reflexivity].
  eexists _, _. split; [reflexivity|].
  split; [vm_compute; reflexivity|]. intros H. vm_compute in H. discriminate H.
Qed.

(** The second iteration on the drift matrix: feature 1, with three bins,
    has the least pushed gain and gets the bin. *)
Lemma split_iteration_witness :
  get_num_bins_locals width_fit_transform table_entropy drift_matrix
    (Z.of_nat 1) = Ok drift_locals ∧
  ∃ nb column,
    num_bins drift_locals !! 1 = Some nb ∧
    T drift_matrix !! 1 = Some column ∧
    nb < length (py_set column) ∧
    entropies drift_locals !! 1
    = Some (tracked_entropy width_fit_transform table_entropy column nb) ∧
    (∀ i' nb' column',
       i' ≠ 1 → num_bins drift_locals !! i' = Some nb' →
       T drift_matrix !! i' = Some column' →
       nb' < length (py_set column') →
       (pushed_gain width_fit_transform table_entropy column nb
        < pushed_gain width_fit_transform table_entropy column' nb')%Q ∨
       ((pushed_gain width_fit_transform table_entropy column nb
         == pushed_gain width_fit_transform table_entropy column' nb')%Q
        ∧ 1 < i')) ∧
    ∃ st',
      get_num_bins_locals width_fit_transform table_entropy drift_matrix
        (Z.of_nat 2) = Ok st' ∧
      num_bins st' = <[1 := nb + 1]> (num_bins drift_locals).
Proof.
  assert (get_num_bins_locals width_fit_transform table_entropy drift_matrix
            (Z.of_nat 1) = Ok drift_locals) as H1
    by (vm_compute; reflexivity).
  split; [exact H1|].
  pose proof (split_iteration width_fit_transform table_entropy drift_matrix
                1 drift_locals H1) as H.
  cbv zeta delta [drift_locals] in H.
  cbn [options PriorityQueue.get] in H.
  destruct H as (nb & column & Hnb & Hc & Hlt & He & _ & Hbest & _ & st'
                 & Hst' & Hnum & _).
  exists nb, column. split; [exact Hnb|]. split; [exact Hc|].
  split; [exact Hlt|]. split; [exact He|]. split; [exact Hbest|].
  exists st'. split; [exact Hst' | exact Hnum].
Defined.

(** ** The entry points *)

(** C8, counterexample.  A significance threshold of 2, a variance fraction
    of 0 and a bin budget of -1 are all out of range, and the constructor
    returns an extractor. *)
Lemma init_accepts_invalid_configuration :
  ¬ (0 < 2 ∧ 2 < 1)%Q ∧ ¬ (0 < 0 ∧ 0 <= 1)%Q ∧ (-1 < 0)%Z ∧
  ∃ self : ExamDropExtractor () () (),
    __init__ 22 6 [21%Z] 2 0 (-1) = Ok self.
Proof.
  split; [intros [_ H]; vm_compute in H; discriminate|].
  split; [intros [H _]; vm_compute in H; discriminate|].
  split; [lia|]. by eexists.
Qed.

(** C7, counterexample.  A fresh extractor, asked to predict for a cutoff
    before the first episode, finds no sample and returns the empty list:
    no exception although no training call was ever made. *)
Lemma get_predict_data_before_training_returns :
  ∃ self : ExamDropExtractor () () (),
    __init__ 22 0 [21%Z] (1 # 10) (9 # 10) 3 = Ok self ∧
    ¬ trained self ∧
    get_predict_data example_exam_data example_features identity_transform
      identity_transform identity_transform self = (self, Ok []).
Proof.
  eexists. split; [reflexivity|]. split.
  - by intros (d & f & p & Hd & _).
  - vm_compute. reflexivity.
Qed.

(** A fresh extractor asked to predict where samples exist. *)
Lemma get_predict_data_untrained_witness :
  ¬ trained (example_extractor (KBins := ()) (SelectFpr := ()) (PCA := ())
               6 None None None) ∧
  __get_season_data example_exam_data 22 6 false = Ok example_predict_data ∧
  get_predict_data example_exam_data example_features identity_transform
    identity_transform identity_transform
    (example_extractor 6 None None None)
  = (example_extractor 6 None None None, Raise AttributeError).
Proof.
  assert (¬ trained (example_extractor (KBins := ()) (SelectFpr := ())
                       (PCA := ()) 6 None None None)) as Hun.
  { intros (d & f & p & Hd & _). discriminate Hd. }
  assert (__get_season_data example_exam_data 22 6 false
          = Ok example_predict_data) as Hdata by (vm_compute; reflexivity).
  split; [exact Hun|]. split; [exact Hdata|].
  apply (get_predict_data_untrained example_exam_data example_features
           () identity_transform () identity_transform () identity_transform
           (example_extractor 6 None None None) example_predict_data Hun Hdata).
  - vm_compute. discriminate.
  - reflexivity.
Defined.

(** A fitted extractor asked to predict for a cutoff before the first
    episode. *)
Lemma get_predict_data_empty_witness :
  (example_exam_data !! 22%Z = Some example_season ∧
   get_all_answers example_season
     (dom (get_drop_mapping example_season EXECUTION_DROP 0)) 0 = []) ∧
  get_predict_data example_exam_data example_features identity_transform
    identity_transform identity_transform
    (example_extractor 0 (Some (Fitted ())) (Some (Fitted ()))
       (Some (Fitted ())))
  = (example_extractor 0 (Some (Fitted ())) (Some (Fitted ()))
       (Some (Fitted ())), Ok []).
Proof.
  assert (example_exam_data !! 22%Z = Some example_season ∧
          get_all_answers example_season
            (dom (get_drop_mapping example_season EXECUTION_DROP 0)) 0 = [])
    as Hnone by (split; vm_compute; reflexivity).
  split; [exact Hnone|].
  apply (get_predict_data_empty example_exam_data example_features
           () identity_transform () identity_transform () identity_transform
           (example_extractor 0 (Some (Fitted ())) (Some (Fitted ()))
              (Some (Fitted ())))).
  right. exists example_season. exact Hnone.
Defined.

(** C3, the code at a failing input.  On the example season with all
    estimators fitted, [get_predict_data] returns three prediction samples,
    one per answer.  The second is built from rows 2 and 3, which belong to
    player 1, who gave two answers in the episode: its weight should be 1/2.
    The weights are zipped unsliced against every second row, so the sample
    gets the weight of row 1, which belongs to player 0: it is 1. *)
Theorem get_predict_data_weight_misaligned :
  ∃ samples,
    get_predict_data example_exam_data example_features identity_transform
      identity_transform identity_transform
      (example_extractor 6 (Some (Fitted ())) (Some (Fitted ()))
         (Some (Fitted ())))
    = (example_extractor 6 (Some (Fitted ())) (Some (Fitted ()))
         (Some (Fitted ())), Ok samples) ∧
    weight <$> samples = [1; 1; 1 # 2]%Q ∧
    (λ s, 1 # Pos.of_nat (num_answers s)) <$> evens example_predict_data
      = [1; 1 # 2; 1 # 2]%Q ∧
    TrainSample.player <$> evens example_predict_data = [0; 1; 1].
Proof.
  eexists. split; [vm_compute; reflexivity|].
  split; [vm_compute; reflexivity|].
  split; vm_compute; reflexivity.
Qed.

(** * The further properties at the example data *)

(** The locals of the allocator on the drift matrix after one iteration:
    the tracked entropy of feature 1 is not its entropy at three bins, and
    it is within three rounding errors of it. *)
Lemma get_num_bins_bookkeeping_witness :
  let column1 := [0; 1; 2; 0; 1; 2; 4; 5; 4; 5; 4; 12]%Q in
  get_num_bins_locals width_fit_transform table_entropy drift_matrix 1
    = Ok drift_locals ∧
  NoDup (options drift_locals).*2 ∧
  entropies drift_locals !! 1
  = Some (tracked_entropy width_fit_transform table_entropy column1 3) ∧
  ¬ (tracked_entropy width_fit_transform table_entropy column1 3
     == column_entropy width_fit_transform table_entropy column1 3)%Q ∧
  (Qabs (tracked_entropy width_fit_transform table_entropy column1 3
         - column_entropy width_fit_transform table_entropy column1 3)
   <= 3 * rounding_unit 2)%Q.
Proof.
  intros column1.
  assert (get_num_bins_locals width_fit_transform table_entropy drift_matrix 1
          = Ok drift_locals) as H by (vm_compute; reflexivity).
  split; [exact H|].
  destruct (get_num_bins_bookkeeping width_fit_transform table_entropy
              drift_matrix 1 drift_locals H) as (_ & _ & Hnodup & Hrows).
  split; [exact Hnodup|].
  destruct (Hrows 1 3 column1 eq_refl eq_refl) as (He & _ & _ & Htol).
  split; [exact He|].
  split; [intros Heq; vm_compute in Heq; discriminate Heq|].
  refine (proj1 (Htol 2%Q _)). intros b Hb.
  assert (b = 2 ∨ b = 3 ∨ b = 4) as [-> | [-> | ->] ] by lia;
    split; intros Hgt; vm_compute in Hgt; discriminate Hgt.
Defined.

(** Equal-width binning of five values into three bins. *)
Lemma entropy_of_probabilities_witness :
  width_fit_transform 3 (expand_dims [0; 1; 2; 4; 4]%Q) ≠ [] ∧
  Forall (λ row, ∃ k, k < 3 ∧ row = one_hot 3 k)
    (width_fit_transform 3 (expand_dims [0; 1; 2; 4; 4]%Q)) ∧
  (np_sum (bin_probabilities
             (width_fit_transform 3 (expand_dims [0; 1; 2; 4; 4]%Q))) == 1)%Q.
Proof.
  assert (width_fit_transform 3 (expand_dims [0; 1; 2; 4; 4]%Q) ≠ []) as Hne
    by (vm_compute; discriminate).
  assert (Forall (λ row, ∃ k, k < 3 ∧ row = one_hot 3 k)
            (width_fit_transform 3 (expand_dims [0; 1; 2; 4; 4]%Q))) as Hrows.
  { vm_compute.
    repeat (constructor;
            [first [exists 0; split; [lia | reflexivity]
                   | exists 1; split; [lia | reflexivity]
                   | exists 2; split; [lia | reflexivity]]|]).
    constructor. }
  split; [exact Hne|]. split; [exact Hrows|].
  exact (proj2 (proj2 (proj2 (entropy_of_probabilities width_fit_transform gini
                                (expand_dims [0; 1; 2; 4; 4]%Q) 3 3
                                Hne Hrows)))).
Defined.

(** The train data of the example season has all its weights. *)
Lemma get_train_weights_season_data_witness :
  example_exam_data !! 22%Z = Some example_season ∧
  __get_season_data example_exam_data 22 sys_maxsize true
    = Ok example_train_data ∧
  ∃ weights,
    __get_train_weights example_train_data = Ok weights ∧
    length weights = length example_train_data.
Proof.
  assert (example_exam_data !! 22%Z = Some example_season) as H0
    by (vm_compute; reflexivity).
  assert (__get_season_data example_exam_data 22 sys_maxsize true
          = Ok example_train_data) as H1 by (vm_compute; reflexivity).
  split; [exact H0|]. split; [exact H1|].
  apply (get_train_weights_season_data example_exam_data 22 sys_maxsize true
           example_season example_train_data H0); [|exact H1].
  intros a Ha.
  cbn [example_season get_all_answers get_drop_mapping] in Ha.
  rewrite decide_True in Ha by (vm_compute; discriminate).
  apply list_elem_of_fmap in Ha as ([[pl q] answered] & -> & Hr).
  apply list_elem_of_filter in Hr as [_ Hin].
  exists q, answered. exact Hin.
Defined.

(** The weights of rows 2 and 3 of the example predict data. *)
Lemma predict_pair_weights_equal_witness :
  ∃ weights w w',
    __get_season_data example_exam_data 22 6 false = Ok example_predict_data ∧
    __get_train_weights example_predict_data = Ok weights ∧
    weights !! (2 * 1) = Some w ∧ weights !! (2 * 1 + 1) = Some w' ∧
    w = w'.
Proof.
  assert (__get_season_data example_exam_data 22 6 false
          = Ok example_predict_data) as H0 by (vm_compute; reflexivity).
  eassert (__get_train_weights example_predict_data = Ok _) as H1
    by (vm_compute; reflexivity).
  match type of H1 with _ = Ok ?ws =>
    eassert (ws !! (2 * 1) = Some _) as H2 by (vm_compute; reflexivity);
    eassert (ws !! (2 * 1 + 1) = Some _) as H3 by (vm_compute; reflexivity)
  end.
  eexists _, _, _. split; [exact H0|]. split; [exact H1|].
  split; [exact H2|]. split; [exact H3|].
  exact (predict_pair_weights_equal example_exam_data 22 6
           example_predict_data _ 1 _ _ H0 H1 H2 H3).
Defined.

(** Rows 2 and 3 of the augmented example predict data. *)
Lemma predict_rows_alternate_witness :
  __get_season_data example_exam_data 22 6 false = Ok example_predict_data ∧
  2 * 1 + 1 < length example_predict_data ∧
  __add_answered_on_feature example_predict_data
    [[1]; [2]; [3]; [4]; [5]; [6]]%Q !! (2 * 1)
  = Some ([3] ++ (Qmult 0 <$> [3]) ++ [0])%Q.
Proof.
  assert (__get_season_data example_exam_data 22 6 false
          = Ok example_predict_data) as H0 by (vm_compute; reflexivity).
  assert (2 * 1 + 1 < length example_predict_data) as H1 by (vm_compute; lia).
  split; [exact H0|]. split; [exact H1|].
  exact (proj1 (predict_rows_alternate example_exam_data 22 6
                  example_predict_data [[1]; [2]; [3]; [4]; [5]; [6]]%Q 1
                  [3]%Q [4]%Q H0 H1 eq_refl eq_refl)).
Defined.

(** Training on the example season succeeds and leaves a trained
    extractor with nine labels. *)
Lemma get_train_data_returns_witness :
  ∃ (self' : ExamDropExtractor () () ()) x y w,
    get_train_data example_exam_data example_is_mol example_features
      identity_fit identity_transform width_fit_transform gini
      identity_fit_labels identity_transform
      identity_fit_fraction identity_transform (example_trainer [22%Z])
    = (self', Ok (x, y, w)) ∧
    trained self' ∧ length y = 9.
Proof.
  eassert (get_train_data example_exam_data example_is_mol example_features
             identity_fit identity_transform width_fit_transform gini
             identity_fit_labels identity_transform
             identity_fit_fraction identity_transform (example_trainer [22%Z])
           = (_, Ok (_, _, _))) as H by (vm_compute; reflexivity).
  eexists _, _, _, _. split; [exact H|].
  destruct (get_train_data_returns _ _ _ _ _ _ _ _ _ _ _ _ _ _ _ _ _ _ _ H)
    as (Htrained & _ & train_data & _ & _ & Hy & _).
  split; [exact Htrained|]. vm_compute. reflexivity.
Defined.

(** Training without train seasons. *)
Lemma get_train_data_no_samples_witness :
  train_data_loop example_exam_data [] [] = Ok [] ∧
  get_train_data example_exam_data example_is_mol example_features
    identity_fit identity_transform width_fit_transform gini
    identity_fit_labels identity_transform
    identity_fit_fraction identity_transform (example_trainer [])
  = (example_trainer [], Raise IndexError).
Proof.
  split; [reflexivity|].
  exact (get_train_data_no_samples example_exam_data example_is_mol
           example_features () identity_fit identity_transform
           width_fit_transform gini () identity_fit_labels identity_transform
           () identity_fit_fraction identity_transform (example_trainer [])
           eq_refl).
Defined.

(** Two seasons iterated in either order. *)
Lemma train_seasons_iteration_order_witness :
  [21; 22]%Z ≡ₚ [22; 21]%Z ∧
  match train_data_loop example_two_seasons [21; 22]%Z [],
        train_data_loop example_two_seasons [22; 21]%Z [] with
  | Ok train_data, Ok train_data' =>
      train_data ≡ₚ train_data' ∧ length train_data = 18
  | _, _ => False
  end.
Proof.
  assert ([21; 22]%Z ≡ₚ [22; 21]%Z) as Hp by apply Permutation_swap.
  split; [exact Hp|].
  pose proof (train_seasons_iteration_order example_two_seasons
                example_is_mol [21; 22]%Z [22; 21]%Z Hp) as H.
  destruct (train_data_loop example_two_seasons [21; 22]%Z []) as [l|e] eqn:Hl,
           (train_data_loop example_two_seasons [22; 21]%Z []) as [l'|e'];
    [|exact H|exact H|].
  - split; [exact (proj1 H)|]. vm_compute in Hl. injection Hl as <-. reflexivity.
  - vm_compute in Hl. discriminate Hl.
Defined.

(** Training on a season the example exam data does not hold. *)
Lemma get_train_data_unknown_season_witness :
  21%Z ∈ [21%Z] ∧ example_exam_data !! 21%Z = None ∧
  get_train_data example_exam_data example_is_mol example_features
    identity_fit identity_transform width_fit_transform gini
    identity_fit_labels identity_transform
    identity_fit_fraction identity_transform (example_trainer [21%Z])
  = (example_trainer [21%Z], Raise KeyError).
Proof.
  assert (21%Z ∈ [21%Z]) as Hin by (apply elem_of_cons; by left).
  assert (example_exam_data !! 21%Z = None) as Hnone
    by (vm_compute; reflexivity).
  split; [exact Hin|]. split; [exact Hnone|].
  exact (get_train_data_unknown_season example_exam_data example_is_mol
           example_features () identity_fit identity_transform
           width_fit_transform gini () identity_fit_labels identity_transform
           () identity_fit_fraction identity_transform
           (example_trainer [21%Z]) 21 Hin Hnone).
Defined.

(** The second prediction sample of the example season. *)
Lemma get_predict_data_samples_witness :
  ∃ samples ps,
    get_predict_data example_exam_data example_features identity_transform
      identity_transform identity_transform
      (example_extractor 6 (Some (Fitted ())) (Some (Fitted ()))
         (Some (Fitted ())))
    = (example_extractor 6 (Some (Fitted ())) (Some (Fitted ()))
         (Some (Fitted ())), Ok samples) ∧
    samples !! 1 = Some ps ∧
    in_answer ps ## out_answer ps.
Proof.
  eassert (get_predict_data example_exam_data example_features
             identity_transform identity_transform identity_transform
             (example_extractor 6 (Some (Fitted ())) (Some (Fitted ()))
                (Some (Fitted ())))
           = (example_extractor 6 (Some (Fitted ())) (Some (Fitted ()))
                (Some (Fitted ())), Ok _)) as H
    by (vm_compute; reflexivity).
  match type of H with _ = (_, Ok ?samples) =>
    eassert (samples !! 1 = Some _) as Hk by (vm_compute; reflexivity)
  end.
  eexists _, _. split; [exact H|]. split; [exact Hk|].
  destruct (get_predict_data_samples _ _ _ _ _ _ _ _ _ _ _ 1 _ H Hk)
    as (pd & d & f & p & x1 & x2 & x & ws & data & _ & _ & _ & _ & _ & _ & _
        & _ & _ & _ & _ & Hdisj & _).
  exact Hdisj.
Defined.

(** Identity transforms keep the number of rows: three samples for six
    rows. *)
Lemma get_predict_data_length_witness :
  ∃ samples,
    get_predict_data example_exam_data example_features identity_transform
      identity_transform identity_transform
      (example_extractor 6 (Some (Fitted ())) (Some (Fitted ()))
         (Some (Fitted ())))
    = (example_extractor 6 (Some (Fitted ())) (Some (Fitted ()))
         (Some (Fitted ())), Ok samples) ∧
    ∃ predict_data,
      __get_season_data example_exam_data 22 6 false = Ok predict_data ∧
      length predict_data = 2 * length samples.
Proof.
  eassert (get_predict_data example_exam_data example_features
             identity_transform identity_transform identity_transform
             (example_extractor 6 (Some (Fitted ())) (Some (Fitted ()))
                (Some (Fitted ())))
           = (example_extractor 6 (Some (Fitted ())) (Some (Fitted ()))
                (Some (Fitted ())), Ok _)) as H
    by (vm_compute; reflexivity).
  assert (∀ (e : ()) (m m' : list (list Q)),
            identity_transform e m = Ok m' → length m' = length m) as Hrows
    by (intros ? m m' [= <-]; reflexivity).
  eexists. split; [exact H|].
  exact (get_predict_data_length example_exam_data example_features
           () identity_transform () identity_transform () identity_transform
           (example_extractor 6 (Some (Fitted ())) (Some (Fitted ()))
              (Some (Fitted ()))) _ _ Hrows Hrows Hrows H).
Defined.

(** Two rows, one of each label. *)
Lemma non_mol_mol_partition_witness :
  Forall (λ row : list Q, row ≠ []) [[1; 2]; [3]]%Q ∧
  Forall (λ label, label == 0 ∨ label == 1)%Q [0; 1]%Q ∧
  ∃ xs ys,
    non_mol [[1; 2]; [3]]%Q [0; 1]%Q = Ok xs ∧
    mol [[1; 2]; [3]]%Q [0; 1]%Q = Ok ys ∧
    length xs + length ys = 2 `min` 2.
Proof.
  assert (Forall (λ row : list Q, row ≠ []) [[1; 2]; [3]]%Q) as Hr
    by (repeat constructor; discriminate).
  assert (Forall (λ label, label == 0 ∨ label == 1)%Q [0; 1]%Q) as Hl
    by (constructor; [left; reflexivity|];
        constructor; [right; reflexivity | constructor]).
  split; [exact Hr|]. split; [exact Hl|].
  exact (non_mol_mol_partition [[1; 2]; [3]]%Q [0; 1]%Q Hr Hl).
Defined.

(** Densities 2 and 1: the posterior is 1/19. *)
Lemma posterior_Y_bayes_witness :
  (0 <= 2)%Q ∧ (0 <= 1)%Q ∧ (0 < 2 + 1)%Q ∧
  ∃ p,
    posterior_Y [2%Q] [1%Q] !! 0 = Some p ∧
    (p == 1 / (9 * 2 + 1))%Q ∧
    (0 <= p)%Q ∧ (p <= 1)%Q ∧ ((2 == 1)%Q → (p == 1 # 10)%Q).
Proof.
  assert (0 <= 2)%Q as H0 by (vm_compute; discriminate).
  assert (0 <= 1)%Q as H1 by (vm_compute; discriminate).
  assert (0 < 2 + 1)%Q as H2 by (vm_compute; reflexivity).
  split; [exact H0|]. split; [exact H1|]. split; [exact H2|].
  exact (posterior_Y_bayes [2%Q] [1%Q] 0 2 1 eq_refl eq_refl H0 H1 H2).
Defined.
